(** * ChromiumBuilder: the patch pipelines

  A shallow embedding of [patches/apply-ungoogled-patches.py] (class
  [UngoogledPatcher]) and [patches/apply-clang-optimizations.py] (class
  [ClangOptimizer]), and the properties of the transformation pipeline
  they implement.

  Python methods become functions in a state-and-exception monad [Py]
  over a model of the file system, the log and the external calls made.
  The external tools run through [subprocess.run] and the regular
  expression engine [re.sub] are parameters of the development. *)

From Stdlib Require Import String Ascii List ZArith Bool Lia.
From stdpp Require Import base option list gmap strings pretty sorting.

Open Scope string_scope.
Open Scope list_scope.
Open Scope Z_scope.
Open Scope nat_scope.

(** ** Python strings *)

Module PyStr.

(** [str.startswith]. *)
Definition startswith (s p : string) : bool := String.prefix p s.

(** The ASCII part of what [str.strip] removes. *)
Definition is_space (c : ascii) : bool :=
  match c with
  | "009" | "010" | "011" | "012" | "013" | " "
  | "028" | "029" | "030" | "031" => true
  | _ => false
  end%char.

Fixpoint lstrip (s : string) : string :=
  match s with
  | String c s' => if is_space c then lstrip s' else s
  | EmptyString => EmptyString
  end.

Definition rstrip (s : string) : string := String.rev (lstrip (String.rev s)).

(** [str.strip()]. *)
Definition strip (s : string) : string := rstrip (lstrip s).

(** Truthiness of a string: non-empty. *)
Definition truthy (s : string) : bool :=
  match s with EmptyString => false | _ => true end.

(** [s.split(sep)] for a one-character separator: the pieces between
    the separators, always at least one. *)
Fixpoint split_go (sep : ascii) (cur : string) (s : string) : list string :=
  match s with
  | EmptyString => [String.rev cur]
  | String c s' =>
      if Ascii.eqb c sep then String.rev cur :: split_go sep EmptyString s'
      else split_go sep (String c cur) s'
  end.
Definition split (sep : ascii) (s : string) : list string :=
  split_go sep EmptyString s.

(** Iterating over a text file: the lines, each with its newline. *)
Fixpoint lines_go (cur : string) (s : string) : list string :=
  match s with
  | EmptyString =>
      match cur with EmptyString => [] | _ => [String.rev cur] end
  | String c s' =>
      if Ascii.eqb c "010"%char then String.rev (String c cur) :: lines_go EmptyString s'
      else lines_go (String c cur) s'
  end.
Definition lines (s : string) : list string := lines_go EmptyString s.

Definition lower_char (c : ascii) : ascii :=
  let n := nat_of_ascii c in
  if (65 <=? n) && (n <=? 90) then ascii_of_nat (n + 32) else c.
Definition upper_char (c : ascii) : ascii :=
  let n := nat_of_ascii c in
  if (97 <=? n) && (n <=? 122) then ascii_of_nat (n - 32) else c.

Fixpoint map_chars (f : ascii -> ascii) (s : string) : string :=
  match s with
  | EmptyString => EmptyString
  | String c s' => String (f c) (map_chars f s')
  end.

(** [str.lower] and [str.upper] on ASCII letters. *)
Definition lower : string -> string := map_chars lower_char.
Definition upper : string -> string := map_chars upper_char.

(** [needle in hay]. *)
Fixpoint contains (needle hay : string) : bool :=
  String.prefix needle hay ||
  match hay with
  | EmptyString => false
  | String _ hay' => contains needle hay'
  end.

Definition endswith (s p : string) : bool :=
  String.prefix (String.rev p) (String.rev s).

(** [sep.join(l)]. *)
Fixpoint join (sep : string) (l : list string) : string :=
  match l with
  | [] => ""
  | [x] => x
  | x :: l' => x +:+ sep +:+ join sep l'
  end.

(** [fnmatch] for patterns whose only wildcard is [*]. *)
Fixpoint fnmatch (pat : string) (name : string) {struct pat} : bool :=
  match pat with
  | EmptyString => negb (truthy name)
  | String "*" pat' =>
      (fix star (n : string) : bool :=
         fnmatch pat' n ||
         match n with
         | EmptyString => false
         | String _ n' => star n'
         end) name
  | String c pat' =>
      match name with
      | String d name' => Ascii.eqb c d && fnmatch pat' name'
      | EmptyString => false
      end
  end.

(** [str(n)] for a count. *)
Definition of_nat (n : nat) : string := pretty n.

End PyStr.

(** ** Paths

    A [pathlib.Path] is modelled by its string, assumed normalised. *)

Module PyPath.

(** The [/] operator: an absolute right operand replaces the left one. *)
Definition join (p q : string) : string :=
  if PyStr.startswith q "/" then q else p +:+ "/" +:+ q.

(** [Path.name]: the last component. *)
Definition name (p : string) : string :=
  List.last (PyStr.split "/" p) "".

(** [Path.parent]: everything before the last component. *)
Definition parent (p : string) : string :=
  PyStr.join "/" (List.removelast (PyStr.split "/" p)).

(** The name of [k] relative to directory [d] when [k] is a direct child
    of [d]. *)
Fixpoint strip_prefix (p s : string) : option string :=
  match p, s with
  | EmptyString, _ => Some s
  | String a p', String b s' => if Ascii.eqb a b then strip_prefix p' s' else None
  | String _ _, EmptyString => None
  end.

Definition child_name (d k : string) : option string :=
  match strip_prefix (d +:+ "/") k with
  | Some n => if PyStr.truthy n && negb (PyStr.contains "/" n) then Some n else None
  | None => None
  end.

(** [k] lies strictly below [d]. *)
Definition below (d k : string) : bool :=
  match strip_prefix (d +:+ "/") k with
  | Some n => PyStr.truthy n
  | None => false
  end.

End PyPath.

(** ** The world outside the program

    The file system is a finite map from paths to nodes.  [denied] holds the
    paths on which the operating system refuses every open, removal and
    directory creation (the calls raise [PermissionError]); [tools] the
    programs [shutil.which] finds; [modules] the names a Python [import]
    resolves.

    What the model takes for granted: looking at the tree ([Path.exists],
    [Path.is_dir], [Path.glob]) never raises, that is, every directory on
    the way to a path that is tested can be searched and no name is too
    long (where this fails, [Path.exists] raises an [OSError] before
    Python 3.14); the text of a file is the string it holds (decoding
    never fails, newlines are not translated) and its lines end at a line
    feed; paths are written without a trailing slash and without [.]
    components, so that [/] only concatenates; a removal of a tree that
    is refused removes nothing; the order in which [glob] lists a
    directory is the order of the map.  The properties below that say
    that a phase or a run returns are stated for the computations of this
    model; those that are meant for every run of the scripts are stated
    for the runs that return. *)

Inductive node := File (content : string) | Dir.

Record World := mkWorld {
  fs : gmap string node;
  denied : gset string;
  tools : gset string;
  modules : gset string
}.

(** What [subprocess.run] gives back: a completed process, or an exception
    raised while launching it (for instance the program is not installed). *)
Inductive proc :=
| Completed (returncode : Z) (stdout stderr : string)
| LaunchError (text : string).

(** A Python exception: an [Exception] with its text, or the [SystemExit]
    that [sys.exit] raises, which [except Exception] does not catch. *)
Inductive exn :=
| PyException (text : string)
| SystemExit (code : Z).

Inductive result (A : Type) :=
| Ok (a : A)
| Raise (e : exn).
Arguments Ok {A} a.
Arguments Raise {A} e.

(** What [re.sub] gives back: the new text, or [re.error] with its text. *)
Inductive substitution :=
| Substituted (text : string)
| ReError (text : string).

(** The external collaborators: the programs run through [subprocess.run]
    (they may change the world in any way) and [re.sub]. *)
Class External := {
  subprocess_run : list string -> string -> World -> World * proc;
  re_sub : string -> string -> string -> substitution
}.

(** ** Program state: the world, the log, the external calls made *)

Inductive level := DEBUG | INFO | WARNING | ERROR.

Inductive call :=
| SubprocessRun (cmd : list string) (cwd : string)
| OpenWrite (path : string)
| OpenAppend (path : string)
| Unlink (path : string)
| Rmtree (path : string)
| Mkdir (path : string).

Record State := mkState {
  world : World;
  log : list (level * string);
  calls : list call
}.

Global Instance level_eq_dec : EqDecision level.
Proof. solve_decision. Defined.
Global Instance call_eq_dec : EqDecision call.
Proof. solve_decision. Defined.

(** ** The monad of Python computations *)

Definition Py (A : Type) : Type := State -> State * result A.

Definition ret {A} (a : A) : Py A := fun s => (s, Ok a).

Definition bind {A B} (m : Py A) (k : A -> Py B) : Py B :=
  fun s =>
    match m s with
    | (s', Ok a) => k a s'
    | (s', Raise e) => (s', Raise e)
    end.

Definition raise {A} (e : exn) : Py A := fun s => (s, Raise e).

(** [try: m except Exception as e: h e]. *)
Definition try_except {A} (m : Py A) (h : string -> Py A) : Py A :=
  fun s =>
    match m s with
    | (s', Raise (PyException text)) => h text s'
    | r => r
    end.

(** [try: m except: h], which catches everything. *)
Definition try_bare {A} (m : Py A) (h : Py A) : Py A :=
  fun s =>
    match m s with
    | (s', Raise _) => h s'
    | r => r
    end.

Declare Scope py_scope.
Delimit Scope py_scope with py.
Notation "x <- m ;; k" := (bind m (fun x => k))
  (at level 100, m at next level, right associativity) : py_scope.
Notation "m ;; k" := (bind m (fun _ => k))
  (at level 100, right associativity) : py_scope.
Open Scope py_scope.

(** [self.logger.<level>(msg)]. *)
Definition logger (l : level) (msg : string) : Py unit :=
  fun s => (mkState (world s) (log s ++ [(l, msg)]) (calls s), Ok tt).

Definition record (c : call) : Py unit :=
  fun s => (mkState (world s) (log s) (calls s ++ [c]), Ok tt).

Definition get_world : Py World := fun s => (s, Ok (world s)).

Definition set_world (w : World) : Py unit :=
  fun s => (mkState w (log s) (calls s), Ok tt).

(** ** File system operations *)

Module OS.

Definition permission_denied (p : string) : exn :=
  PyException ("[Errno 13] Permission denied: '" +:+ p +:+ "'").
Definition no_such_file (p : string) : exn :=
  PyException ("[Errno 2] No such file or directory: '" +:+ p +:+ "'").
Definition is_a_directory (p : string) : exn :=
  PyException ("[Errno 21] Is a directory: '" +:+ p +:+ "'").
Definition file_exists (p : string) : exn :=
  PyException ("[Errno 17] File exists: '" +:+ p +:+ "'").

(** [Path.exists()] and [Path.is_dir()]. *)
Definition exists_ (p : string) : Py bool :=
  fun s => (s, Ok (bool_decide (is_Some (fs (world s) !! p)))).

Definition is_dir (p : string) : Py bool :=
  fun s => (s, Ok (match fs (world s) !! p with Some Dir => true | _ => false end)).

(** [Path.glob(pat)]: the direct children of [d] whose name matches. *)
Definition glob (d pat : string) : Py (list string) :=
  fun s =>
    (s, Ok (omap (fun kv : string * node =>
                    match PyPath.child_name d kv.1 with
                    | Some n => if PyStr.fnmatch pat n then Some kv.1 else None
                    | None => None
                    end)
                 (map_to_list (fs (world s))))).

(** [open(p, 'r')] followed by [read()]. *)
Definition read_text (p : string) : Py string :=
  fun s =>
    match fs (world s) !! p with
    | None => (s, Raise (no_such_file p))
    | Some Dir => (s, Raise (is_a_directory p))
    | Some (File c) =>
        if bool_decide (p ∈ denied (world s)) then (s, Raise (permission_denied p))
        else (s, Ok c)
    end.

Definition put (p : string) (n : node) (w : World) : World :=
  mkWorld (<[p := n]> (fs w)) (denied w) (tools w) (modules w).

(** What opening [p] for writing needs: [p] is not refused, is not a
    directory, and its parent is one. *)
Definition open_for_writing (p : string) : Py unit :=
  w <- get_world ;;
  if bool_decide (p ∈ denied w) then raise (permission_denied p)
  else
    match fs w !! p, fs w !! PyPath.parent p with
    | Some Dir, _ => raise (is_a_directory p)
    | _, Some Dir => ret tt
    | _, _ => raise (no_such_file p)
    end.

(** [open(p, 'w')] followed by [write(c)]. *)
Definition write_text (p c : string) : Py unit :=
  record (OpenWrite p) ;;
  open_for_writing p ;;
  w <- get_world ;;
  set_world (put p (File c) w).

(** [open(p, 'a')] followed by [write(c)]. *)
Definition append_text (p c : string) : Py unit :=
  record (OpenAppend p) ;;
  open_for_writing p ;;
  w <- get_world ;;
  match fs w !! p with
  | Some (File old) => set_world (put p (File (old +:+ c)) w)
  | _ => set_world (put p (File c) w)
  end.

(** [Path.unlink()]. *)
Definition unlink (p : string) : Py unit :=
  record (Unlink p) ;;
  w <- get_world ;;
  match fs w !! p with
  | None => raise (no_such_file p)
  | Some Dir => raise (is_a_directory p)
  | Some (File _) =>
      if bool_decide (p ∈ denied w) then raise (permission_denied p)
      else set_world (mkWorld (delete p (fs w)) (denied w) (tools w) (modules w))
  end.

(** [shutil.rmtree(p)]: [p] and everything below it goes; a refused path
    in the tree makes the call raise (the tree is then left as it was). *)
Definition in_tree (p k : string) : bool :=
  bool_decide (k = p) || PyPath.below p k.

Definition rmtree (p : string) : Py unit :=
  record (Rmtree p) ;;
  w <- get_world ;;
  match fs w !! p with
  | None => raise (no_such_file p)
  | Some _ =>
      match List.find (fun k => in_tree p k && bool_decide (is_Some (fs w !! k)))
                      (elements (denied w)) with
      | Some k => raise (permission_denied k)
      | None =>
          set_world (mkWorld (filter (fun kv => in_tree p kv.1 = false) (fs w))
                             (denied w) (tools w) (modules w))
      end
  end.

(** [Path.mkdir(parents=True, exist_ok=True)]; [fuel] bounds the number of
    ancestors, the length of the path is enough. *)
Fixpoint mkdir_go (fuel : nat) (p : string) : Py unit :=
  w <- get_world ;;
  match fs w !! p with
  | Some Dir => ret tt
  | Some (File _) => raise (file_exists p)
  | None =>
      if bool_decide (p ∈ denied w) then raise (permission_denied p)
      else
        match fuel with
        | O => set_world (put p Dir w)
        | S fuel' =>
            (if PyStr.truthy (PyPath.parent p) then mkdir_go fuel' (PyPath.parent p)
             else ret tt) ;;
            w' <- get_world ;;
            set_world (put p Dir w')
        end
  end.

Definition mkdir_parents (p : string) : Py unit :=
  record (Mkdir p) ;;
  mkdir_go (String.length p) p.

(** [shutil.which(name)], as a truth value. *)
Definition which (name : string) : Py bool :=
  fun s => (s, Ok (bool_decide (name ∈ tools (world s)))).

(** [import name], raising [ImportError] when it does not resolve. *)
Definition import (name : string) : Py unit :=
  w <- get_world ;;
  if bool_decide (name ∈ modules w) then ret tt
  else raise (PyException ("No module named '" +:+ name +:+ "'")).

(** [subprocess.run(cmd, cwd=cwd, capture_output=True, text=True)]. *)
Definition run `{External} (cmd : list string) (cwd : string) : Py (Z * string * string) :=
  record (SubprocessRun cmd cwd) ;;
  w <- get_world ;;
  match subprocess_run cmd cwd w with
  | (w', Completed rc out err) => set_world w' ;; ret (rc, out, err)
  | (w', LaunchError text) => set_world w' ;; raise (PyException text)
  end.

End OS.

(** ** Helpers shared by both scripts *)

Definition nl : string := String "010"%char EmptyString.

(** An f-string: the pieces in order. *)
Definition fstr (pieces : list string) : string := PyStr.join "" pieces.

(** [for x in xs: body x]. *)
Fixpoint for_each {A} (xs : list A) (body : A -> Py unit) : Py unit :=
  match xs with
  | [] => ret tt
  | x :: xs' => body x ;; for_each xs' body
  end.

(** A loop that carries a counter: [for x in xs: n = body x n]. *)
Fixpoint for_count {A} (xs : list A) (body : A -> nat -> Py nat) (n : nat) : Py nat :=
  match xs with
  | [] => ret n
  | x :: xs' => n' <- body x n ;; for_count xs' body n'
  end.

(** [re.sub(pattern, replacement, content)]. *)
Definition sub `{External} (pattern replacement content : string) : Py string :=
  match re_sub pattern replacement content with
  | Substituted text => ret text
  | ReError text => raise (PyException text)
  end.

(** The entries of a list file read line by line:
    [[line.strip() for line in f if line.strip() and not line.startswith('#')]]. *)
Definition list_file_entries (content : string) : list string :=
  map PyStr.strip
      (List.filter (fun line => PyStr.truthy (PyStr.strip line)
                                && negb (PyStr.startswith line "#"))
                   (PyStr.lines content)).

(** ** [apply-ungoogled-patches.py] *)

Module UngoogledPatcher.

Record t := mk {
  ungoogled_dir : string;
  chromium_dir : string;
  verbose : bool
}.

Section Methods.
Context `{External}.

Definition required_files : list string :=
  ["patches"; "domain_substitution.list"; "domain_regex.list"; "pruning.list"; "flags.gn"].

(** [_validate_directories], lines 48-70. *)
Definition _validate_directories (self : t) : Py unit :=
  e <- OS.exists_ (ungoogled_dir self) ;;
  (if negb e then
     logger ERROR (fstr ["Ungoogled directory not found: "; ungoogled_dir self]) ;;
     raise (SystemExit 1)
   else ret tt) ;;
  e <- OS.exists_ (chromium_dir self) ;;
  (if negb e then
     logger ERROR (fstr ["Chromium directory not found: "; chromium_dir self]) ;;
     raise (SystemExit 1)
   else ret tt) ;;
  for_each required_files (fun file_path =>
    e <- OS.exists_ (PyPath.join (ungoogled_dir self) file_path) ;;
    if negb e then
      logger ERROR (fstr ["Required ungoogled file missing: "; file_path]) ;;
      raise (SystemExit 1)
    else ret tt).

(** [__init__], lines 18-46.  The logging set-up only decides which levels are
    printed; the log of the model keeps every line with its level. *)
Definition __init__ (ungoogled_dir chromium_dir : string) (verbose : bool) : Py t :=
  let self := mk ungoogled_dir chromium_dir verbose in
  _validate_directories self ;;
  try_except
    (OS.import "utils.patches" ;;
     OS.import "utils.substitution" ;;
     OS.import "utils.pruning" ;;
     ret self)
    (fun e =>
       logger ERROR (fstr ["Failed to import ungoogled-chromium utilities: "; e]) ;;
       raise (SystemExit 1)).

Definition fallback_cmd (patch_path : string) : list string :=
  ["patch"; "-p1"; "-i"; patch_path; "--ignore-whitespace"].

(** [_apply_patch_fallback], lines 170-195. *)
Definition _apply_patch_fallback (self : t) (patch_path : string) : Py bool :=
  try_except
    (logger DEBUG (fstr ["Trying fallback patch method for: "; PyPath.name patch_path]) ;;
     let cmd := fallback_cmd patch_path in
     r <- OS.run cmd (chromium_dir self) ;;
     let '(returncode, stdout, stderr) := r in
     if (returncode =? 0)%Z then
       logger DEBUG (fstr ["Fallback patch successful: "; PyPath.name patch_path]) ;;
       ret true
     else
       logger ERROR (fstr ["Fallback patch failed: "; PyPath.name patch_path]) ;;
       ret false)
    (fun e =>
       logger ERROR (fstr ["Fallback patch exception: "; e]) ;;
       ret false).

Definition primary_cmd (patch_path : string) : list string :=
  ["git"; "apply"; "--ignore-whitespace"; "--ignore-space-change"; patch_path].

(** [_apply_single_patch], lines 138-168. *)
Definition _apply_single_patch (self : t) (patch_path : string) : Py bool :=
  try_except
    (logger DEBUG (fstr ["Applying patch: "; PyPath.name patch_path]) ;;
     let cmd := primary_cmd patch_path in
     r <- OS.run cmd (chromium_dir self) ;;
     let '(returncode, stdout, stderr) := r in
     if (returncode =? 0)%Z then
       logger DEBUG (fstr ["Successfully applied: "; PyPath.name patch_path]) ;;
       ret true
     else
       logger ERROR (fstr ["Patch failed: "; PyPath.name patch_path]) ;;
       logger ERROR (fstr ["Error output: "; stderr]) ;;
       _apply_patch_fallback self patch_path)
    (fun e =>
       logger ERROR (fstr ["Exception applying patch "; PyPath.name patch_path; ": "; e]) ;;
       ret false).

(** The manifest, or all [*.patch] files in name order.  Lines 107-116 of [_apply_patch_series]. *)
Definition read_patch_files (patches_dir : string) : Py (list string) :=
  let series_file := PyPath.join patches_dir "series" in
  e <- OS.exists_ series_file ;;
  if e then
    content <- OS.read_text series_file ;;
    ret (list_file_entries content)
  else
    found <- OS.glob patches_dir "*.patch" ;;
    ret (merge_sort String.le (map PyPath.name found)).

(** The loop of [_apply_patch_series]: [inl b] when the loop is left by
    [return b], [inr success_count] when it runs to its end.  Lines 123-133. *)
Fixpoint patch_loop (self : t) (patches_dir : string) (patch_files : list string)
    (success_count : nat) : Py (bool + nat) :=
  match patch_files with
  | [] => ret (inr success_count)
  | patch_file :: rest =>
      let patch_path := PyPath.join patches_dir patch_file in
      e <- OS.exists_ patch_path ;;
      if negb e then
        logger WARNING (fstr ["Patch file not found: "; patch_file]) ;;
        patch_loop self patches_dir rest success_count
      else
        ok <- _apply_single_patch self patch_path ;;
        if ok then patch_loop self patches_dir rest (success_count + 1)
        else
          logger ERROR (fstr ["Failed to apply patch: "; patch_file]) ;;
          ret (inl false)
  end.

(** [_apply_patch_series], lines 105-136. *)
Definition _apply_patch_series (self : t) (patches_dir series_name : string) : Py bool :=
  patch_files <- read_patch_files patches_dir ;;
  let total_patches := length patch_files in
  logger INFO (fstr ["Found "; PyStr.of_nat total_patches; " patches in "; series_name; " series"]) ;;
  r <- patch_loop self patches_dir patch_files 0 ;;
  match r with
  | inl b => ret b
  | inr success_count =>
      logger INFO (fstr ["Successfully applied "; PyStr.of_nat success_count; "/";
                         PyStr.of_nat total_patches; " patches from "; series_name]) ;;
      ret (success_count =? total_patches)
  end.

(** [apply_core_patches], lines 72-81. *)
Definition apply_core_patches (self : t) : Py bool :=
  logger INFO "Applying core privacy patches..." ;;
  let patches_dir := PyPath.join (PyPath.join (ungoogled_dir self) "patches") "core" in
  e <- OS.exists_ patches_dir ;;
  if negb e then
    logger WARNING "Core patches directory not found" ;;
    ret false
  else _apply_patch_series self patches_dir "core".

(** [apply_extra_patches], lines 83-92. *)
Definition apply_extra_patches (self : t) : Py bool :=
  logger INFO "Applying extra privacy patches..." ;;
  let patches_dir := PyPath.join (PyPath.join (ungoogled_dir self) "patches") "extra" in
  e <- OS.exists_ patches_dir ;;
  if negb e then
    logger WARNING "Extra patches directory not found" ;;
    ret false
  else _apply_patch_series self patches_dir "extra".

(** [apply_inox_patches], lines 94-103. *)
Definition apply_inox_patches (self : t) : Py bool :=
  logger INFO "Applying Inox security patches..." ;;
  let patches_dir := PyPath.join (PyPath.join (ungoogled_dir self) "patches") "inox-patchset" in
  e <- OS.exists_ patches_dir ;;
  if negb e then
    logger WARNING "Inox patchset directory not found" ;;
    ret false
  else _apply_patch_series self patches_dir "inox-patchset".

(** One pass of the inner loop of [_substitute_domains_in_file].  Lines 250-254. *)
Definition substitute_line (regex_line : string) (content : string) : Py string :=
  if PyStr.truthy (PyStr.strip regex_line) && negb (PyStr.startswith regex_line "#") then
    match PyStr.split "@" (PyStr.strip regex_line) with
    | [pattern; replacement] => sub pattern replacement content
    | _ => ret content
    end
  else ret content.

(** The loop of lines 249-254. *)
Fixpoint substitute_lines (regex_defs : list string) (content : string) : Py string :=
  match regex_defs with
  | [] => ret content
  | regex_line :: rest =>
      content' <- substitute_line regex_line content ;;
      substitute_lines rest content'
  end.

(** [_substitute_domains_in_file], lines 240-267. *)
Definition _substitute_domains_in_file (self : t) (file_path : string)
    (regex_defs : list string) : Py bool :=
  try_except
    (content <- OS.read_text file_path ;;
     let original_content := content in
     content <- substitute_lines regex_defs content ;;
     if negb (String.eqb content original_content) then
       OS.write_text file_path content ;;
       logger DEBUG (fstr ["Updated: "; file_path]) ;;
       ret true
     else ret false)
    (fun e =>
       logger DEBUG (fstr ["Could not process file "; file_path; ": "; e]) ;;
       ret false).

(** The body of the loop over the target files.  Lines 227-231. *)
Definition substitute_target (self : t) (regex_defs : list string) (file_path : string)
    (substituted_count : nat) : Py nat :=
  if PyStr.truthy (PyStr.strip file_path) && negb (PyStr.startswith file_path "#") then
    let target_file := PyPath.join (chromium_dir self) (PyStr.strip file_path) in
    e <- OS.exists_ target_file ;;
    if e then
      changed <- _substitute_domains_in_file self target_file regex_defs ;;
      if changed then ret (substituted_count + 1) else ret substituted_count
    else ret substituted_count
  else ret substituted_count.

(** [apply_domain_substitution], lines 197-238. *)
Definition apply_domain_substitution (self : t) : Py bool :=
  logger INFO "Applying domain substitution..." ;;
  try_except
    (let domain_sub_list := PyPath.join (ungoogled_dir self) "domain_substitution.list" in
     let domain_regex_list := PyPath.join (ungoogled_dir self) "domain_regex.list" in
     e <- OS.exists_ domain_sub_list ;;
     if negb e then
       logger ERROR "domain_substitution.list not found" ;;
       ret false
     else
       e <- OS.exists_ domain_regex_list ;;
       if negb e then
         logger ERROR "domain_regex.list not found" ;;
         ret false
       else
         OS.import "utils.substitution.SubstitutionDescriptor" ;;
         content <- OS.read_text domain_regex_list ;;
         let regex_defs := PyStr.split "010" (PyStr.strip content) in
         content <- OS.read_text domain_sub_list ;;
         let sub_files := PyStr.split "010" (PyStr.strip content) in
         substituted_count <- for_count sub_files (substitute_target self regex_defs) 0 ;;
         logger INFO (fstr ["Domain substitution applied to ";
                            PyStr.of_nat substituted_count; " files"]) ;;
         ret true)
    (fun e =>
       logger ERROR (fstr ["Domain substitution failed: "; e]) ;;
       ret false).

(** The body of the loop of [apply_pruning]: one path of the pruning list.  Lines 284-295. *)
Definition prune_target (self : t) (prune_path : string) (pruned_count : nat) : Py nat :=
  let target_path := PyPath.join (chromium_dir self) prune_path in
  e <- OS.exists_ target_path ;;
  if e then
    d <- OS.is_dir target_path ;;
    (if d then
       OS.rmtree target_path ;;
       logger DEBUG (fstr ["Removed directory: "; prune_path])
     else
       OS.unlink target_path ;;
       logger DEBUG (fstr ["Removed file: "; prune_path])) ;;
    ret (pruned_count + 1)
  else
    logger DEBUG (fstr ["Prune target not found: "; prune_path]) ;;
    ret pruned_count.

(** [apply_pruning], lines 269-302. *)
Definition apply_pruning (self : t) : Py bool :=
  logger INFO "Applying pruning list..." ;;
  try_except
    (let pruning_list := PyPath.join (ungoogled_dir self) "pruning.list" in
     e <- OS.exists_ pruning_list ;;
     if negb e then
       logger ERROR "pruning.list not found" ;;
       ret false
     else
       content <- OS.read_text pruning_list ;;
       let prune_paths := list_file_entries content in
       pruned_count <- for_count prune_paths (prune_target self) 0 ;;
       logger INFO (fstr ["Pruned "; PyStr.of_nat pruned_count; " items"]) ;;
       ret true)
    (fun e =>
       logger ERROR (fstr ["Pruning failed: "; e]) ;;
       ret false).

Definition args_gn (chromium_dir : string) : string :=
  PyPath.join (PyPath.join (PyPath.join chromium_dir "out") "Ultimate") "args.gn".

(** [apply_build_flags], lines 304-337. *)
Definition apply_build_flags (self : t) : Py bool :=
  logger INFO "Applying ungoogled-chromium build flags..." ;;
  try_except
    (let flags_file := PyPath.join (ungoogled_dir self) "flags.gn" in
     e <- OS.exists_ flags_file ;;
     if negb e then
       logger ERROR "flags.gn not found" ;;
       ret false
     else
       ungoogled_flags <- OS.read_text flags_file ;;
       let args_file := args_gn (chromium_dir self) in
       OS.mkdir_parents (PyPath.parent args_file) ;;
       e <- OS.exists_ args_file ;;
       (if e then
          OS.append_text args_file
            (fstr [nl; nl; "# Ungoogled-Chromium specific flags"; nl; ungoogled_flags])
        else
          OS.write_text args_file
            (fstr ["# Ungoogled-Chromium build flags"; nl; ungoogled_flags])) ;;
       logger INFO "Build flags applied" ;;
       ret true)
    (fun e =>
       logger ERROR (fstr ["Failed to apply build flags: "; e]) ;;
       ret false).

(** The markers of [verify_patches]; [None] stands for the marker [False]. *)
Definition verification_markers : list (string * option string) :=
  [("chrome/browser/chrome_browser_main.cc", Some "ungoogled-chromium");
   ("chrome/browser/about_flags.cc", Some "ungoogled-chromium");
   ("google_apis/BUILD.gn", None)].

(** The body of the loop of [verify_patches], lines 353-367. *)
Definition verify_marker (self : t) (m : string * option string) (verified_count : nat)
    : Py nat :=
  let '(file_path, marker) := m in
  let target_file := PyPath.join (chromium_dir self) file_path in
  e <- OS.exists_ target_file ;;
  if e then
    try_bare
      (content <- OS.read_text target_file ;;
       match marker with
       | None => ret (verified_count + 1)
       | Some text =>
           if PyStr.contains text content then
             logger DEBUG (fstr ["Verified marker in: "; file_path]) ;;
             ret (verified_count + 1)
           else ret verified_count
       end)
      (ret verified_count)
  else ret verified_count.

(** [verify_patches], lines 339-370. *)
Definition verify_patches (self : t) : Py bool :=
  logger INFO "Verifying patch application..." ;;
  verified_count <- for_count verification_markers (verify_marker self) 0 ;;
  logger INFO (fstr ["Verified "; PyStr.of_nat verified_count; "/";
                     PyStr.of_nat (length verification_markers); " patch markers"]) ;;
  ret (0 <? verified_count).

(** [if phase(): success_steps.append(name)]. *)
Definition phase (p : Py bool) (name : string) (success_steps : list string)
    : Py (list string) :=
  b <- p ;;
  if b then ret (success_steps ++ [name]) else ret success_steps.

(** The first part of [run_all]: the phases in order, giving [success_steps].  Lines 376-402. *)
Definition run_phases (self : t) : Py (list string) :=
  let success_steps := [] in
  success_steps <- phase (apply_core_patches self) "core patches" success_steps ;;
  success_steps <- phase (apply_extra_patches self) "extra patches" success_steps ;;
  success_steps <- phase (apply_inox_patches self) "inox patches" success_steps ;;
  success_steps <- phase (apply_domain_substitution self) "domain substitution" success_steps ;;
  success_steps <- phase (apply_pruning self) "pruning" success_steps ;;
  success_steps <- phase (apply_build_flags self) "build flags" success_steps ;;
  success_steps <- phase (verify_patches self) "verification" success_steps ;;
  ret success_steps.

(** [run_all], lines 372-411. *)
Definition run_all (self : t) : Py bool :=
  logger INFO "Starting complete ungoogled-chromium patch application..." ;;
  success_steps <- run_phases self ;;
  logger INFO (fstr ["Completed steps: "; PyStr.join ", " success_steps]) ;;
  if 5 <=? length success_steps then
    logger INFO "Ungoogled-chromium patches applied successfully!" ;;
    ret true
  else
    logger ERROR "Some critical patching steps failed" ;;
    ret false.

(** [main], after the arguments are parsed.  Lines 435-442. *)
Definition main (ungoogled_dir chromium_dir : string) (verbose : bool) : Py unit :=
  patcher <- __init__ ungoogled_dir chromium_dir verbose ;;
  success <- run_all patcher ;;
  raise (SystemExit (if success then 0 else 1)%Z).

End Methods.
End UngoogledPatcher.

(** The exit status of the process that ran [main]: the code given to
    [sys.exit], and 1 when another exception ends the program. *)
Definition exit_status {A} (r : result A) : Z :=
  match r with
  | Ok _ => 0
  | Raise (SystemExit code) => code
  | Raise (PyException _) => 1
  end%Z.

(** ** [apply-clang-optimizations.py] *)

Module ClangOptimizer.

Record t := mk {
  clang_dir : string;
  chromium_dir : string;
  target_arch : string;
  verbose : bool
}.

(** A double quote, for the flag text. *)
Definition dq : string := String "034"%char EmptyString.

Section Methods.
Context `{External}.

(** [_validate_directories], lines 35-43. *)
Definition _validate_directories (self : t) : Py unit :=
  e <- OS.exists_ (clang_dir self) ;;
  (if negb e then
     logger ERROR (fstr ["Chromium Clang directory not found: "; clang_dir self]) ;;
     raise (SystemExit 1)
   else ret tt) ;;
  e <- OS.exists_ (chromium_dir self) ;;
  if negb e then
    logger ERROR (fstr ["Chromium directory not found: "; chromium_dir self]) ;;
    raise (SystemExit 1)
  else ret tt.

(** [__init__], lines 18-33. *)
Definition __init__ (clang_dir chromium_dir target_arch : string) (verbose : bool) : Py t :=
  let self := mk clang_dir chromium_dir target_arch verbose in
  _validate_directories self ;;
  ret self.

Definition fallback_cmd (patch_path : string) : list string :=
  ["patch"; "-p1"; "-i"; patch_path; "--ignore-whitespace"; "--reject-file=-"].

(** [_apply_patch_fallback], lines 157-186. *)
Definition _apply_patch_fallback (self : t) (patch_path : string) : Py bool :=
  try_except
    (let cmd := fallback_cmd patch_path in
     r <- OS.run cmd (chromium_dir self) ;;
     let '(returncode, stdout, stderr) := r in
     if (returncode =? 0)%Z then
       logger DEBUG (fstr ["Fallback patch successful: "; PyPath.name patch_path]) ;;
       ret true
     else
       if PyStr.contains "succeeded" (PyStr.lower stdout) then
         logger WARNING (fstr ["Partial patch success: "; PyPath.name patch_path]) ;;
         ret true
       else
         logger DEBUG (fstr ["Fallback patch failed: "; PyPath.name patch_path]) ;;
         ret false)
    (fun e =>
       logger ERROR (fstr ["Fallback patch exception: "; e]) ;;
       ret false).

Definition primary_cmd (patch_path : string) : list string :=
  ["git"; "apply"; "--ignore-whitespace"; "--ignore-space-change"; "--reject"; patch_path].

(** [_apply_patch], lines 128-155. *)
Definition _apply_patch (self : t) (patch_path : string) : Py bool :=
  try_except
    (logger DEBUG (fstr ["Applying optimization patch: "; PyPath.name patch_path]) ;;
     let cmd := primary_cmd patch_path in
     r <- OS.run cmd (chromium_dir self) ;;
     let '(returncode, stdout, stderr) := r in
     if (returncode =? 0)%Z then
       logger DEBUG (fstr ["Successfully applied: "; PyPath.name patch_path]) ;;
       ret true
     else
       logger DEBUG (fstr ["Git apply failed for "; PyPath.name patch_path;
                           ", trying patch command"]) ;;
       _apply_patch_fallback self patch_path)
    (fun e =>
       logger ERROR (fstr ["Exception applying patch "; PyPath.name patch_path; ": "; e]) ;;
       ret false).

(** The body of the three patch loops: count a success, warn on a failure.  Lines 59-62, 92-95 and 120-123. *)
Definition apply_counted (self : t) (what : string) (patch_file : string)
    (success_count : nat) : Py nat :=
  ok <- _apply_patch self patch_file ;;
  if ok then ret (success_count + 1)
  else
    logger WARNING (fstr [what; " patch failed: "; PyPath.name patch_file]) ;;
    ret success_count.

(** [apply_v8_optimizations], lines 45-65. *)
Definition apply_v8_optimizations (self : t) : Py bool :=
  logger INFO "Applying V8 engine optimizations..." ;;
  let v8_patch_dir := PyPath.join (clang_dir self) "V8" in
  e <- OS.exists_ v8_patch_dir ;;
  if negb e then
    logger WARNING "V8 patch directory not found" ;;
    ret false
  else
    v8_patches <- OS.glob v8_patch_dir "*.patch" ;;
    success_count <- for_count v8_patches (apply_counted self "V8") 0 ;;
    logger INFO (fstr ["Applied "; PyStr.of_nat success_count; "/";
                       PyStr.of_nat (length v8_patches); " V8 optimization patches"]) ;;
    ret (0 <? success_count).

(** The patches [apply_windows_optimizations] selects.  Lines 77-88. *)
Definition windows_patches (self : t) (win_patch_dir : string) : Py (list string) :=
  arch_patches <-
    (if String.eqb (target_arch self) "avx512" then OS.glob win_patch_dir "*avx512*.patch"
     else if String.eqb (target_arch self) "avx2" then OS.glob win_patch_dir "*avx2*.patch"
     else ret []) ;;
  found <- OS.glob win_patch_dir "*.patch" ;;
  let general_patches :=
    List.filter (fun p => negb (PyStr.contains "avx" (PyStr.lower (PyPath.name p)))) found in
  ret (arch_patches ++ general_patches).

(** [apply_windows_optimizations], lines 67-98. *)
Definition apply_windows_optimizations (self : t) : Py bool :=
  logger INFO "Applying Windows optimization patches..." ;;
  let win_patch_dir := PyPath.join (clang_dir self) "Windows" in
  e <- OS.exists_ win_patch_dir ;;
  if negb e then
    logger WARNING "Windows patch directory not found" ;;
    ret false
  else
    all_patches <- windows_patches self win_patch_dir ;;
    success_count <- for_count all_patches (apply_counted self "Windows") 0 ;;
    logger INFO (fstr ["Applied "; PyStr.of_nat success_count; "/";
                       PyStr.of_nat (length all_patches); " Windows optimization patches"]) ;;
    ret (0 <? success_count).

(** The patches [apply_linux_optimizations] selects.  Lines 110-116. *)
Definition linux_patches (linux_patch_dir : string) : Py (list string) :=
  found <- OS.glob linux_patch_dir "*.patch" ;;
  ret (List.filter
         (fun patch_file =>
            let patch_name := PyStr.lower (PyPath.name patch_file) in
            negb (existsb (fun skip => PyStr.contains skip patch_name)
                          ["alsa"; "gtk"; "x11"; "wayland"]))
         found).

(** [apply_linux_optimizations], lines 100-126. *)
Definition apply_linux_optimizations (self : t) : Py bool :=
  logger INFO "Applying cross-platform optimization patches..." ;;
  let linux_patch_dir := PyPath.join (clang_dir self) "Linux" in
  e <- OS.exists_ linux_patch_dir ;;
  if negb e then
    logger WARNING "Linux patch directory not found" ;;
    ret false
  else
    cross_platform_patches <- linux_patches linux_patch_dir ;;
    success_count <- for_count cross_platform_patches (apply_counted self "Cross-platform") 0 ;;
    logger INFO (fstr ["Applied "; PyStr.of_nat success_count; "/";
                       PyStr.of_nat (length cross_platform_patches);
                       " cross-platform patches"]) ;;
    ret (0 <? success_count).

(** [_generate_optimization_flags], lines 217-311. *)
Definition _generate_optimization_flags (self : t) : string :=
  let flags :=
    ["# Link Time Optimization";
     "use_thin_lto = true";
     "use_lld = true";
     "thin_lto_enable_optimizations = true";
     "use_text_section_splitting = true";
     ""]
    ++
    ["# Profile Guided Optimization";
     "chrome_pgo_phase = 2";
     fstr ["pgo_data_path = "; dq; dq];
     ""]
    ++
    ["# Polly High-level Optimizations";
     "use_polly = true";
     ""]
    ++
    (if String.eqb (target_arch self) "avx512" then
       ["# AVX512 Optimization Flags";
        "common_optimize_on_cflags = [";
        fstr ["  "; dq; "-march=skylake-avx512"; dq; ","];
        fstr ["  "; dq; "-mtune=skylake-avx512"; dq; ","];
        fstr ["  "; dq; "-mavx512f"; dq; ","];
        fstr ["  "; dq; "-mavx512cd"; dq; ","];
        fstr ["  "; dq; "-mavx512vl"; dq; ","];
        fstr ["  "; dq; "-mavx512bw"; dq; ","];
        fstr ["  "; dq; "-mavx512dq"; dq; ","];
        fstr ["  "; dq; "-mfma"; dq; ","];
        "]";
        ""]
     else [])
    ++
    ["# Fast-math Optimizations";
     "common_optimize_on_cflags += [";
     fstr ["  "; dq; "-ffast-math"; dq; ","];
     fstr ["  "; dq; "-funsafe-math-optimizations"; dq; ","];
     fstr ["  "; dq; "-ffinite-math-only"; dq; ","];
     fstr ["  "; dq; "-fno-signed-zeros"; dq; ","];
     fstr ["  "; dq; "-fno-trapping-math"; dq; ","];
     fstr ["  "; dq; "-fassociative-math"; dq; ","];
     fstr ["  "; dq; "-freciprocal-math"; dq; ","];
     "]";
     ""]
    ++
    ["# Vectorization Optimizations";
     "common_optimize_on_cflags += [";
     fstr ["  "; dq; "-ftree-vectorize"; dq; ","];
     fstr ["  "; dq; "-ftree-slp-vectorize"; dq; ","];
     fstr ["  "; dq; "-fvectorize"; dq; ","];
     fstr ["  "; dq; "-fslp-vectorize"; dq; ","];
     "]";
     ""]
    ++
    ["# Advanced Linker Optimizations";
     "common_optimize_on_ldflags = [";
     fstr ["  "; dq; "-fuse-ld=lld"; dq; ","];
     fstr ["  "; dq; "-Wl,--lto-O3"; dq; ","];
     fstr ["  "; dq; "-Wl,--icf=all"; dq; ","];
     fstr ["  "; dq; "-Wl,--gc-sections"; dq; ","];
     "]";
     ""]
    ++
    ["# V8 Engine Optimizations";
     "v8_enable_builtins_optimization = true";
     "v8_enable_fast_torque = true";
     "v8_enable_turbofan = true";
     ""]
  in
  PyStr.join nl flags.

Definition args_gn (chromium_dir : string) : string :=
  PyPath.join (PyPath.join (PyPath.join chromium_dir "out") "Ultimate") "args.gn".

(** [configure_build_args], lines 188-215. *)
Definition configure_build_args (self : t) : Py bool :=
  logger INFO "Configuring Clang optimization build arguments..." ;;
  try_except
    (let args_file := args_gn (chromium_dir self) in
     OS.mkdir_parents (PyPath.parent args_file) ;;
     e <- OS.exists_ args_file ;;
     existing_args <- (if e then OS.read_text args_file else ret "") ;;
     let optimization_flags := _generate_optimization_flags self in
     OS.write_text args_file
       (fstr [existing_args; nl; nl; "# Chromium Clang Optimizations"; nl;
              optimization_flags]) ;;
     logger INFO "Build arguments configured with Clang optimizations" ;;
     ret true)
    (fun e =>
       logger ERROR (fstr ["Failed to configure build args: "; e]) ;;
       ret false).

Definition clang_update_script (chromium_dir : string) : string :=
  PyPath.join (PyPath.join (PyPath.join (PyPath.join chromium_dir "tools") "clang") "scripts")
              "update.py".

(** [setup_custom_toolchain], lines 313-355. *)
Definition setup_custom_toolchain (self : t) : Py bool :=
  logger INFO "Setting up custom optimized Clang toolchain..." ;;
  try_except
    (let script := clang_update_script (chromium_dir self) in
     e <- OS.exists_ script ;;
     if e then
       let cmd := ["python3"; script; "--bootstrap"; "--without-android";
                   "--without-fuchsia"; "--disable-asserts"; "--thinlto"; "--pgo"] in
       bolt <- OS.which "llvm-bolt" ;;
       let cmd := if bolt then cmd ++ ["--bolt"] else cmd in
       r <- OS.run cmd (chromium_dir self) ;;
       let '(returncode, stdout, stderr) := r in
       if (returncode =? 0)%Z then
         logger INFO "Custom Clang toolchain setup complete" ;;
         ret true
       else
         logger WARNING "Custom toolchain setup had issues, continuing..." ;;
         ret true
     else
       logger WARNING "Clang update script not found, using default toolchain" ;;
       ret true)
    (fun e =>
       logger ERROR (fstr ["Toolchain setup failed: "; e]) ;;
       ret true).

(** Lines 361-367. *)
Definition verification_points (self : t) : list (string * string) :=
  [("build/config/compiler/BUILD.gn", "O3");
   ("build/config/compiler/BUILD.gn", "lto");
   ("BUILD.gn", PyStr.upper (target_arch self))].

(** The body of the loop of [verify_optimizations], lines 371-382. *)
Definition verify_point (self : t) (m : string * string) (verified_count : nat) : Py nat :=
  let '(file_path, marker) := m in
  let target_file := PyPath.join (chromium_dir self) file_path in
  e <- OS.exists_ target_file ;;
  if e then
    try_bare
      (content <- OS.read_text target_file ;;
       let content := PyStr.lower content in
       if PyStr.contains (PyStr.lower marker) content then
         logger DEBUG (fstr ["Verified optimization in: "; file_path]) ;;
         ret (verified_count + 1)
       else ret verified_count)
      (ret verified_count)
  else ret verified_count.

(** Lines 385-393. *)
Definition verify_args_file (self : t) (verified_count : nat) : Py nat :=
  let args_file := args_gn (chromium_dir self) in
  e <- OS.exists_ args_file ;;
  if e then
    try_bare
      (content <- OS.read_text args_file ;;
       let content := PyStr.lower content in
       if PyStr.contains "thin_lto" content && PyStr.contains "polly" content then
         ret (verified_count + 1)
       else ret verified_count)
      (ret verified_count)
  else ret verified_count.

(** [verify_optimizations], lines 357-396. *)
Definition verify_optimizations (self : t) : Py bool :=
  logger INFO "Verifying optimization patches..." ;;
  verified_count <- for_count (verification_points self) (verify_point self) 0 ;;
  verified_count <- verify_args_file self verified_count ;;
  logger INFO (fstr ["Verified "; PyStr.of_nat verified_count; " optimization markers"]) ;;
  ret (0 <? verified_count).

(** [if phase(): success_steps.append(name)]. *)
Definition phase (p : Py bool) (name : string) (success_steps : list string)
    : Py (list string) :=
  b <- p ;;
  if b then ret (success_steps ++ [name]) else ret success_steps.

(** Lines 402-426. *)
Definition run_phases (self : t) : Py (list string) :=
  let success_steps := [] in
  success_steps <- phase (apply_v8_optimizations self) "V8 optimizations" success_steps ;;
  success_steps <- phase (apply_windows_optimizations self) "Windows optimizations" success_steps ;;
  success_steps <- phase (apply_linux_optimizations self) "cross-platform optimizations" success_steps ;;
  success_steps <- phase (configure_build_args self) "build configuration" success_steps ;;
  success_steps <- phase (setup_custom_toolchain self) "custom toolchain" success_steps ;;
  success_steps <- phase (verify_optimizations self) "verification" success_steps ;;
  ret success_steps.

(** [run_all], lines 398-435. *)
Definition run_all (self : t) : Py bool :=
  logger INFO "Starting complete Clang optimization application..." ;;
  success_steps <- run_phases self ;;
  logger INFO (fstr ["Completed steps: "; PyStr.join ", " success_steps]) ;;
  if 4 <=? length success_steps then
    logger INFO "Chromium Clang optimizations applied successfully!" ;;
    ret true
  else
    logger ERROR "Some critical optimization steps failed" ;;
    ret false.

(** [main], after the arguments are parsed: lines 465-473. *)
Definition main (clang_dir chromium_dir target_arch : string) (verbose : bool) : Py unit :=
  optimizer <- __init__ clang_dir chromium_dir target_arch verbose ;;
  success <- run_all optimizer ;;
  raise (SystemExit (if success then 0 else 1)%Z).

End Methods.
End ClangOptimizer.

(** ** A regular expression engine for literal patterns

    [re.sub] is a parameter of the development.  For the scenarios that
    need an actual engine, this one follows the Python documentation of
    [re.sub(pattern, repl, string)] on the patterns made of ordinary
    characters, escaped punctuation and [.], with a replacement text free
    of backslashes: every non-overlapping occurrence, leftmost first, is
    replaced.  On any other pattern the engine raises. *)

Module Re.

Inductive atom := Lit (c : ascii) | AnyChar.

Definition is_meta (c : ascii) : bool :=
  PyStr.contains (String c EmptyString) ".^$*+?{}[]\|()".

Definition is_alnum (c : ascii) : bool :=
  let n := nat_of_ascii c in
  ((48 <=? n) && (n <=? 57)) || ((65 <=? n) && (n <=? 90)) || ((97 <=? n) && (n <=? 122)).

Fixpoint parse (pattern : string) : option (list atom) :=
  match pattern with
  | EmptyString => Some []
  | String "\" EmptyString => None
  | String "\" (String c rest) =>
      if is_alnum c then None else option_map (cons (Lit c)) (parse rest)
  | String "." rest => option_map (cons AnyChar) (parse rest)
  | String c rest =>
      if is_meta c then None else option_map (cons (Lit c)) (parse rest)
  end.

(** Do the atoms match a prefix of [s]? *)
Fixpoint match_here (atoms : list atom) (s : string) : bool :=
  match atoms, s with
  | [], _ => true
  | Lit c :: atoms', String d s' => Ascii.eqb c d && match_here atoms' s'
  | AnyChar :: atoms', String d s' => negb (Ascii.eqb d "010") && match_here atoms' s'
  | _ :: _, EmptyString => false
  end.

(** [skip] counts the characters of the current match still to drop. *)
Fixpoint sub_go (atoms : list atom) (repl : string) (skip : nat) (s : string) : string :=
  match s with
  | EmptyString => EmptyString
  | String c s' =>
      match skip with
      | S k => sub_go atoms repl k s'
      | O =>
          if match_here atoms s then repl +:+ sub_go atoms repl (length atoms - 1) s'
          else String c (sub_go atoms repl 0 s')
      end
  end.

Definition sub (pattern repl s : string) : substitution :=
  match parse pattern with
  | Some (a :: atoms) =>
      if PyStr.contains "\" repl then ReError "replacement outside the modelled fragment"
      else Substituted (sub_go (a :: atoms) repl 0 s)
  | _ => ReError "pattern outside the modelled fragment"
  end.

End Re.

(** ** Concrete collaborators and trees for the scenarios *)

Module Scenario.

(** No program can be launched. *)
Definition nothing_installed (cmd : list string) (cwd : string) (w : World) : World * proc :=
  (w, LaunchError (fstr ["[Errno 2] No such file or directory: '"; hd "" cmd; "'"])).

(** Every program runs and exits with status 1, printing nothing. *)
Definition always_rejects (cmd : list string) (cwd : string) (w : World) : World * proc :=
  (w, Completed 1 "" "").

(** Every program runs and exits with status 0. *)
Definition always_applies (cmd : list string) (cwd : string) (w : World) : World * proc :=
  (w, Completed 0 "" "").

(** [git apply] rejects every patch; [patch] applies part of it: it exits
    with status 1 after reporting a hunk that succeeded. *)
Definition partial_patch (cmd : list string) (cwd : string) (w : World) : World * proc :=
  match cmd with
  | "patch" :: _ =>
      (w, Completed 1 (fstr ["Hunk #1 succeeded at 12."; nl;
                             "1 out of 2 hunks FAILED"]) "")
  | _ => (w, Completed 1 "" "error: patch failed")
  end.

(** [git apply] and [patch] reject the patches whose path is in [bad] and
    apply the others. *)
Definition rejects (bad : list string) (cmd : list string) (cwd : string) (w : World)
    : World * proc :=
  if existsb (fun p => existsb (String.eqb p) bad) cmd then (w, Completed 1 "" "rejected")
  else (w, Completed 0 "" "").

Definition ext (run : list string -> string -> World -> World * proc) : External :=
  {| subprocess_run := run; re_sub := Re.sub |}.

Definition tree (files : list (string * node)) (refused : list string) : State :=
  mkState (mkWorld (list_to_map files) (list_to_set refused) ∅
                   (list_to_set ["utils.patches"; "utils.substitution"; "utils.pruning";
                                 "utils.substitution.SubstitutionDescriptor"]))
          [] [].

Definition patcher : UngoogledPatcher.t := UngoogledPatcher.mk "/u" "/c" false.
Definition optimizer : ClangOptimizer.t := ClangOptimizer.mk "/o" "/c" "avx512" false.

(** The files every ungoogled tree has. *)
Definition ungoogled_base : list (string * node) :=
  [("/u", Dir); ("/c", Dir); ("/u/patches", Dir);
   ("/u/domain_substitution.list", File "url.txt");
   ("/u/domain_regex.list", File "example\.com@example.invalid");
   ("/u/pruning.list", File "");
   ("/u/flags.gn", File "enable_reporting = false")].

(** The tree of the substitution scenario: one target file. *)
Definition substitution_tree : State :=
  tree (ungoogled_base ++ [("/c/url.txt", File "https://example.com/x")]) [].

(** A core series whose manifest names three patches, all present. *)
Definition series_tree : State :=
  tree (ungoogled_base ++
        [("/u/patches/core", Dir);
         ("/u/patches/core/series", File (fstr ["a.patch"; nl; "b.patch"; nl; "c.patch"; nl]));
         ("/u/patches/core/a.patch", File "diff a");
         ("/u/patches/core/b.patch", File "diff b");
         ("/u/patches/core/c.patch", File "diff c")]) [].

(** The same manifest, but [b.patch] is not on disk. *)
Definition missing_b_tree : State :=
  tree (ungoogled_base ++
        [("/u/patches/core", Dir);
         ("/u/patches/core/series", File (fstr ["a.patch"; nl; "b.patch"; nl; "c.patch"; nl]));
         ("/u/patches/core/a.patch", File "diff a");
         ("/u/patches/core/c.patch", File "diff c")]) [].

(** A manifest of two patches of which the first is not on disk. *)
Definition missing_a_tree : State :=
  tree (ungoogled_base ++
        [("/u/patches/core", Dir);
         ("/u/patches/core/series", File (fstr ["a.patch"; nl; "b.patch"; nl]));
         ("/u/patches/core/b.patch", File "diff b")]) [].

(** A chromium tree with the script that updates the clang toolchain. *)
Definition toolchain_tree : State :=
  tree [("/o", Dir); ("/c", Dir); ("/c/tools", Dir); ("/c/tools/clang", Dir);
        ("/c/tools/clang/scripts", Dir);
        ("/c/tools/clang/scripts/update.py", File "import sys")] [].

(** Three empty patch series, a list of substitution targets that cannot
    be read, nothing to prune, and none of the files the verification
    looks at. *)
Definition verdict_tree : State :=
  tree (ungoogled_base ++
        [("/u/patches/core", Dir); ("/u/patches/extra", Dir);
         ("/u/patches/inox-patchset", Dir)])
       ["/u/domain_substitution.list"].

(** Two files to prune; the removal of the first one is refused. *)
Definition refused_prune_tree : State :=
  tree [("/u", Dir); ("/c", Dir); ("/u/patches", Dir);
        ("/u/domain_substitution.list", File "");
        ("/u/domain_regex.list", File "");
        ("/u/pruning.list", File (fstr ["a.bin"; nl; "b.bin"; nl]));
        ("/u/flags.gn", File "");
        ("/c/a.bin", File "binary a"); ("/c/b.bin", File "binary b")]
       ["/c/a.bin"].

(** The same two files, and nothing refused. *)
Definition prune_tree : State :=
  tree [("/u", Dir); ("/c", Dir); ("/u/patches", Dir);
        ("/u/domain_substitution.list", File "");
        ("/u/domain_regex.list", File "");
        ("/u/pruning.list", File (fstr ["a.bin"; nl; "b.bin"; nl]));
        ("/u/flags.gn", File "");
        ("/c/a.bin", File "binary a"); ("/c/b.bin", File "binary b")]
       [].


(** The manifest of the core series is a directory: it exists, and
    opening it raises. *)
Definition broken_manifest_tree : State :=
  tree (ungoogled_base ++
        [("/u/patches/core", Dir); ("/u/patches/core/series", Dir);
         ("/u/patches/extra", Dir); ("/u/patches/inox-patchset", Dir)]) [].

(** A core series without a manifest: two patches. *)
Definition unlisted_tree : State :=
  tree (ungoogled_base ++
        [("/u/patches/core", Dir);
         ("/u/patches/core/b.patch", File "diff b");
         ("/u/patches/core/a.patch", File "diff a")]) [].

(** The build directory is there, with the arguments of an earlier step. *)
Definition configured_tree : State :=
  tree (ungoogled_base ++
        [("/c/out", Dir); ("/c/out/Ultimate", Dir);
         ("/c/out/Ultimate/args.gn", File "is_debug = false")]) [].


End Scenario.

(** ** What an observer sees of a run *)

(** The patches on which the primary method of [UngoogledPatcher] was run. *)
Definition attempted (cs : list call) : list string :=
  omap (fun c => match c with
                 | SubprocessRun ["git"; "apply"; "--ignore-whitespace";
                                  "--ignore-space-change"; p] _ => Some p
                 | _ => None
                 end) cs.

(** The patches on which the primary method of [ClangOptimizer] was run. *)
Definition attempted_opt (cs : list call) : list string :=
  omap (fun c => match c with
                 | SubprocessRun ["git"; "apply"; "--ignore-whitespace";
                                  "--ignore-space-change"; "--reject"; p] _ => Some p
                 | _ => None
                 end) cs.

(** The log entries of a given level. *)
Definition level_eqb (a b : level) : bool :=
  match a, b with
  | DEBUG, DEBUG | INFO, INFO | WARNING, WARNING | ERROR, ERROR => true
  | _, _ => false
  end.

Definition at_level (l : level) (entries : list (level * string)) : list (level * string) :=
  List.filter (fun e => level_eqb e.1 l) entries.

(** The state in which the loop of [_apply_patch_series] starts: the
    manifest is read and the number of patches logged. *)
Definition loop_entry (series_name : string) (patch_files : list string) (s : State) : State :=
  (logger INFO (fstr ["Found "; PyStr.of_nat (length patch_files); " patches in ";
                      series_name; " series"]) s).1.

(** How a run of an external program ended. *)
Definition exit_ok (r : proc) : bool :=
  match r with
  | Completed rc _ _ => (rc =? 0)%Z
  | LaunchError _ => false
  end.

Definition launched (r : proc) : bool :=
  match r with
  | Completed _ _ _ => true
  | LaunchError _ => false
  end.

(** The fallback of [ClangOptimizer] also accepts a partial application:
    a non-zero exit status with a succeeded hunk reported on the output. *)
Definition partial_ok (r : proc) : bool :=
  match r with
  | Completed rc out _ => negb (rc =? 0)%Z && PyStr.contains "succeeded" (PyStr.lower out)
  | LaunchError _ => false
  end.

Ltac py_unfold :=
  cbv beta iota zeta delta
    [bind ret raise try_except try_bare logger record get_world set_world
     OS.exists_ OS.is_dir OS.run OS.which] in *; simpl in *.
(** ** Series results

    A best-effort series of [ClangOptimizer] as the specification sees it:
    the steps in order, each run once by the step executor [_apply_patch]
    in the state its predecessors left, with its outcome; a failed step
    is followed by the warning of the series. *)

(** What [Path.glob] finds in a world. *)
Definition globbed (d pat : string) (w : World) : list string :=
  omap (fun kv : string * node =>
          match PyPath.child_name d kv.1 with
          | Some n => if PyStr.fnmatch pat n then Some kv.1 else None
          | None => None
          end) (map_to_list (fs w)).

(** The patches each group of [ClangOptimizer] selects in a world: the
    list its loop goes through.  Lines 56, 77-88 and 110-116. *)
Definition v8_selection (self : ClangOptimizer.t) (w : World) : list string :=
  globbed (PyPath.join (ClangOptimizer.clang_dir self) "V8") "*.patch" w.

Definition windows_selection (self : ClangOptimizer.t) (w : World) : list string :=
  let win_patch_dir := PyPath.join (ClangOptimizer.clang_dir self) "Windows" in
  (if String.eqb (ClangOptimizer.target_arch self) "avx512"
   then globbed win_patch_dir "*avx512*.patch" w
   else if String.eqb (ClangOptimizer.target_arch self) "avx2"
        then globbed win_patch_dir "*avx2*.patch" w
        else [])
  ++ List.filter (fun p => negb (PyStr.contains "avx" (PyStr.lower (PyPath.name p))))
                 (globbed win_patch_dir "*.patch" w).

Definition linux_selection (self : ClangOptimizer.t) (w : World) : list string :=
  List.filter
    (fun patch_file =>
       negb (existsb (fun skip => PyStr.contains skip (PyStr.lower (PyPath.name patch_file)))
                     ["alsa"; "gtk"; "x11"; "wayland"]))
    (globbed (PyPath.join (ClangOptimizer.clang_dir self) "Linux") "*.patch" w).

Section SeriesResult.
Context `{External}.

Inductive series_steps (self : ClangOptimizer.t) (what : string)
  : list string -> State -> list bool -> State -> Prop :=
| series_done s : series_steps self what [] s [] s
| series_step p ps s s1 ok oks s2 :
    ClangOptimizer._apply_patch self p s = (s1, Ok ok) ->
    series_steps self what ps
      (if ok then s1
       else (logger WARNING (fstr [what; " patch failed: "; PyPath.name p]) s1).1)
      oks s2 ->
    series_steps self what (p :: ps) s (ok :: oks) s2.

Definition succeeded_count (oks : list bool) : nat := length (List.filter id oks).

(** A patch group runs as a best-effort series over the patches
    [selected] in its directory [dir].  When the directory is there, every
    selected patch is a step of the series, in the order of the
    selection: the steps start in the state the group was called in (but
    for its opening line in the log), each runs in the state its
    predecessors left whatever their outcome, the group ends in the state
    the last step left, the patches [git apply] was run on are the
    selected ones, and the group passes exactly when some step succeeded.
    When the directory is missing, the group fails without a step. *)
Definition runs_best_effort (self : ClangOptimizer.t) (what : string)
    (group : ClangOptimizer.t -> Py bool) (dir : string) (selected : list string)
    (s : State) : Prop :=
  match fs (world s) !! dir with
  | Some _ =>
      exists oks s1 s2 s',
        group self s = (s', Ok (0 <? succeeded_count oks)) /\
        series_steps self what selected s1 oks s2 /\
        length oks = length selected /\
        world s1 = world s /\ calls s1 = calls s /\
        world s' = world s2 /\ calls s' = calls s2 /\
        exists dc, calls s' = calls s ++ dc /\ attempted_opt dc = selected
  | None =>
      exists s', group self s = (s', Ok false) /\ world s' = world s /\ calls s' = calls s
  end.

End SeriesResult.

(** A verification probe finds its marker: the file can be read and its
    text passes the test. *)
Definition marker_found (w : World) (path : string) (test : string -> bool) : bool :=
  match fs w !! path with
  | Some (File c) => negb (bool_decide (path ∈ denied w)) && test c
  | _ => false
  end.

Definition optimization_hits (self : ClangOptimizer.t) (w : World) : nat :=
  length (List.filter
            (fun m : string * string =>
               marker_found w (PyPath.join (ClangOptimizer.chromium_dir self) m.1)
                 (fun c => PyStr.contains (PyStr.lower m.2) (PyStr.lower c)))
            (ClangOptimizer.verification_points self))
  + Nat.b2n (marker_found w (ClangOptimizer.args_gn (ClangOptimizer.chromium_dir self))
               (fun c => PyStr.contains "thin_lto" (PyStr.lower c)
                         && PyStr.contains "polly" (PyStr.lower c))).

Definition patch_hits (self : UngoogledPatcher.t) (w : World) : nat :=
  length (List.filter
            (fun m : string * option string =>
               marker_found w (PyPath.join (UngoogledPatcher.chromium_dir self) m.1)
                 (fun c => match m.2 with
                           | None => true
                           | Some text => PyStr.contains text c
                           end))
            UngoogledPatcher.verification_markers).

(** ** Phases and exceptions

    Every phase of a pipeline opens with a line of its own logged at
    [INFO]: a phase was attempted as many times as its opening line is in
    the log. *)

Definition ungoogled_banners : list string :=
  ["Applying core privacy patches...";
   "Applying extra privacy patches...";
   "Applying Inox security patches...";
   "Applying domain substitution...";
   "Applying pruning list...";
   "Applying ungoogled-chromium build flags...";
   "Verifying patch application..."].

Definition optimizer_banners : list string :=
  ["Applying V8 engine optimizations...";
   "Applying Windows optimization patches...";
   "Applying cross-platform optimization patches...";
   "Configuring Clang optimization build arguments...";
   "Setting up custom optimized Clang toolchain...";
   "Verifying optimization patches..."].

Definition is_banner (e : level * string) : bool :=
  level_eqb e.1 INFO
  && existsb (String.eqb e.2) (ungoogled_banners ++ optimizer_banners).

(** The phases attempted, read off the log. *)
Definition phases_logged (entries : list (level * string)) : list string :=
  map snd (List.filter is_banner entries).

(** [s'] comes after [s] and no phase was opened in between. *)
Definition quiet (s s' : State) : Prop :=
  exists dl, log s' = log s ++ dl /\ phases_logged dl = [].

(** [m] opens no phase and raises only the exceptions [X] lets through. *)
Definition safe {A} (X : exn -> Prop) (m : Py A) : Prop :=
  forall s, quiet s (m s).1 /\ forall e, (m s).2 = Raise e -> X e.

Definition is_py (e : exn) : Prop :=
  match e with
  | PyException _ => True
  | SystemExit _ => False
  end.

Definition never (e : exn) : Prop := False.

Definition exits_with_1 (e : exn) : Prop := e = SystemExit 1.

(** The phases [ps], run one after the other from [s], return [bs] and
    leave [s']. *)
Fixpoint phases_return (ps : list (Py bool)) (s : State) (bs : list bool) (s' : State)
    : Prop :=
  match ps, bs with
  | [], [] => s' = s
  | p :: ps', b :: bs' => exists s1, p s = (s1, Ok b) /\ phases_return ps' s1 bs' s'
  | _, _ => False
  end.

Definition ungoogled_phases `{External} (self : UngoogledPatcher.t) : list (Py bool) :=
  [UngoogledPatcher.apply_core_patches self;
   UngoogledPatcher.apply_extra_patches self;
   UngoogledPatcher.apply_inox_patches self;
   UngoogledPatcher.apply_domain_substitution self;
   UngoogledPatcher.apply_pruning self;
   UngoogledPatcher.apply_build_flags self;
   UngoogledPatcher.verify_patches self].

Definition optimizer_phases `{External} (self : ClangOptimizer.t) : list (Py bool) :=
  [ClangOptimizer.apply_v8_optimizations self;
   ClangOptimizer.apply_windows_optimizations self;
   ClangOptimizer.apply_linux_optimizations self;
   ClangOptimizer.configure_build_args self;
   ClangOptimizer.setup_custom_toolchain self;
   ClangOptimizer.verify_optimizations self].

(** [m] opens the phases [bs], in this order and each once, when it
    returns; when it raises, the exception is one [X] lets through and the
    phases opened so far are the first of [bs]. *)
Definition logs {A} (bs : list string) (X : exn -> Prop) (m : Py A) : Prop :=
  forall s, exists dl,
    log (m s).1 = log s ++ dl /\
    match (m s).2 with
    | Ok _ => phases_logged dl = bs
    | Raise e => X e /\ phases_logged dl `prefix_of` bs
    end.

(** The state in which the phases of [run_all] start. *)
Definition ungoogled_start (s : State) : State :=
  (logger INFO "Starting complete ungoogled-chromium patch application..." s).1.

Definition optimizer_start (s : State) : State :=
  (logger INFO "Starting complete Clang optimization application..." s).1.
(** ** The footprint of a computation

    What a computation may do to the tree and which calls it may make,
    as a relation between the state it starts in and the state it
    leaves, whether it returns or raises. *)

Definition keeps {A} (R : State -> State -> Prop) (m : Py A) : Prop :=
  forall s, R s (m s).1.

(** The relations that can be followed along a computation: they compose,
    and a line in the log does not matter to them. *)
Class Footprint (R : State -> State -> Prop) : Prop := {
  footprint_refl : forall s, R s s;
  footprint_trans : forall s1 s2 s3, R s1 s2 -> R s2 s3 -> R s1 s3;
  footprint_log : forall s l msg,
    R s (mkState (world s) (log s ++ [(l, msg)]) (calls s))
}.

(** The calls made between two states. *)
Definition made (s s' : State) (dc : list call) : Prop := calls s' = calls s ++ dc.

(** Nothing but the tree may differ between two worlds. *)
Definition same_setup (w w' : World) : Prop :=
  denied w' = denied w /\ tools w' = tools w /\ modules w' = modules w.

(** The tree after the external programs of [cs] ran on [w], in order. *)
Definition replay `{External} (cs : list call) (w : World) : World :=
  foldl (fun w c => match c with
                    | SubprocessRun cmd cwd => (subprocess_run cmd cwd w).1
                    | _ => w
                    end) w cs.

Definition is_run (c : call) : bool :=
  match c with SubprocessRun _ _ => true | _ => false end.

(** Only external programs were at work: the world is the one they left. *)
Definition by_tools `{External} (s s' : State) : Prop :=
  exists dc, made s s' dc /\ forallb is_run dc = true /\
             world s' = replay dc (world s).

(** A removal was issued on [p] or on a directory above it. *)
Definition removal_of (p : string) (c : call) : bool :=
  match c with
  | Unlink q => String.eqb q p
  | Rmtree q => OS.in_tree q p
  | _ => false
  end.

Definition is_removal (c : call) : bool :=
  match c with Unlink _ | Rmtree _ => true | _ => false end.

(** Paths were removed and nothing else: every path is as it was, or is
    gone after a removal issued on it or above it. *)
Definition only_removes (s s' : State) : Prop :=
  same_setup (world s) (world s') /\
  exists dc, made s s' dc /\ forallb is_removal dc = true /\
    forall p, fs (world s') !! p = fs (world s) !! p \/
              (fs (world s') !! p = None /\ existsb (removal_of p) dc = true).

Definition is_write (c : call) : bool :=
  match c with OpenWrite _ => true | _ => false end.

(** Files were rewritten in place and nothing else: every path is as it
    was, or is a file that was opened for writing and is still a file. *)
Definition only_rewrites (s s' : State) : Prop :=
  same_setup (world s) (world s') /\
  exists dc, made s s' dc /\ forallb is_write dc = true /\
    forall p, fs (world s') !! p = fs (world s) !! p \/
              (In (OpenWrite p) dc /\
               exists c c', fs (world s) !! p = Some (File c) /\
                            fs (world s') !! p = Some (File c')).

Definition writes_args (args : string) (c : call) : bool :=
  match c with
  | Mkdir p => String.eqb p (PyPath.parent args)
  | OpenWrite p | OpenAppend p => String.eqb p args
  | _ => false
  end.

(** The file [args] was written and directories were made, and nothing
    else: every other path is as it was, or is a directory that was not
    there. *)
Definition only_writes (args : string) (s s' : State) : Prop :=
  same_setup (world s) (world s') /\
  exists dc, made s s' dc /\ forallb (writes_args args) dc = true /\
    forall p, p <> args ->
              fs (world s') !! p = fs (world s) !! p \/
              (fs (world s) !! p = None /\ fs (world s') !! p = Some Dir).

(** Nothing was done: the tree and the calls are as they were. *)
Definition untouched (s s' : State) : Prop :=
  world s' = world s /\ calls s' = calls s.

(** ** The configuration a run needs *)

(** What [UngoogledPatcher.__init__] checks: both directories, the five
    entries of the ungoogled directory and the three modules. *)
Definition ungoogled_ready (ungoogled_dir chromium_dir : string) (w : World) : bool :=
  forallb (fun p => bool_decide (is_Some (fs w !! p)))
          (ungoogled_dir :: chromium_dir
           :: map (PyPath.join ungoogled_dir) UngoogledPatcher.required_files)
  && forallb (fun m => bool_decide (m ∈ modules w))
             ["utils.patches"; "utils.substitution"; "utils.pruning"].

(** What [ClangOptimizer.__init__] checks: both directories. *)
Definition optimizer_ready (clang_dir chromium_dir : string) (w : World) : bool :=
  bool_decide (is_Some (fs w !! clang_dir))
  && bool_decide (is_Some (fs w !! chromium_dir)).

(** What one run of [apply_build_flags] leaves in [args.gn]. *)
Definition with_flags (flags : string) (before : option node) : string :=
  match before with
  | Some (File old) => old +:+ fstr [nl; nl; "# Ungoogled-Chromium specific flags"; nl; flags]
  | _ => fstr ["# Ungoogled-Chromium build flags"; nl; flags]
  end.



(** [p] is a file that can be opened for reading. *)
Definition readable (w : World) (p : string) : bool := marker_found w p (fun _ => true).

(** The text a path holds: nothing when it is not a file. *)
Definition previous_text (w : World) (p : string) : string :=
  match fs w !! p with
  | Some (File c) => c
  | _ => ""
  end.

(** ** The guarded blocks

    The [try] blocks of the steps and of the passes that have one, as the
    source has them.  A step is its block under its [except Exception]
    handler: [guards] says what the handler makes of the block. *)

Section UngoogledBlocks.
Context `{External}.
Import UngoogledPatcher.






End UngoogledBlocks.

Section OptimizerBlocks.
Context `{External}.
Import ClangOptimizer.




End OptimizerBlocks.



(** * Properties *)

(** ** The helpers on small inputs *)

Example strip_ex : PyStr.strip (fstr ["  a.patch "; nl]) = "a.patch".
Proof. reflexivity. Qed.

Example split_ex :
  PyStr.split "@" "example\.com@example.invalid" = ["example\.com"; "example.invalid"]
  /\ PyStr.split "@" "no separator" = ["no separator"]
  /\ PyStr.split "@" "a@b@c" = ["a"; "b"; "c"].
Proof. repeat split; reflexivity. Qed.

(** A comment line is dropped only when [#] is its very first character,
    as in the source. *)
Example list_file_entries_ex :
  list_file_entries (fstr ["a.patch"; nl; "# note"; nl; nl; "  # kept"; nl; " b.patch"])
  = ["a.patch"; "# kept"; "b.patch"].
Proof. reflexivity. Qed.

Example fnmatch_ex :
  PyStr.fnmatch "*avx512*.patch" "win-avx512-x.patch" = true
  /\ PyStr.fnmatch "*.patch" "a.patch.orig" = false.
Proof. split; reflexivity. Qed.

Example path_ex :
  PyPath.name "/src/patches/core/a.patch" = "a.patch"
  /\ PyPath.parent "/src/out/Ultimate/args.gn" = "/src/out/Ultimate"
  /\ PyPath.join "/src" "out" = "/src/out"
  /\ PyPath.join "/src" "/etc/passwd" = "/etc/passwd".
Proof. repeat split; reflexivity. Qed.

Example child_ex :
  PyPath.child_name "/c/V8" "/c/V8/a.patch" = Some "a.patch"
  /\ PyPath.child_name "/c/V8" "/c/V8/d/a.patch" = None.
Proof. split; reflexivity. Qed.

Example case_ex :
  PyStr.lower "BUILD.gn O3" = "build.gn o3"
  /\ PyStr.upper "avx512" = "AVX512"
  /\ PyStr.contains "lto" "use_thin_lto" = true.
Proof. repeat split; reflexivity. Qed.

Example join_ex :
  PyStr.join ", " ["core patches"; "pruning"] = "core patches, pruning"
  /\ fstr ["Found "; PyStr.of_nat 12; " patches"] = "Found 12 patches".
Proof. split; reflexivity. Qed.

Example re_sub_ex :
  Re.sub "example\.com" "example.invalid" "https://example.com/x and examplexcom"
  = Substituted "https://example.invalid/x and examplexcom"
  /\ Re.sub "a.c" "-" "abc a
c" = Substituted "- a
c"
  /\ Re.sub "a*" "-" "aaa" = ReError "pattern outside the modelled fragment".
Proof. repeat split; reflexivity. Qed.

Example glob_ex :
  (OS.glob "/u/patches/core" "*.patch" Scenario.series_tree).2
  = Ok ["/u/patches/core/c.patch"; "/u/patches/core/a.patch"; "/u/patches/core/b.patch"]
  /\ (UngoogledPatcher.read_patch_files "/u/patches/core" Scenario.series_tree).2
     = Ok ["a.patch"; "b.patch"; "c.patch"].
Proof. split; vm_compute; reflexivity. Qed.

(** ** Which exceptions a computation lets out *)

Section Safe.
Context `{External}.

Lemma read_text_cases p s :
  OS.read_text p s
  = (s, match fs (world s) !! p with
        | None => Raise (OS.no_such_file p)
        | Some Dir => Raise (OS.is_a_directory p)
        | Some (File c) =>
            if bool_decide (p ∈ denied (world s)) then Raise (OS.permission_denied p)
            else Ok c
        end).
Proof.
  unfold OS.read_text. destruct (fs (world s) !! p) as [[c|]|]; try reflexivity.
  destruct (bool_decide _); reflexivity.
Qed.

Lemma exists_cases p s :
  OS.exists_ p s = (s, Ok (match fs (world s) !! p with Some _ => true | None => false end)).
Proof.
  unfold OS.exists_. destruct (fs (world s) !! p) eqn:E.
  - rewrite bool_decide_eq_true_2 by eauto. reflexivity.
  - rewrite bool_decide_eq_false_2 by (intros [? ?]; discriminate). reflexivity.
Qed.

Lemma quiet_refl s : quiet s s.
Proof. exists []. rewrite app_nil_r. split; reflexivity. Qed.

Lemma phases_logged_app a b : phases_logged (a ++ b) = phases_logged a ++ phases_logged b.
Proof. unfold phases_logged. rewrite List.filter_app, map_app. reflexivity. Qed.

Lemma quiet_trans s1 s2 s3 : quiet s1 s2 -> quiet s2 s3 -> quiet s1 s3.
Proof.
  intros (d1 & E1 & Q1) (d2 & E2 & Q2). exists (d1 ++ d2).
  rewrite E2, E1, <- app_assoc, phases_logged_app, Q1, Q2. split; reflexivity.
Qed.

Lemma safe_weaken {A} (X Y : exn -> Prop) (m : Py A) :
  safe X m -> (forall e, X e -> Y e) -> safe Y m.
Proof. intros Hm HXY s. destruct (Hm s) as [Q R]. split; [exact Q | eauto]. Qed.

Lemma safe_ret {A} X (a : A) : safe X (ret a).
Proof. intros s. split; [apply quiet_refl | discriminate]. Qed.

Lemma safe_raise {A} (X : exn -> Prop) e : X e -> safe X (@raise A e).
Proof. intros He s. split; [apply quiet_refl | intros e' [= <-]; exact He]. Qed.

Lemma safe_logger X l msg : is_banner (l, msg) = false -> safe X (logger l msg).
Proof.
  intros Hb s. split; [|discriminate]. exists [(l, msg)]. split; [reflexivity|].
  unfold phases_logged. cbn [List.filter]. rewrite Hb. reflexivity.
Qed.

Lemma safe_record X c : safe X (record c).
Proof.
  intros s. split; [|discriminate]. exists []. simpl. rewrite app_nil_r.
  split; reflexivity.
Qed.

Lemma safe_get_world X : safe X get_world.
Proof. intros s. split; [apply quiet_refl | discriminate]. Qed.

Lemma safe_set_world X w : safe X (set_world w).
Proof.
  intros s. split; [|discriminate]. exists []. simpl. rewrite app_nil_r.
  split; reflexivity.
Qed.

Lemma safe_bind {A B} X (m : Py A) (k : A -> Py B) :
  safe X m -> (forall a, safe X (k a)) -> safe X (bind m k).
Proof.
  intros Hm Hk s. unfold bind. destruct (Hm s) as [Q R].
  destruct (m s) as [s1 [a|e]]; simpl in *.
  - destruct (Hk a s1) as [Q' R']. split; [eapply quiet_trans; eassumption | exact R'].
  - split; [exact Q | intros e' [= <-]; apply R; reflexivity].
Qed.

Lemma safe_try_except {A} X (m : Py A) (h : string -> Py A) :
  safe is_py m -> (forall text, safe X (h text)) -> safe X (try_except m h).
Proof.
  intros Hm Hh s. unfold try_except. destruct (Hm s) as [Q R].
  destruct (m s) as [s1 [a|[text|code]]]; simpl in *.
  - split; [exact Q | discriminate].
  - destruct (Hh text s1) as [Q' R']. split; [eapply quiet_trans; eassumption | exact R'].
  - destruct (R _ eq_refl).
Qed.

Lemma safe_try_bare {A} X Y (m : Py A) (h : Py A) :
  safe Y m -> safe X h -> safe X (try_bare m h).
Proof.
  intros Hm Hh s. unfold try_bare. destruct (Hm s) as [Q R].
  destruct (m s) as [s1 [a|e]]; simpl in *.
  - split; [exact Q | discriminate].
  - destruct (Hh s1) as [Q' R']. split; [eapply quiet_trans; eassumption | exact R'].
Qed.

Lemma safe_pure {A} X (m : Py A) :
  (forall s, exists a, m s = (s, Ok a)) -> safe X m.
Proof.
  intros Hm s. destruct (Hm s) as (a & ->). split; [apply quiet_refl | discriminate].
Qed.

Lemma safe_exists X p : safe X (OS.exists_ p).
Proof. apply safe_pure. intros s. eexists. reflexivity. Qed.

Lemma safe_is_dir X p : safe X (OS.is_dir p).
Proof. apply safe_pure. intros s. eexists. reflexivity. Qed.

Lemma safe_glob X d pat : safe X (OS.glob d pat).
Proof. apply safe_pure. intros s. eexists. reflexivity. Qed.

Lemma safe_which X n : safe X (OS.which n).
Proof. apply safe_pure. intros s. eexists. reflexivity. Qed.

Lemma safe_read_text p : safe is_py (OS.read_text p).
Proof.
  intros s. rewrite read_text_cases. simpl. split; [apply quiet_refl|].
  destruct (fs (world s) !! p) as [[c|]|]; [destruct (bool_decide _)|..];
    intros e [= <-]; exact I.
Qed.

Lemma safe_for_each {A} X (xs : list A) (body : A -> Py unit) :
  (forall x, safe X (body x)) -> safe X (for_each xs body).
Proof.
  intros Hb. induction xs as [|x xs IH]; cbn [for_each].
  - apply safe_ret.
  - apply safe_bind; [apply Hb | intros _; exact IH].
Qed.

Lemma safe_for_count {A} X (xs : list A) (body : A -> nat -> Py nat) :
  (forall x n, safe X (body x n)) -> forall n, safe X (for_count xs body n).
Proof.
  intros Hb. induction xs as [|x xs IH]; intros n; cbn [for_count].
  - apply safe_ret.
  - apply safe_bind; [apply Hb | intros n'; apply IH].
Qed.

End Safe.

Ltac safe_core :=
  match goal with
  | |- safe _ (bind _ _) => apply safe_bind; [|intros]
  | |- safe _ (ret _) => apply safe_ret
  | |- safe _ (logger _ _) => apply safe_logger; reflexivity
  | |- safe _ (record _) => apply safe_record
  | |- safe _ get_world => apply safe_get_world
  | |- safe _ (set_world _) => apply safe_set_world
  | |- safe is_py (raise _) => apply safe_raise; exact I
  | |- safe _ (OS.exists_ _) => apply safe_exists
  | |- safe _ (OS.is_dir _) => apply safe_is_dir
  | |- safe _ (OS.glob _ _) => apply safe_glob
  | |- safe _ (OS.which _) => apply safe_which
  | |- safe is_py (OS.read_text _) => apply safe_read_text
  | |- safe _ (try_except _ _) => apply safe_try_except; [|intros]
  | |- safe _ (try_bare _ _) => apply (safe_try_bare _ is_py)
  | |- safe _ (for_each _ _) => apply safe_for_each; intros
  | |- safe _ (for_count _ _ _) => apply safe_for_count; intros
  | |- safe _ (if ?b then _ else _) => destruct b
  | |- safe _ (match ?x with _ => _ end) => destruct x
  | |- safe _ (let '(_, _) := ?x in _) => destruct x
  end.

Section SafePrimitives.
Context `{External}.

Ltac safe_tac := repeat safe_core.

Lemma safe_open_for_writing p : safe is_py (OS.open_for_writing p).
Proof. unfold OS.open_for_writing. safe_tac. Qed.

Lemma safe_write_text p c : safe is_py (OS.write_text p c).
Proof. unfold OS.write_text. safe_tac. apply safe_open_for_writing. Qed.

Lemma safe_append_text p c : safe is_py (OS.append_text p c).
Proof. unfold OS.append_text. safe_tac; apply safe_open_for_writing. Qed.

Lemma safe_unlink p : safe is_py (OS.unlink p).
Proof. unfold OS.unlink. safe_tac. Qed.

Lemma safe_rmtree p : safe is_py (OS.rmtree p).
Proof. unfold OS.rmtree. safe_tac. Qed.

Lemma safe_mkdir_go fuel : forall p, safe is_py (OS.mkdir_go fuel p).
Proof.
  induction fuel as [|fuel IH]; intros p; cbn [OS.mkdir_go]; safe_tac; apply IH.
Qed.

Lemma safe_mkdir_parents p : safe is_py (OS.mkdir_parents p).
Proof. unfold OS.mkdir_parents. safe_tac. apply safe_mkdir_go. Qed.

Lemma safe_import n : safe is_py (OS.import n).
Proof. unfold OS.import. safe_tac. Qed.

Lemma safe_run cmd cwd : safe is_py (OS.run cmd cwd).
Proof. unfold OS.run. safe_tac. Qed.

Lemma safe_sub a b c : safe is_py (sub a b c).
Proof. unfold sub. safe_tac. Qed.

End SafePrimitives.

Ltac safe_step :=
  first
    [ safe_core
    | match goal with
      | |- safe is_py (OS.write_text _ _) => apply safe_write_text
      | |- safe is_py (OS.append_text _ _) => apply safe_append_text
      | |- safe is_py (OS.unlink _) => apply safe_unlink
      | |- safe is_py (OS.rmtree _) => apply safe_rmtree
      | |- safe is_py (OS.mkdir_parents _) => apply safe_mkdir_parents
      | |- safe is_py (OS.import _) => apply safe_import
      | |- safe is_py (OS.run _ _) => apply safe_run
      | |- safe is_py (sub _ _ _) => apply safe_sub
      end ].

Ltac safe_tac := repeat safe_step.

Section SafeMethods.
Context `{External}.

Lemma safe_ungoogled_fallback self p :
  safe never (UngoogledPatcher._apply_patch_fallback self p).
Proof. unfold UngoogledPatcher._apply_patch_fallback. safe_tac. Qed.

Lemma safe_single_patch self p : safe never (UngoogledPatcher._apply_single_patch self p).
Proof.
  unfold UngoogledPatcher._apply_single_patch. safe_tac.
  eapply safe_weaken; [apply safe_ungoogled_fallback | intros ? []].
Qed.

Lemma safe_patch_loop self dir l : forall n, safe never (UngoogledPatcher.patch_loop self dir l n).
Proof.
  induction l as [|p l IH]; intros n; cbn [UngoogledPatcher.patch_loop]; safe_tac;
    try apply IH; apply safe_single_patch.
Qed.

Lemma safe_read_patch_files dir : safe is_py (UngoogledPatcher.read_patch_files dir).
Proof. unfold UngoogledPatcher.read_patch_files. safe_tac. Qed.

Lemma safe_patch_series self dir name :
  safe is_py (UngoogledPatcher._apply_patch_series self dir name).
Proof.
  unfold UngoogledPatcher._apply_patch_series. safe_tac.
  - apply safe_read_patch_files.
  - eapply safe_weaken; [apply safe_patch_loop | intros ? []].
Qed.

Lemma safe_substitute_lines l : forall c, safe is_py (UngoogledPatcher.substitute_lines l c).
Proof.
  induction l as [|x l IH]; intros c; cbn [UngoogledPatcher.substitute_lines].
  - safe_tac.
  - apply safe_bind; [|intros; apply IH].
    unfold UngoogledPatcher.substitute_line. safe_tac.
Qed.

Lemma safe_substitute_file self f defs :
  safe never (UngoogledPatcher._substitute_domains_in_file self f defs).
Proof.
  unfold UngoogledPatcher._substitute_domains_in_file. safe_tac.
  apply safe_substitute_lines.
Qed.

Lemma safe_substitute_target self defs f n :
  safe never (UngoogledPatcher.substitute_target self defs f n).
Proof.
  unfold UngoogledPatcher.substitute_target. safe_tac. apply safe_substitute_file.
Qed.

Lemma safe_prune_target self p n : safe is_py (UngoogledPatcher.prune_target self p n).
Proof. unfold UngoogledPatcher.prune_target. safe_tac. Qed.

Lemma safe_verify_marker self m n : safe never (UngoogledPatcher.verify_marker self m n).
Proof. unfold UngoogledPatcher.verify_marker. safe_tac. Qed.

Lemma safe_optimizer_fallback self p :
  safe never (ClangOptimizer._apply_patch_fallback self p).
Proof. unfold ClangOptimizer._apply_patch_fallback. safe_tac. Qed.

Lemma safe_apply_patch self p : safe never (ClangOptimizer._apply_patch self p).
Proof.
  unfold ClangOptimizer._apply_patch. safe_tac.
  eapply safe_weaken; [apply safe_optimizer_fallback | intros ? []].
Qed.

Lemma safe_apply_counted self what p n :
  safe never (ClangOptimizer.apply_counted self what p n).
Proof. unfold ClangOptimizer.apply_counted. safe_tac. apply safe_apply_patch. Qed.

Lemma safe_verify_point self m n : safe never (ClangOptimizer.verify_point self m n).
Proof. unfold ClangOptimizer.verify_point. safe_tac. Qed.

Lemma safe_verify_args_file self n : safe never (ClangOptimizer.verify_args_file self n).
Proof. unfold ClangOptimizer.verify_args_file. safe_tac. Qed.

End SafeMethods.

(** ** The phases a pipeline opens *)

Section Phases.
Context `{External}.

Lemma logs_of_safe {A} X (m : Py A) : safe X m -> logs [] X m.
Proof.
  intros Hm s. destruct (Hm s) as [(dl & E & Q) R]. exists dl. split; [exact E|].
  destruct (m s).2 as [a|e]; [exact Q|].
  split; [apply R; reflexivity | rewrite Q; apply prefix_nil].
Qed.

Lemma logs_banner X b : is_banner (INFO, b) = true -> logs [b] X (logger INFO b).
Proof.
  intros Hb s. exists [(INFO, b)]. split; [reflexivity|]. simpl.
  unfold phases_logged. cbn [List.filter]. rewrite Hb. reflexivity.
Qed.

Lemma logs_bind {A B} X b1 b2 (m : Py A) (k : A -> Py B) :
  logs b1 X m -> (forall a, logs b2 X (k a)) -> logs (b1 ++ b2) X (bind m k).
Proof.
  intros Hm Hk s. unfold bind. destruct (Hm s) as (d1 & E1 & P1).
  destruct (m s) as [s1 [a|e]]; simpl in *.
  - destruct (Hk a s1) as (d2 & E2 & P2). exists (d1 ++ d2).
    rewrite E2, E1, <- app_assoc. split; [reflexivity|].
    rewrite phases_logged_app, P1.
    destruct (k a s1).2 as [b|e]; [rewrite P2; reflexivity|].
    destruct P2 as [Xe Hp]. split; [exact Xe | apply prefix_app; exact Hp].
  - exists d1. split; [exact E1|]. destruct P1 as [Xe Hp].
    split; [exact Xe | apply prefix_app_r; exact Hp].
Qed.

Lemma logs_weaken {A} (X Y : exn -> Prop) bs (m : Py A) :
  logs bs X m -> (forall e, X e -> Y e) -> logs bs Y m.
Proof.
  intros Hm HXY s. destruct (Hm s) as (dl & E & P). exists dl. split; [exact E|].
  destruct (m s).2; [exact P | destruct P; split; eauto].
Qed.

Lemma logs_phase X b (body : Py bool) :
  is_banner (INFO, b) = true -> safe X body -> logs [b] X (logger INFO b ;; body).
Proof.
  intros Hb Hbody. apply (logs_bind X [b] []); [apply logs_banner, Hb|].
  intros _. apply logs_of_safe, Hbody.
Qed.

Ltac phase_logs := apply logs_phase; [reflexivity | safe_tac].

Lemma logs_core self :
  logs ["Applying core privacy patches..."] is_py (UngoogledPatcher.apply_core_patches self).
Proof.
  unfold UngoogledPatcher.apply_core_patches. phase_logs. apply safe_patch_series.
Qed.

Lemma logs_extra self :
  logs ["Applying extra privacy patches..."] is_py (UngoogledPatcher.apply_extra_patches self).
Proof.
  unfold UngoogledPatcher.apply_extra_patches. phase_logs. apply safe_patch_series.
Qed.

Lemma logs_inox self :
  logs ["Applying Inox security patches..."] is_py (UngoogledPatcher.apply_inox_patches self).
Proof.
  unfold UngoogledPatcher.apply_inox_patches. phase_logs. apply safe_patch_series.
Qed.

Lemma logs_domain_substitution self :
  logs ["Applying domain substitution..."] never
       (UngoogledPatcher.apply_domain_substitution self).
Proof.
  unfold UngoogledPatcher.apply_domain_substitution. phase_logs.
  eapply safe_weaken; [apply safe_substitute_target | intros ? []].
Qed.

Lemma logs_pruning self :
  logs ["Applying pruning list..."] never (UngoogledPatcher.apply_pruning self).
Proof.
  unfold UngoogledPatcher.apply_pruning. phase_logs. apply safe_prune_target.
Qed.

Lemma logs_build_flags self :
  logs ["Applying ungoogled-chromium build flags..."] never
       (UngoogledPatcher.apply_build_flags self).
Proof. unfold UngoogledPatcher.apply_build_flags. phase_logs. Qed.

Lemma logs_verify_patches self :
  logs ["Verifying patch application..."] never (UngoogledPatcher.verify_patches self).
Proof.
  unfold UngoogledPatcher.verify_patches. phase_logs. apply safe_verify_marker.
Qed.

Lemma logs_v8 self :
  logs ["Applying V8 engine optimizations..."] never
       (ClangOptimizer.apply_v8_optimizations self).
Proof.
  unfold ClangOptimizer.apply_v8_optimizations. phase_logs. apply safe_apply_counted.
Qed.

Lemma logs_windows self :
  logs ["Applying Windows optimization patches..."] never
       (ClangOptimizer.apply_windows_optimizations self).
Proof.
  unfold ClangOptimizer.apply_windows_optimizations, ClangOptimizer.windows_patches.
  phase_logs. apply safe_apply_counted.
Qed.

Lemma logs_linux self :
  logs ["Applying cross-platform optimization patches..."] never
       (ClangOptimizer.apply_linux_optimizations self).
Proof.
  unfold ClangOptimizer.apply_linux_optimizations, ClangOptimizer.linux_patches.
  phase_logs. apply safe_apply_counted.
Qed.

Lemma logs_configure self :
  logs ["Configuring Clang optimization build arguments..."] never
       (ClangOptimizer.configure_build_args self).
Proof. unfold ClangOptimizer.configure_build_args. phase_logs. Qed.

Lemma logs_toolchain self :
  logs ["Setting up custom optimized Clang toolchain..."] never
       (ClangOptimizer.setup_custom_toolchain self).
Proof. unfold ClangOptimizer.setup_custom_toolchain. phase_logs. Qed.

Lemma logs_verify_optimizations self :
  logs ["Verifying optimization patches..."] never
       (ClangOptimizer.verify_optimizations self).
Proof.
  unfold ClangOptimizer.verify_optimizations. phase_logs.
  - apply safe_verify_point.
  - apply safe_verify_args_file.
Qed.

Lemma logs_wrapped X b (p : Py bool) name steps :
  logs [b] X p -> logs [b] X (UngoogledPatcher.phase p name steps).
Proof.
  intros Hp. unfold UngoogledPatcher.phase.
  apply (logs_bind X [b] []); [exact Hp|].
  intros ok. apply logs_of_safe. safe_tac.
Qed.

Lemma logs_wrapped_opt X b (p : Py bool) name steps :
  logs [b] X p -> logs [b] X (ClangOptimizer.phase p name steps).
Proof.
  intros Hp. unfold ClangOptimizer.phase.
  apply (logs_bind X [b] []); [exact Hp|].
  intros ok. apply logs_of_safe. safe_tac.
Qed.

Lemma logs_ungoogled_phases self :
  logs ungoogled_banners is_py (UngoogledPatcher.run_phases self).
Proof.
  unfold UngoogledPatcher.run_phases, ungoogled_banners.
  apply (logs_bind is_py [_] _); [apply logs_wrapped, logs_core | intros].
  apply (logs_bind is_py [_] _); [apply logs_wrapped, logs_extra | intros].
  apply (logs_bind is_py [_] _); [apply logs_wrapped, logs_inox | intros].
  apply (logs_bind is_py [_] _);
    [apply logs_wrapped; eapply logs_weaken;
     [apply logs_domain_substitution | intros ? []] | intros].
  apply (logs_bind is_py [_] _);
    [apply logs_wrapped; eapply logs_weaken; [apply logs_pruning | intros ? []] | intros].
  apply (logs_bind is_py [_] _);
    [apply logs_wrapped; eapply logs_weaken; [apply logs_build_flags | intros ? []]
    | intros].
  apply (logs_bind is_py [_] []);
    [apply logs_wrapped; eapply logs_weaken; [apply logs_verify_patches | intros ? []]
    | intros].
  apply logs_of_safe. safe_tac.
Qed.

Lemma logs_ungoogled_run_all self :
  logs ungoogled_banners is_py (UngoogledPatcher.run_all self).
Proof.
  unfold UngoogledPatcher.run_all.
  apply (logs_bind is_py [] _); [apply logs_of_safe; safe_tac | intros].
  apply (logs_bind is_py ungoogled_banners []); [apply logs_ungoogled_phases | intros].
  apply logs_of_safe. safe_tac.
Qed.

Lemma logs_optimizer_phases self :
  logs optimizer_banners never (ClangOptimizer.run_phases self).
Proof.
  unfold ClangOptimizer.run_phases, optimizer_banners.
  apply (logs_bind never [_] _); [apply logs_wrapped_opt, logs_v8 | intros].
  apply (logs_bind never [_] _); [apply logs_wrapped_opt, logs_windows | intros].
  apply (logs_bind never [_] _); [apply logs_wrapped_opt, logs_linux | intros].
  apply (logs_bind never [_] _); [apply logs_wrapped_opt, logs_configure | intros].
  apply (logs_bind never [_] _); [apply logs_wrapped_opt, logs_toolchain | intros].
  apply (logs_bind never [_] []);
    [apply logs_wrapped_opt, logs_verify_optimizations | intros].
  apply logs_of_safe. safe_tac.
Qed.

Lemma logs_optimizer_run_all self :
  logs optimizer_banners never (ClangOptimizer.run_all self).
Proof.
  unfold ClangOptimizer.run_all.
  apply (logs_bind never [] _); [apply logs_of_safe; safe_tac | intros].
  apply (logs_bind never optimizer_banners []); [apply logs_optimizer_phases | intros].
  apply logs_of_safe. safe_tac.
Qed.

End Phases.

(** ** All-or-nothing patch series *)

Section UngoogledPatches.
Context `{External}.
Import UngoogledPatcher.

Lemma single_patch_summary self p s :
  exists s' b dl dc,
    _apply_single_patch self p s = (s', Ok b) /\
    log s' = log s ++ dl /\ at_level WARNING dl = [] /\
    calls s' = calls s ++ dc /\ attempted dc = [p].
Proof.
  unfold _apply_single_patch, _apply_patch_fallback. py_unfold.
  destruct (subprocess_run (primary_cmd p) (chromium_dir self) (world s))
    as [w1 [rc out err|text]] eqn:E1; simpl.
  - destruct (rc =? 0)%Z; simpl.
    + do 4 eexists. split; [reflexivity|]. simpl. rewrite <- !app_assoc. simpl.
      repeat split; reflexivity.
    + destruct (subprocess_run (fallback_cmd p) (chromium_dir self) w1)
        as [w2 [rc2 out2 err2|text2]] eqn:E2; simpl.
      * destruct (rc2 =? 0)%Z; simpl;
          do 4 eexists; (split; [reflexivity|]); simpl; rewrite <- !app_assoc; simpl;
          repeat split; reflexivity.
      * do 4 eexists; (split; [reflexivity|]); simpl; rewrite <- !app_assoc; simpl;
          repeat split; reflexivity.
  - do 4 eexists; (split; [reflexivity|]); simpl; rewrite <- !app_assoc; simpl;
      repeat split; reflexivity.
Qed.


Lemma at_level_app l a b : at_level l (a ++ b) = at_level l a ++ at_level l b.
Proof. unfold at_level. apply List.filter_app. Qed.

Lemma at_level_skip l e es : level_eqb e.1 l = false -> at_level l (e :: es) = at_level l es.
Proof. intros E. unfold at_level. cbn [List.filter]. rewrite E. reflexivity. Qed.

Lemma attempted_app a b : attempted (a ++ b) = attempted a ++ attempted b.
Proof. unfold attempted. apply omap_app. Qed.

Lemma patch_loop_app self dir pre : forall n s s1 n1 rest,
  patch_loop self dir pre n s = (s1, Ok (inr n1)) ->
  patch_loop self dir (pre ++ rest) n s = patch_loop self dir rest n1 s1.
Proof.
  induction pre as [|p pre IH]; intros n s s1 n1 rest Hpre.
  - cbn in Hpre. inversion Hpre; subst. reflexivity.
  - cbn [patch_loop app] in *. py_unfold.
    destruct (bool_decide (is_Some (fs (world s) !! PyPath.join dir p))); simpl in *.
    + destruct (single_patch_summary self (PyPath.join dir p) s)
        as (s' & b & dl & dc & E & _). rewrite E in *.
      destruct b; simpl in *; [eauto | discriminate].
    + eauto.
Qed.

Lemma patch_loop_total self dir l : forall n s,
  exists s' r dl dc,
    patch_loop self dir l n s = (s', Ok r) /\
    log s' = log s ++ dl /\ calls s' = calls s ++ dc /\
    length (attempted dc) + length (at_level WARNING dl) <= length l /\
    match r with
    | inl b => b = false
    | inr m => m + length (at_level WARNING dl) = n + length l /\
               length (attempted dc) + length (at_level WARNING dl) = length l
    end.
Proof.
  induction l as [|p l IH]; intros n s.
  - exists s, (inr n), [], []. cbn. rewrite !app_nil_r. repeat split; lia.
  - cbn [patch_loop]. py_unfold.
    destruct (bool_decide (is_Some (fs (world s) !! PyPath.join dir p))); simpl.
    + destruct (single_patch_summary self (PyPath.join dir p) s)
        as (s1 & b & dl1 & dc1 & E & Hl1 & Hw1 & Hc1 & Ha1). rewrite E.
      destruct b; simpl.
      * destruct (IH (n + 1) s1) as (s2 & r & dl2 & dc2 & E2 & Hl2 & Hc2 & Hle & Hr).
        exists s2, r, (dl1 ++ dl2), (dc1 ++ dc2). rewrite E2.
        rewrite Hl2, Hl1, Hc2, Hc1, <- !app_assoc, at_level_app, attempted_app, Hw1, Ha1.
        cbn [length app] in *. repeat split; try lia.
        destruct r; [assumption | lia].
      * eexists _, (inl false), (dl1 ++ [_]), dc1. split; [reflexivity|]. simpl.
        rewrite Hl1, Hc1, <- !app_assoc. split; [reflexivity|]. split; [reflexivity|].
        rewrite at_level_app, Hw1, Ha1. cbn. split; [lia | reflexivity].
    + destruct (IH n {| world := world s;
                        log := log s ++ [(WARNING, fstr ["Patch file not found: "; p])];
                        calls := calls s |})
        as (s2 & r & dl2 & dc2 & E2 & Hl2 & Hc2 & Hle & Hr).
      exists s2, r, ((WARNING, fstr ["Patch file not found: "; p]) :: dl2), dc2.
      rewrite E2. simpl in *. rewrite Hl2, Hc2, <- !app_assoc. cbn.
      repeat split; try lia. destruct r; [assumption | lia].
Qed.


Lemma read_text_state p s s' r : OS.read_text p s = (s', r) -> s' = s.
Proof.
  unfold OS.read_text. destruct (fs (world s) !! p) as [[c|]|]; [|congruence..].
  destruct (bool_decide _); congruence.
Qed.

Lemma read_patch_files_state dir s s' r : read_patch_files dir s = (s', r) -> s' = s.
Proof.
  unfold read_patch_files, OS.glob. py_unfold.
  destruct (bool_decide _).
  - destruct (OS.read_text _ s) as [s1 [c|e]] eqn:E; apply read_text_state in E;
      intros [= <- _]; assumption.
  - congruence.
Qed.

(** C1, as amended. In an all-or-nothing series, when the patch at index
    [length pre] of the manifest is the first to fail (the entries before
    it ran without a failure, the patch exists, and both its primary and
    its fallback application fail), the series returns [False] at once:
    the state is the one the failing patch left (but for the error line
    logged), so no later patch is run, and each of the [length pre + 1]
    entries visited was either attempted or skipped with a warning because
    its file was missing. *)
Theorem all_or_nothing_stops_at_first_failure
    self dir name pre p post s s0 s1 n1 s2 :
  read_patch_files dir s = (s0, Ok (pre ++ p :: post)) ->
  patch_loop self dir pre 0 (loop_entry name (pre ++ p :: post) s0) = (s1, Ok (inr n1)) ->
  fs (world s1) !! PyPath.join dir p <> None ->
  _apply_single_patch self (PyPath.join dir p) s1 = (s2, Ok false) ->
  exists s' dl dc,
    _apply_patch_series self dir name s = (s', Ok false) /\
    world s' = world s2 /\ calls s' = calls s2 /\
    log s' = log s ++ dl /\ calls s' = calls s ++ dc /\
    last (attempted dc) = Some (PyPath.join dir p) /\
    length (attempted dc) + length (at_level WARNING dl) = length pre + 1.
Proof.
  intros Hread Hpre Hex Hfail.
  pose proof (read_patch_files_state _ _ _ _ Hread) as ->.
  destruct (patch_loop_total self dir pre 0 (loop_entry name (pre ++ p :: post) s))
    as (s1' & r & dl1 & dc1 & E1 & Hl1 & Hc1 & _ & Hr).
  rewrite Hpre in E1. injection E1 as <- <-. destruct Hr as [_ Hcount].
  destruct (single_patch_summary self (PyPath.join dir p) s1)
    as (s2' & b & dl2 & dc2 & E2 & Hl2 & Hw2 & Hc2 & Ha2).
  rewrite Hfail in E2. injection E2 as <- <-.
  unfold _apply_patch_series. unfold bind at 1. rewrite Hread.
  unfold bind at 1. fold (loop_entry name (pre ++ p :: post) s).
  assert (Hloop : patch_loop self dir (pre ++ p :: post) 0
                    (loop_entry name (pre ++ p :: post) s)
                  = (mkState (world s2)
                             (log s2 ++ [(ERROR, fstr ["Failed to apply patch: "; p])])
                             (calls s2), Ok (inl false))).
  { rewrite (patch_loop_app _ _ _ _ _ _ _ _ Hpre). cbn [patch_loop]. py_unfold.
    rewrite bool_decide_eq_true_2 by (apply not_eq_None_Some; assumption).
    simpl. rewrite Hfail. reflexivity. }
  unfold loop_entry, logger in *. simpl in *.
  unfold bind. rewrite Hloop. unfold ret.
  eexists _, _, _. split; [reflexivity|]. simpl.
  rewrite Hl2, Hl1, Hc2, Hc1, <- !app_assoc. simpl.
  split; [reflexivity|]. split; [reflexivity|]. split; [reflexivity|].
  split; [reflexivity|].
  rewrite attempted_app, Ha2, last_snoc.
  split; [reflexivity|].
  rewrite at_level_skip by reflexivity.
  rewrite !at_level_app, Hw2, length_app. cbn. rewrite app_nil_r. lia.
Qed.

(** C10. When a patch named by the manifest is missing at the moment the
    loop reaches it, the loop logs a warning and goes on with the rest of
    the manifest, in the same state and with the same count, without
    running anything for the missing patch; and the series then returns
    [False] whatever happens to the other patches, the missing one being
    counted in [total_patches] but not in [success_count]. *)
Theorem missing_patch_is_skipped_and_sinks_series
    self dir name pre p post s s0 s1 n1 :
  read_patch_files dir s = (s0, Ok (pre ++ p :: post)) ->
  patch_loop self dir pre 0 (loop_entry name (pre ++ p :: post) s0) = (s1, Ok (inr n1)) ->
  fs (world s1) !! PyPath.join dir p = None ->
  patch_loop self dir (pre ++ p :: post) 0 (loop_entry name (pre ++ p :: post) s0)
  = patch_loop self dir post n1
      (mkState (world s1)
               (log s1 ++ [(WARNING, fstr ["Patch file not found: "; p])])
               (calls s1)) /\
  exists s', _apply_patch_series self dir name s = (s', Ok false).
Proof.
  intros Hread Hpre Hmiss.
  pose proof (read_patch_files_state _ _ _ _ Hread) as ->.
  assert (Hskip : patch_loop self dir (pre ++ p :: post) 0
                    (loop_entry name (pre ++ p :: post) s)
                  = patch_loop self dir post n1
                      (mkState (world s1)
                         (log s1 ++ [(WARNING, fstr ["Patch file not found: "; p])])
                         (calls s1))).
  { rewrite (patch_loop_app _ _ _ _ _ _ _ _ Hpre). cbn [patch_loop]. py_unfold.
    rewrite Hmiss. rewrite bool_decide_eq_false_2 by (intros [? ?]; discriminate).
    reflexivity. }
  split; [exact Hskip|].
  destruct (patch_loop_total self dir pre 0 (loop_entry name (pre ++ p :: post) s))
    as (s1' & r & dl1 & dc1 & E1 & _ & _ & _ & Hr).
  rewrite Hpre in E1. injection E1 as <- <-. destruct Hr as [Hn1 _].
  destruct (patch_loop_total self dir post n1
              (mkState (world s1)
                 (log s1 ++ [(WARNING, fstr ["Patch file not found: "; p])])
                 (calls s1)))
    as (s3 & r & dl3 & dc3 & E3 & _ & _ & _ & Hr).
  unfold _apply_patch_series. unfold bind at 1. rewrite Hread.
  unfold loop_entry, logger in *. simpl in *.
  unfold bind. rewrite Hskip, E3.
  destruct r as [b|m].
  - subst b. eexists. reflexivity.
  - destruct Hr as [Hm _]. unfold logger, ret. eexists. f_equal. f_equal.
    apply Nat.eqb_neq. rewrite length_app. cbn [length]. lia.
Qed.

End UngoogledPatches.

(** ** The step executor for patches *)

Section PatchSteps.
Context `{External}.

(** C4, as amended. For a patch step of either script: when the primary
    method exits with status zero the step succeeds and the fallback is not
    run; when it exits with another status the fallback is run exactly
    once, right after it; and the step fails only when the primary method
    failed and either it could not even be launched (an exception: the
    fallback is then not tried) or the fallback failed too. *)
Theorem patch_step_fallback_discipline
    (self : UngoogledPatcher.t) (opt : ClangOptimizer.t) (p : string) (s : State) :
  let P := UngoogledPatcher.primary_cmd p in
  let F := UngoogledPatcher.fallback_cmd p in
  let cwd := UngoogledPatcher.chromium_dir self in
  let run := UngoogledPatcher._apply_single_patch self p s in
  let P' := ClangOptimizer.primary_cmd p in
  let F' := ClangOptimizer.fallback_cmd p in
  let cwd' := ClangOptimizer.chromium_dir opt in
  let run' := ClangOptimizer._apply_patch opt p s in
  (exit_ok (subprocess_run P cwd (world s)).2 = true ->
   run.2 = Ok true /\ calls run.1 = calls s ++ [SubprocessRun P cwd]) /\
  (launched (subprocess_run P cwd (world s)).2 = true ->
   exit_ok (subprocess_run P cwd (world s)).2 = false ->
   calls run.1 = calls s ++ [SubprocessRun P cwd; SubprocessRun F cwd]) /\
  (run.2 = Ok false ->
   exit_ok (subprocess_run P cwd (world s)).2 = false /\
   (launched (subprocess_run P cwd (world s)).2 = false /\
    calls run.1 = calls s ++ [SubprocessRun P cwd]
    \/ exit_ok (subprocess_run F cwd (subprocess_run P cwd (world s)).1).2 = false)) /\
  (exit_ok (subprocess_run P' cwd' (world s)).2 = true ->
   run'.2 = Ok true /\ calls run'.1 = calls s ++ [SubprocessRun P' cwd']) /\
  (launched (subprocess_run P' cwd' (world s)).2 = true ->
   exit_ok (subprocess_run P' cwd' (world s)).2 = false ->
   calls run'.1 = calls s ++ [SubprocessRun P' cwd'; SubprocessRun F' cwd']) /\
  (run'.2 = Ok false ->
   exit_ok (subprocess_run P' cwd' (world s)).2 = false /\
   (launched (subprocess_run P' cwd' (world s)).2 = false /\
    calls run'.1 = calls s ++ [SubprocessRun P' cwd']
    \/ exit_ok (subprocess_run F' cwd' (subprocess_run P' cwd' (world s)).1).2 = false /\
       partial_ok (subprocess_run F' cwd' (subprocess_run P' cwd' (world s)).1).2 = false)).
Proof.
  intros P F cwd run P' F' cwd' run'.
  assert (Hu : (exit_ok (subprocess_run P cwd (world s)).2 = true ->
                run.2 = Ok true /\ calls run.1 = calls s ++ [SubprocessRun P cwd]) /\
               (launched (subprocess_run P cwd (world s)).2 = true ->
                exit_ok (subprocess_run P cwd (world s)).2 = false ->
                calls run.1 = calls s ++ [SubprocessRun P cwd; SubprocessRun F cwd]) /\
               (run.2 = Ok false ->
                exit_ok (subprocess_run P cwd (world s)).2 = false /\
                (launched (subprocess_run P cwd (world s)).2 = false /\
                 calls run.1 = calls s ++ [SubprocessRun P cwd]
                 \/ exit_ok (subprocess_run F cwd (subprocess_run P cwd (world s)).1).2
                    = false))).
  { subst run. unfold UngoogledPatcher._apply_single_patch,
      UngoogledPatcher._apply_patch_fallback.
    py_unfold. fold P F cwd.
    destruct (subprocess_run P cwd (world s)) as [w1 [rc out err|text]]; simpl.
    - destruct (rc =? 0)%Z eqn:Erc; simpl.
      + rewrite <- ?app_assoc. repeat split; intros; try discriminate; reflexivity.
      + destruct (subprocess_run F cwd w1) as [w2 [rc2 out2 err2|text2]]; simpl;
          [destruct (rc2 =? 0)%Z eqn:Erc2; simpl|];
          rewrite <- ?app_assoc; repeat split; intros; try discriminate;
          try reflexivity; right; reflexivity.
    - repeat split; intros; try discriminate; try reflexivity.
      left. split; reflexivity. }
  destruct Hu as (Hu1 & Hu2 & Hu3).
  split; [exact Hu1|]. split; [exact Hu2|]. split; [exact Hu3|].
  subst run'. unfold ClangOptimizer._apply_patch, ClangOptimizer._apply_patch_fallback.
  py_unfold. fold P' F' cwd'.
  destruct (subprocess_run P' cwd' (world s)) as [w1 [rc out err|text]]; simpl.
  - destruct (rc =? 0)%Z eqn:Erc; simpl.
    + rewrite <- ?app_assoc. repeat split; intros; try discriminate; reflexivity.
    + destruct (subprocess_run F' cwd' w1) as [w2 [rc2 out2 err2|text2]]; simpl;
        [destruct (rc2 =? 0)%Z eqn:Erc2; simpl;
         [|destruct (PyStr.contains "succeeded" (PyStr.lower out2)); simpl]|];
        rewrite <- ?app_assoc; repeat split; intros; try discriminate;
        try reflexivity; right; split; reflexivity.
  - repeat split; intros; try discriminate; try reflexivity.
    left. split; reflexivity.
Qed.


(** C5, as amended. In [ClangOptimizer], when the primary method fails and
    the fallback exits with a non-zero status after reporting a succeeded
    hunk, the step is a success: it adds one to the [success_count] of its
    series, and the only trace of the rejected hunks is a line logged at
    warning level (nothing is logged as an error).  In [UngoogledPatcher]
    the output of the fallback is not looked at: when the primary method
    fails and the fallback exits with a non-zero status, whatever it
    printed (a succeeded hunk included), the step is a failure, its last
    line in the log is the error of the fallback, and nothing is logged
    at warning level. *)
Theorem partial_application_is_a_soft_success
    (self : ClangOptimizer.t) (patcher : UngoogledPatcher.t)
    (what p : string) (n : nat) (s : State) :
  let P := ClangOptimizer.primary_cmd p in
  let F := ClangOptimizer.fallback_cmd p in
  let cwd := ClangOptimizer.chromium_dir self in
  let r1 := subprocess_run P cwd (world s) in
  let r2 := subprocess_run F cwd r1.1 in
  let P' := UngoogledPatcher.primary_cmd p in
  let F' := UngoogledPatcher.fallback_cmd p in
  let cwd' := UngoogledPatcher.chromium_dir patcher in
  let u1 := subprocess_run P' cwd' (world s) in
  let u2 := subprocess_run F' cwd' u1.1 in
  (launched r1.2 = true -> exit_ok r1.2 = false -> partial_ok r2.2 = true ->
   exists s' dl,
     ClangOptimizer._apply_patch self p s = (s', Ok true) /\
     ClangOptimizer.apply_counted self what p n s = (s', Ok (n + 1)) /\
     world s' = r2.1 /\
     log s' = log s ++ dl /\
     at_level WARNING dl = [(WARNING, fstr ["Partial patch success: "; PyPath.name p])] /\
     at_level ERROR dl = []) /\
  (launched u1.2 = true -> exit_ok u1.2 = false ->
   launched u2.2 = true -> exit_ok u2.2 = false ->
   exists s' dl,
     UngoogledPatcher._apply_single_patch patcher p s = (s', Ok false) /\
     world s' = u2.1 /\
     calls s' = calls s ++ [SubprocessRun P' cwd'; SubprocessRun F' cwd'] /\
     log s' = log s ++ dl /\
     at_level WARNING dl = [] /\
     last dl = Some (ERROR, fstr ["Fallback patch failed: "; PyPath.name p])).
Proof.
  intros P F cwd r1 r2 P' F' cwd' u1 u2. subst r2 r1 u2 u1. split.
  - unfold ClangOptimizer.apply_counted, ClangOptimizer._apply_patch,
      ClangOptimizer._apply_patch_fallback.
    py_unfold. fold P F cwd.
    destruct (subprocess_run P cwd (world s)) as [w1 [rc out err|text]]; simpl;
      [|discriminate].
    intros _ Hrc. rewrite Hrc. simpl.
    destruct (subprocess_run F cwd w1) as [w2 [rc2 out2 err2|text2]]; simpl;
      [|discriminate].
    intros Hpart. apply andb_prop in Hpart as [Hrc2 Hsucc].
    apply negb_true_iff in Hrc2. rewrite Hrc2. simpl. rewrite Hsucc. simpl.
    eexists _, _. split; [reflexivity|]. split; [reflexivity|]. split; [reflexivity|].
    rewrite <- ?app_assoc. split; [reflexivity|]. split; reflexivity.
  - unfold UngoogledPatcher._apply_single_patch, UngoogledPatcher._apply_patch_fallback.
    py_unfold. fold P' F' cwd'.
    destruct (subprocess_run P' cwd' (world s)) as [w1 [rc out err|text]]; simpl;
      [|discriminate].
    intros _ Hrc. rewrite Hrc. simpl.
    destruct (subprocess_run F' cwd' w1) as [w2 [rc2 out2 err2|text2]]; simpl;
      [|discriminate].
    intros _ Hrc2. rewrite Hrc2. simpl.
    eexists _, _. split; [reflexivity|]. split; [reflexivity|].
    rewrite <- ?app_assoc. split; [reflexivity|]. split; [reflexivity|].
    split; reflexivity.
Qed.

End PatchSteps.

(** ** Best-effort series *)

Section BestEffort.
Context `{External}.
Import ClangOptimizer.

Lemma attempted_opt_app a b : attempted_opt (a ++ b) = attempted_opt a ++ attempted_opt b.
Proof. unfold attempted_opt. apply omap_app. Qed.

Lemma apply_patch_summary self p s :
  exists s' b dl dc,
    _apply_patch self p s = (s', Ok b) /\
    log s' = log s ++ dl /\ calls s' = calls s ++ dc /\ attempted_opt dc = [p].
Proof.
  unfold _apply_patch, _apply_patch_fallback. py_unfold.
  destruct (subprocess_run (primary_cmd p) (chromium_dir self) (world s))
    as [w1 [rc out err|text]]; simpl.
  - destruct (rc =? 0)%Z; simpl.
    + eexists _, _, _, _. split; [reflexivity|]. simpl. rewrite <- ?app_assoc.
      repeat split; reflexivity.
    + destruct (subprocess_run (fallback_cmd p) (chromium_dir self) w1)
        as [w2 [rc2 out2 err2|text2]]; simpl;
        [destruct (rc2 =? 0)%Z; simpl;
         [|destruct (PyStr.contains "succeeded" (PyStr.lower out2)); simpl]|];
        (eexists _, _, _, _; split; [reflexivity|]; simpl; rewrite <- ?app_assoc;
         repeat split; reflexivity).
  - eexists _, _, _, _. split; [reflexivity|]. simpl. rewrite <- ?app_assoc.
    repeat split; reflexivity.
Qed.

Lemma for_count_best_effort self what ps : forall n s,
  exists oks s' dc,
    for_count ps (apply_counted self what) n s = (s', Ok (n + succeeded_count oks)) /\
    series_steps self what ps s oks s' /\
    length oks = length ps /\
    calls s' = calls s ++ dc /\ attempted_opt dc = ps.
Proof.
  induction ps as [|p ps IH]; intros n s.
  - exists [], s, []. cbn. rewrite Nat.add_0_r, app_nil_r.
    repeat split. constructor.
  - cbn [for_count]. unfold apply_counted at 1. py_unfold.
    destruct (apply_patch_summary self p s) as (s1 & ok & dl & dc & E & _ & Hc & Ha).
    rewrite E. destruct ok; simpl.
    + destruct (IH (n + 1) s1) as (oks & s2 & dc2 & E2 & Hsteps & Hlen & Hc2 & Ha2).
      exists (true :: oks), s2, (dc ++ dc2). rewrite E2.
      split; [f_equal; f_equal; unfold succeeded_count; cbn; lia|].
      split; [econstructor; [exact E | exact Hsteps]|].
      split; [cbn; lia|].
      rewrite Hc2, Hc, <- app_assoc, attempted_opt_app, Ha, Ha2. split; reflexivity.
    + destruct (IH n (mkState (world s1)
                        (log s1 ++ [(WARNING, fstr [what; " patch failed: "; PyPath.name p])])
                        (calls s1)))
        as (oks & s2 & dc2 & E2 & Hsteps & Hlen & Hc2 & Ha2).
      exists (false :: oks), s2, (dc ++ dc2). rewrite E2.
      split; [reflexivity|].
      split; [econstructor; [exact E | exact Hsteps]|].
      split; [cbn; lia|].
      simpl in Hc2. rewrite Hc2, Hc, <- app_assoc, attempted_opt_app, Ha, Ha2.
      split; reflexivity.
Qed.

Ltac best_effort_loop what :=
  match goal with
  | |- context [for_count ?l (apply_counted ?self what) 0 ?st] =>
      let oks := fresh "oks" in
      let s2 := fresh "s2" in
      let dc := fresh "dc" in
      let E := fresh "E" in
      let Hsteps := fresh "Hsteps" in
      let Hlen := fresh "Hlen" in
      let Hc := fresh "Hc" in
      let Ha := fresh "Ha" in
      destruct (for_count_best_effort self what l 0 st)
        as (oks & s2 & dc & E & Hsteps & Hlen & Hc & Ha);
      rewrite E; unfold bind, logger, ret; cbn [fst snd world log calls];
      exists oks, st, s2; eexists;
      split; [reflexivity|]; split; [exact Hsteps|]; split; [exact Hlen|];
      cbn [world log calls]; repeat split;
      exists dc; split; [exact Hc | exact Ha]
  end.

Ltac best_effort_no_dir :=
  unfold bind, logger, ret; cbn [fst snd world log calls];
  eexists; split; [reflexivity|]; split; reflexivity.

Ltac enter_group Ed :=
  cbv zeta; unfold bind at 1; unfold logger at 1; unfold bind at 1;
  rewrite exists_cases; cbn [world log calls]; rewrite Ed; cbn [negb].

Lemma v8_best_effort self s :
  runs_best_effort self "V8" apply_v8_optimizations
    (PyPath.join (clang_dir self) "V8") (v8_selection self (world s)) s.
Proof.
  unfold runs_best_effort, v8_selection, globbed.
  destruct (fs (world s) !! PyPath.join (clang_dir self) "V8") eqn:Ed;
    unfold apply_v8_optimizations, OS.glob; enter_group Ed;
    [|best_effort_no_dir].
  unfold bind at 1. cbn [world log calls]. unfold bind at 1.
  best_effort_loop "V8".
Qed.

Lemma windows_best_effort self s :
  runs_best_effort self "Windows" apply_windows_optimizations
    (PyPath.join (clang_dir self) "Windows") (windows_selection self (world s)) s.
Proof.
  unfold runs_best_effort, windows_selection, globbed. cbv zeta.
  destruct (fs (world s) !! PyPath.join (clang_dir self) "Windows") eqn:Ed;
    unfold apply_windows_optimizations, windows_patches, OS.glob; enter_group Ed;
    [|best_effort_no_dir].
  unfold bind at 1. unfold bind at 1.
  destruct (String.eqb (target_arch self) "avx512");
    [|destruct (String.eqb (target_arch self) "avx2")];
    unfold ret at 1; cbn [world log calls]; unfold bind at 1; unfold ret at 1;
    cbn [world log calls]; unfold bind at 1; best_effort_loop "Windows".
Qed.

Lemma linux_best_effort self s :
  runs_best_effort self "Cross-platform" apply_linux_optimizations
    (PyPath.join (clang_dir self) "Linux") (linux_selection self (world s)) s.
Proof.
  unfold runs_best_effort, linux_selection, globbed.
  destruct (fs (world s) !! PyPath.join (clang_dir self) "Linux") eqn:Ed;
    unfold apply_linux_optimizations, linux_patches, OS.glob; enter_group Ed;
    [|best_effort_no_dir].
  unfold bind at 1. unfold bind at 1. unfold ret at 1. cbn [world log calls].
  unfold bind at 1. best_effort_loop "Cross-platform".
Qed.

End BestEffort.

(** ** Verification probes and the toolchain *)

Section Probes.
Context `{External}.

Lemma for_count_probe {A} (body : A -> nat -> Py nat) (hit : World -> A -> bool) :
  (forall m n s, exists dl,
      body m n s = (mkState (world s) (log s ++ dl) (calls s),
                    Ok (n + Nat.b2n (hit (world s) m)))) ->
  forall ms n s, exists dl,
    for_count ms body n s
    = (mkState (world s) (log s ++ dl) (calls s),
       Ok (n + length (List.filter (hit (world s)) ms))).
Proof.
  intros Hbody ms. induction ms as [|m ms IH]; intros n s.
  - exists []. cbn. rewrite app_nil_r, Nat.add_0_r. destruct s; reflexivity.
  - cbn [for_count]. unfold bind. destruct (Hbody m n s) as (dl1 & ->).
    destruct (IH (n + Nat.b2n (hit (world s) m))
                 (mkState (world s) (log s ++ dl1) (calls s))) as (dl2 & ->).
    exists (dl1 ++ dl2). simpl. rewrite <- app_assoc. f_equal. f_equal.
    destruct (hit (world s) m); cbn; lia.
Qed.

Lemma verify_point_spec self m n s :
  exists dl,
    ClangOptimizer.verify_point self m n s
    = (mkState (world s) (log s ++ dl) (calls s),
       Ok (n + Nat.b2n (marker_found (world s)
                          (PyPath.join (ClangOptimizer.chromium_dir self) m.1)
                          (fun c => PyStr.contains (PyStr.lower m.2) (PyStr.lower c))))).
Proof.
  destruct m as [file marker]. destruct s as [w l c].
  unfold ClangOptimizer.verify_point, marker_found, bind, try_bare.
  rewrite exists_cases. simpl.
  destruct (fs w !! PyPath.join (ClangOptimizer.chromium_dir self) file) as [[text|]|] eqn:E;
    simpl; rewrite ?read_text_cases; simpl; rewrite ?E; simpl.
  - destruct (bool_decide _); simpl.
    + exists []. rewrite app_nil_r, Nat.add_0_r. reflexivity.
    + destruct (PyStr.contains _ _); simpl.
      * eexists [_]. reflexivity.
      * exists []. rewrite app_nil_r, Nat.add_0_r. reflexivity.
  - exists []. rewrite app_nil_r, Nat.add_0_r. reflexivity.
  - exists []. rewrite app_nil_r, Nat.add_0_r. reflexivity.
Qed.

Lemma verify_args_file_spec self n s :
  exists dl,
    ClangOptimizer.verify_args_file self n s
    = (mkState (world s) (log s ++ dl) (calls s),
       Ok (n + Nat.b2n (marker_found (world s)
                          (ClangOptimizer.args_gn (ClangOptimizer.chromium_dir self))
                          (fun c => PyStr.contains "thin_lto" (PyStr.lower c)
                                    && PyStr.contains "polly" (PyStr.lower c))))).
Proof.
  destruct s as [w l c].
  unfold ClangOptimizer.verify_args_file, marker_found, bind, try_bare.
  rewrite exists_cases. simpl.
  destruct (fs w !! ClangOptimizer.args_gn (ClangOptimizer.chromium_dir self))
    as [[text|]|] eqn:E; simpl; rewrite ?read_text_cases; simpl; rewrite ?E; simpl.
  - destruct (bool_decide _); simpl.
    + exists []. rewrite app_nil_r, Nat.add_0_r. reflexivity.
    + destruct (_ && _); simpl; exists []; rewrite app_nil_r, ?Nat.add_0_r; reflexivity.
  - exists []. rewrite app_nil_r, Nat.add_0_r. reflexivity.
  - exists []. rewrite app_nil_r, Nat.add_0_r. reflexivity.
Qed.

Lemma verify_optimizations_spec self s :
  exists s',
    ClangOptimizer.verify_optimizations self s
    = (s', Ok (0 <? optimization_hits self (world s))) /\
    world s' = world s /\ calls s' = calls s.
Proof.
  unfold ClangOptimizer.verify_optimizations, optimization_hits.
  unfold bind at 1. unfold logger at 1. unfold bind at 1.
  destruct (for_count_probe (ClangOptimizer.verify_point self)
              (fun w (m : string * string) =>
                 marker_found w (PyPath.join (ClangOptimizer.chromium_dir self) m.1)
                   (fun c => PyStr.contains (PyStr.lower m.2) (PyStr.lower c)))
              (verify_point_spec self)
              (ClangOptimizer.verification_points self) 0
              (mkState (world s) (log s ++ [(INFO, "Verifying optimization patches...")])
                       (calls s))) as (dl & ->).
  unfold bind at 1.
  match goal with
  | |- context [ClangOptimizer.verify_args_file self ?n ?st] =>
      destruct (verify_args_file_spec self n st) as (dl2 & ->)
  end.
  py_unfold. eexists. split; [reflexivity|]. split; reflexivity.
Qed.

Lemma verify_marker_spec self m n s :
  exists dl,
    UngoogledPatcher.verify_marker self m n s
    = (mkState (world s) (log s ++ dl) (calls s),
       Ok (n + Nat.b2n (marker_found (world s)
                          (PyPath.join (UngoogledPatcher.chromium_dir self) m.1)
                          (fun c => match m.2 with
                                    | None => true
                                    | Some text => PyStr.contains text c
                                    end)))).
Proof.
  destruct m as [file marker]. destruct s as [w l c].
  unfold UngoogledPatcher.verify_marker, marker_found, bind, try_bare.
  rewrite exists_cases. simpl.
  destruct (fs w !! PyPath.join (UngoogledPatcher.chromium_dir self) file) as [[text|]|] eqn:E;
    simpl; rewrite ?read_text_cases; simpl; rewrite ?E; simpl.
  - destruct (bool_decide _); simpl.
    + exists []. rewrite app_nil_r, Nat.add_0_r. reflexivity.
    + destruct marker as [mk|]; simpl.
      * destruct (PyStr.contains _ _); simpl.
        -- eexists [_]. reflexivity.
        -- exists []. rewrite app_nil_r, Nat.add_0_r. reflexivity.
      * exists []. rewrite app_nil_r. reflexivity.
  - exists []. rewrite app_nil_r, Nat.add_0_r. reflexivity.
  - exists []. rewrite app_nil_r, Nat.add_0_r. reflexivity.
Qed.

Lemma verify_patches_spec self s :
  exists s',
    UngoogledPatcher.verify_patches self s = (s', Ok (0 <? patch_hits self (world s))) /\
    world s' = world s /\ calls s' = calls s.
Proof.
  unfold UngoogledPatcher.verify_patches, patch_hits.
  unfold bind at 1. unfold logger at 1. unfold bind at 1.
  destruct (for_count_probe (UngoogledPatcher.verify_marker self)
              (fun w (m : string * option string) =>
                 marker_found w (PyPath.join (UngoogledPatcher.chromium_dir self) m.1)
                   (fun c => match m.2 with
                             | None => true
                             | Some text => PyStr.contains text c
                             end))
              (verify_marker_spec self)
              UngoogledPatcher.verification_markers 0
              (mkState (world s) (log s ++ [(INFO, "Verifying patch application...")])
                       (calls s))) as (dl & ->).
  py_unfold. eexists. split; [reflexivity|]. split; reflexivity.
Qed.

Lemma toolchain_always_passes self s :
  exists s', ClangOptimizer.setup_custom_toolchain self s = (s', Ok true).
Proof.
  unfold ClangOptimizer.setup_custom_toolchain. py_unfold.
  destruct (bool_decide (is_Some _)); simpl; [|eexists; reflexivity].
  destruct (bool_decide (_ ∈ _)); simpl;
    match goal with
    | |- context [subprocess_run ?c ?d ?w] =>
        destruct (subprocess_run c d w) as [w1 [rc out err|text]]; simpl;
        [destruct (rc =? 0)%Z; simpl|]; eexists; reflexivity
    end.
Qed.

(** C2, as amended. The three patch groups of [ClangOptimizer] and the two
    verification passes are best-effort series.  A patch group whose
    directory is there goes through the patches it selected there, all of
    them and in the order of the selection: every step is run, in the
    state its predecessors left, whatever the outcome of the others, and
    the group passes exactly when at least one step succeeded
    ([succeeded_count > 0]); a verification pass looks at every probe and
    passes exactly when a probe found its marker.  The toolchain setup is
    not such a series: it passes always. *)
Theorem best_effort_series_pass_iff_some_success
    (self : ClangOptimizer.t) (patcher : UngoogledPatcher.t) (s : State) :
  runs_best_effort self "V8" ClangOptimizer.apply_v8_optimizations
    (PyPath.join (ClangOptimizer.clang_dir self) "V8") (v8_selection self (world s)) s /\
  runs_best_effort self "Windows" ClangOptimizer.apply_windows_optimizations
    (PyPath.join (ClangOptimizer.clang_dir self) "Windows")
    (windows_selection self (world s)) s /\
  runs_best_effort self "Cross-platform" ClangOptimizer.apply_linux_optimizations
    (PyPath.join (ClangOptimizer.clang_dir self) "Linux")
    (linux_selection self (world s)) s /\
  (exists s', ClangOptimizer.verify_optimizations self s
              = (s', Ok (0 <? optimization_hits self (world s))) /\
              world s' = world s /\ calls s' = calls s) /\
  (exists s', UngoogledPatcher.verify_patches patcher s
              = (s', Ok (0 <? patch_hits patcher (world s))) /\
              world s' = world s /\ calls s' = calls s) /\
  (exists s', ClangOptimizer.setup_custom_toolchain self s = (s', Ok true)).
Proof.
  split; [apply v8_best_effort|].
  split; [apply windows_best_effort|].
  split; [apply linux_best_effort|].
  split; [apply verify_optimizations_spec|].
  split; [apply verify_patches_spec|].
  apply toolchain_always_passes.
Qed.

End Probes.

(** ** The verdict of a pipeline and the exit status *)

Section Pipeline.
Context `{External}.

Lemma safe_ungoogled_init u c v : safe exits_with_1 (UngoogledPatcher.__init__ u c v).
Proof.
  unfold UngoogledPatcher.__init__, UngoogledPatcher._validate_directories.
  safe_tac; apply safe_raise; reflexivity.
Qed.

Lemma safe_optimizer_init o c a v : safe exits_with_1 (ClangOptimizer.__init__ o c a v).
Proof.
  unfold ClangOptimizer.__init__, ClangOptimizer._validate_directories.
  safe_tac; apply safe_raise; reflexivity.
Qed.

Lemma ungoogled_run_all_raises self s e :
  (UngoogledPatcher.run_all self s).2 = Raise e -> is_py e.
Proof.
  intros E. destruct (logs_ungoogled_run_all self s) as (dl & _ & P).
  rewrite E in P. apply P.
Qed.

Lemma optimizer_run_all_returns self s :
  exists s' b, ClangOptimizer.run_all self s = (s', Ok b).
Proof.
  destruct (logs_optimizer_run_all self s) as (dl & _ & P).
  destruct (ClangOptimizer.run_all self s) as [s' [b|e]]; simpl in P.
  - eauto.
  - destruct P as [[] _].
Qed.

Ltac chain_cases Hp :=
  repeat match type of Hp with
         | exists _, _ => destruct Hp as (? & ? & Hp)
         end;
  try contradiction.

Ltac follow_chain :=
  repeat match goal with
         | E : ?p = (_, Ok ?b) |- context [?p] => rewrite E; clear E; destruct b
         end.

Lemma ungoogled_verdict self s bs s' :
  phases_return (ungoogled_phases self) (ungoogled_start s) bs s' ->
  (UngoogledPatcher.run_all self s).2 = Ok (5 <=? succeeded_count bs).
Proof.
  unfold ungoogled_phases, ungoogled_start, logger. simpl.
  destruct bs as [|b1 [|b2 [|b3 [|b4 [|b5 [|b6 [|b7 [|]]]]]]]]; simpl;
    intros Hp; chain_cases Hp.
  unfold UngoogledPatcher.run_all, UngoogledPatcher.run_phases, UngoogledPatcher.phase.
  unfold bind, logger, ret. simpl. follow_chain; reflexivity.
Qed.

Lemma optimizer_verdict self s bs s' :
  phases_return (optimizer_phases self) (optimizer_start s) bs s' ->
  (ClangOptimizer.run_all self s).2 = Ok (4 <=? succeeded_count bs).
Proof.
  unfold optimizer_phases, optimizer_start, logger. simpl.
  destruct bs as [|b1 [|b2 [|b3 [|b4 [|b5 [|b6 [|]]]]]]]; simpl;
    intros Hp; chain_cases Hp.
  unfold ClangOptimizer.run_all, ClangOptimizer.run_phases, ClangOptimizer.phase.
  unfold bind, logger, ret. simpl. follow_chain; reflexivity.
Qed.

Lemma ungoogled_exit_status u c v s :
  (exit_status (UngoogledPatcher.main u c v s).2 = 0%Z <->
   exists s1 self s2,
     UngoogledPatcher.__init__ u c v s = (s1, Ok self) /\
     UngoogledPatcher.run_all self s1 = (s2, Ok true)) /\
  (exit_status (UngoogledPatcher.main u c v s).2 <> 0%Z ->
   exit_status (UngoogledPatcher.main u c v s).2 = 1%Z).
Proof.
  unfold UngoogledPatcher.main, bind, raise.
  destruct (safe_ungoogled_init u c v s) as [_ Hinit].
  destruct (UngoogledPatcher.__init__ u c v s) as [s1 [self|e]] eqn:Ei; simpl in *.
  - pose proof (ungoogled_run_all_raises self s1) as Hrun.
    destruct (UngoogledPatcher.run_all self s1) as [s2 [b|e]] eqn:Er; simpl in *.
    + destruct b; simpl.
      * split; [|intros Hne; destruct (Hne eq_refl)].
        split; [intros _; exists s1, self, s2; split; [reflexivity | exact Er]
               | reflexivity].
      * split; [|reflexivity].
        split; [discriminate | intros (? & ? & ? & E1 & E2)].
        injection E1 as <- <-. rewrite Er in E2. discriminate.
    + specialize (Hrun e eq_refl). destruct e; [|destruct Hrun]. simpl.
      split; [|reflexivity]. split; [discriminate|].
      intros (? & ? & ? & E1 & E2). injection E1 as <- <-. rewrite Er in E2.
      discriminate.
  - rewrite (Hinit e eq_refl). simpl. split; [|reflexivity].
    split; [discriminate | intros (? & ? & ? & E1 & _); discriminate].
Qed.

Lemma optimizer_exit_status o c a v s :
  (exit_status (ClangOptimizer.main o c a v s).2 = 0%Z <->
   exists s1 self s2,
     ClangOptimizer.__init__ o c a v s = (s1, Ok self) /\
     ClangOptimizer.run_all self s1 = (s2, Ok true)) /\
  (exit_status (ClangOptimizer.main o c a v s).2 <> 0%Z ->
   exit_status (ClangOptimizer.main o c a v s).2 = 1%Z).
Proof.
  unfold ClangOptimizer.main, bind, raise.
  destruct (safe_optimizer_init o c a v s) as [_ Hinit].
  destruct (ClangOptimizer.__init__ o c a v s) as [s1 [self|e]] eqn:Ei; simpl in *.
  - destruct (optimizer_run_all_returns self s1) as (s2 & b & Er). rewrite Er. simpl.
    destruct b; simpl.
    + split; [|intros Hne; destruct (Hne eq_refl)].
      split; [intros _; exists s1, self, s2; split; [reflexivity | exact Er]
             | reflexivity].
    + split; [|reflexivity].
      split; [discriminate | intros (? & ? & ? & E1 & E2)].
      injection E1 as <- <-. rewrite Er in E2. discriminate.
  - rewrite (Hinit e eq_refl). simpl. split; [|reflexivity].
    split; [discriminate | intros (? & ? & ? & E1 & _); discriminate].
Qed.

(** C3. The verdict of a pipeline is [len(success_steps) >= 5] over the
    seven phases of the ungoogled pipeline and [>= 4] over the six of the
    optimization pipeline; the process exits with status 0 exactly when
    [run_all] returns that verdict as [True], and with status 1 otherwise;
    so a seven-phase run in which phases 1, 2, 3, 5 and 6 pass and phases
    4 and 7 fail exits with status 0. *)
Theorem pipeline_verdict_and_exit_status :
  (forall self s bs s',
     phases_return (ungoogled_phases self) (ungoogled_start s) bs s' ->
     (UngoogledPatcher.run_all self s).2 = Ok (5 <=? succeeded_count bs)) /\
  (forall self s bs s',
     phases_return (optimizer_phases self) (optimizer_start s) bs s' ->
     (ClangOptimizer.run_all self s).2 = Ok (4 <=? succeeded_count bs)) /\
  (forall u c v s,
     (exit_status (UngoogledPatcher.main u c v s).2 = 0%Z <->
      exists s1 self s2,
        UngoogledPatcher.__init__ u c v s = (s1, Ok self) /\
        UngoogledPatcher.run_all self s1 = (s2, Ok true)) /\
     (exit_status (UngoogledPatcher.main u c v s).2 <> 0%Z ->
      exit_status (UngoogledPatcher.main u c v s).2 = 1%Z)) /\
  (forall o c a v s,
     (exit_status (ClangOptimizer.main o c a v s).2 = 0%Z <->
      exists s1 self s2,
        ClangOptimizer.__init__ o c a v s = (s1, Ok self) /\
        ClangOptimizer.run_all self s1 = (s2, Ok true)) /\
     (exit_status (ClangOptimizer.main o c a v s).2 <> 0%Z ->
      exit_status (ClangOptimizer.main o c a v s).2 = 1%Z)) /\
  (forall u c v s s1 self s',
     UngoogledPatcher.__init__ u c v s = (s1, Ok self) ->
     phases_return (ungoogled_phases self) (ungoogled_start s1)
       [true; true; true; false; true; true; false] s' ->
     exit_status (UngoogledPatcher.main u c v s).2 = 0%Z).
Proof.
  split; [exact ungoogled_verdict|].
  split; [exact optimizer_verdict|].
  split; [exact ungoogled_exit_status|].
  split; [exact optimizer_exit_status|].
  intros u c v s s1 self s' Hinit Hphases.
  apply ungoogled_exit_status.
  pose proof (ungoogled_verdict _ _ _ _ Hphases) as Hv.
  destruct (UngoogledPatcher.run_all self s1) as [s2 r] eqn:E. simpl in Hv. subst r.
  exists s1, self, s2. split; [exact Hinit | exact E].
Qed.

End Pipeline.

(** ** Pruning *)

Section Pruning.
Context `{External}.
Import UngoogledPatcher.

Lemma prune_absent self path n s :
  fs (world s) !! PyPath.join (chromium_dir self) path = None ->
  prune_target self path n s
  = (mkState (world s) (log s ++ [(DEBUG, fstr ["Prune target not found: "; path])])
             (calls s), Ok n).
Proof.
  intros Habs. unfold prune_target, bind. rewrite exists_cases, Habs. reflexivity.
Qed.

Lemma prune_returns self path n s s1 n1 :
  prune_target self path n s = (s1, Ok n1) ->
  fs (world s1) !! PyPath.join (chromium_dir self) path = None /\
  fs (world s1) ⊆ fs (world s) /\ denied (world s1) = denied (world s).
Proof.
  unfold prune_target, bind. rewrite exists_cases.
  destruct (fs (world s) !! PyPath.join (chromium_dir self) path) as [[c|]|] eqn:E; simpl.
  - unfold OS.is_dir, OS.unlink, bind, record, get_world, set_world, raise. simpl. rewrite E. simpl.
    destruct (bool_decide _); simpl; rewrite ?E; simpl; [discriminate|].
    unfold logger, ret. simpl. intros [= <- _]. simpl.
    split; [apply lookup_delete_eq|]. split; [apply delete_subseteq | reflexivity].
  - unfold OS.is_dir, OS.rmtree, bind, record, get_world, set_world, raise. simpl. rewrite E. simpl.
    destruct (List.find _ _); simpl; rewrite ?E; simpl; [discriminate|].
    unfold logger, ret. simpl. intros [= <- _]. simpl.
    split; [|split; [apply map_filter_subseteq | reflexivity]].
    apply map_lookup_filter_None. right. intros x _. simpl. unfold OS.in_tree.
    rewrite bool_decide_eq_true_2 by reflexivity. discriminate.
  - unfold logger, ret. intros [= <- _]. simpl. split; [exact E|]. split; reflexivity.
Qed.

Lemma prune_raises self path n s s1 e :
  prune_target self path n s = (s1, Raise e) ->
  fs (world s) !! PyPath.join (chromium_dir self) path <> None /\
  exists k, k ∈ denied (world s) /\ e = OS.permission_denied k.
Proof.
  unfold prune_target, bind. rewrite exists_cases.
  destruct (fs (world s) !! PyPath.join (chromium_dir self) path) as [[c|]|] eqn:E; simpl.
  - unfold OS.is_dir, OS.unlink, bind, record, get_world, set_world, raise. simpl. rewrite E. simpl.
    destruct (bool_decide _) eqn:Hd; simpl; rewrite ?E; simpl; [|discriminate].
    intros [= _ <-]. split; [discriminate|].
    eexists. split; [|reflexivity]. apply bool_decide_eq_true in Hd. exact Hd.
  - unfold OS.is_dir, OS.rmtree, bind, record, get_world, set_world, raise. simpl. rewrite E. simpl.
    destruct (List.find _ _) as [k|] eqn:Hf; simpl; rewrite ?E; simpl; [|discriminate].
    intros [= _ <-]. split; [discriminate|].
    exists k. split; [|reflexivity].
    apply List.find_some in Hf as [Hin _].
    apply elem_of_elements, list_elem_of_In. exact Hin.
  - discriminate.
Qed.

Lemma prune_loop_clears self paths : forall n s s1 n1,
  for_count paths (prune_target self) n s = (s1, Ok n1) ->
  (forall p, In p paths -> fs (world s1) !! PyPath.join (chromium_dir self) p = None) /\
  fs (world s1) ⊆ fs (world s) /\ denied (world s1) = denied (world s).
Proof.
  induction paths as [|p paths IH]; intros n s s1 n1; cbn [for_count].
  - intros [= <- _]. split; [intros ? []|]. split; reflexivity.
  - unfold bind. destruct (prune_target self p n s) as [s0 [n0|e]] eqn:E; [|discriminate].
    intros Hrest. apply prune_returns in E as (Habs & Hsub & Hden).
    apply IH in Hrest as (Hall & Hsub' & Hden').
    split; [|split; [etrans; eassumption | congruence]].
    intros q [<-|Hq]; [|apply Hall, Hq].
    eapply lookup_weaken_None; eassumption.
Qed.

Lemma prune_loop_noop self paths : forall n s,
  (forall p, In p paths -> fs (world s) !! PyPath.join (chromium_dir self) p = None) ->
  exists dl,
    for_count paths (prune_target self) n s
    = (mkState (world s) (log s ++ dl) (calls s), Ok n).
Proof.
  induction paths as [|p paths IH]; intros n s Hall; cbn [for_count].
  - exists []. rewrite app_nil_r. destruct s; reflexivity.
  - unfold bind. rewrite prune_absent by (apply Hall; left; reflexivity).
    destruct (IH n (mkState (world s)
                      (log s ++ [(DEBUG, fstr ["Prune target not found: "; p])])
                      (calls s))) as (dl & ->).
    { intros q Hq. apply Hall. right. exact Hq. }
    eexists. simpl. rewrite <- app_assoc. reflexivity.
Qed.

(** C6. Pruning a path that is already absent succeeds and changes
    nothing; after a prune step that succeeded the path is absent, so a
    second prune of the same path succeeds as well, without touching the
    tree; a prune step fails only when the path exists and its removal is
    refused.  The same holds of the whole pass: after a pass that
    returned [True], a second pass over the same list returns [True] and
    removes nothing. *)
Theorem prune_is_idempotent self path n s :
  let target := PyPath.join (chromium_dir self) path in
  let list_file := PyPath.join (ungoogled_dir self) "pruning.list" in
  (fs (world s) !! target = None ->
   exists s1, prune_target self path n s = (s1, Ok n) /\
              world s1 = world s /\ calls s1 = calls s) /\
  (forall s1 n1,
     prune_target self path n s = (s1, Ok n1) ->
     fs (world s1) !! target = None /\
     exists s2, prune_target self path n1 s1 = (s2, Ok n1) /\
                world s2 = world s1 /\ calls s2 = calls s1) /\
  (forall s1 e,
     prune_target self path n s = (s1, Raise e) ->
     fs (world s) !! target <> None /\
     exists k, k ∈ denied (world s) /\ e = OS.permission_denied k) /\
  (forall s1,
     apply_pruning self s = (s1, Ok true) ->
     fs (world s1) !! list_file = fs (world s) !! list_file ->
     exists s2, apply_pruning self s1 = (s2, Ok true) /\
                world s2 = world s1 /\ calls s2 = calls s1).
Proof.
  intros target list_file.
  split.
  { intros Habs. eexists. rewrite prune_absent by exact Habs.
    split; [reflexivity|]. split; reflexivity. }
  split.
  { intros s1 n1 Hrun. apply prune_returns in Hrun as (Habs & _ & _).
    split; [exact Habs|]. eexists. rewrite prune_absent by exact Habs.
    split; [reflexivity|]. split; reflexivity. }
  split; [intros s1 e; apply prune_raises|].
  intros s1 Hrun Hlist. subst list_file.
  unfold apply_pruning in *. unfold bind at 1 in Hrun. unfold logger at 1 in Hrun.
  unfold try_except in Hrun. unfold bind at 1 in Hrun. rewrite exists_cases in Hrun.
  simpl in Hrun.
  unfold bind at 1. unfold logger at 1. unfold try_except. unfold bind at 1.
  rewrite exists_cases. simpl. rewrite Hlist.
  destruct (fs (world s) !! PyPath.join (ungoogled_dir self) "pruning.list")
    as [nd|] eqn:El; simpl in *.
  2:{ unfold bind, logger, ret in Hrun. simpl in Hrun. discriminate. }
  unfold bind at 1 in Hrun. rewrite read_text_cases in Hrun. simpl in Hrun.
  rewrite El in Hrun.
  unfold bind at 1. rewrite read_text_cases. simpl. rewrite Hlist.
  destruct nd as [content|]; simpl in *.
  2:{ unfold logger, bind, ret in Hrun. simpl in Hrun. discriminate. }
  destruct (bool_decide
              (PyPath.join (ungoogled_dir self) "pruning.list" ∈ denied (world s)))
    eqn:Hd; simpl in *.
  { unfold logger, bind, ret in Hrun. simpl in Hrun. discriminate. }
  unfold bind at 1 in Hrun.
  destruct (for_count (list_file_entries content) (prune_target self) 0 _)
    as [s0 [n0|e]] eqn:Eloop in Hrun; simpl in Hrun.
  2:{ destruct e; unfold logger, bind, ret in Hrun; simpl in Hrun; discriminate. }
  unfold bind, logger, ret in Hrun. simpl in Hrun. injection Hrun as <-.
  apply prune_loop_clears in Eloop as (Hall & _ & Hden). simpl in *.
  rewrite Hden, Hd. simpl.
  unfold bind at 1.
  match goal with
  | |- context [for_count ?l ?b 0 ?st] =>
      destruct (prune_loop_noop self l 0 st Hall) as (dl & ->)
  end.
  unfold bind, logger, ret. simpl. eexists. split; [reflexivity|]. split; reflexivity.
Qed.

End Pruning.

(** ** Exceptions in the step executor *)

Section StepExceptions.
Context `{External}.

Lemma safe_never_returns {A} (m : Py A) :
  safe never m -> forall s, exists s' a, m s = (s', Ok a).
Proof.
  intros Hm s. destruct (Hm s) as [_ R].
  destruct (m s) as [s' [a|e]]; [eauto | destruct (R e eq_refl)].
Qed.

Lemma logs_never_returns {A} bs (m : Py A) :
  logs bs never m -> forall s, exists s' a, m s = (s', Ok a).
Proof.
  intros Hm s. destruct (Hm s) as (dl & _ & P).
  destruct (m s) as [s' [a|e]]; [eauto | destruct P as [[] _]].
Qed.















End StepExceptions.

(** ** Every phase once, in order *)

Section PhasesOnce.
Context `{External}.

(** X1. The transitions of the orchestrators.  A run of either pipeline
    that returns has opened each of its phases exactly once, in the fixed
    order, whatever the phases returned.  A run of the ungoogled pipeline
    that raises was ended by an [Exception] (never by [sys.exit]), after
    the first phases in that order. *)
Theorem phases_attempted_once_in_order :
  (forall self s s' b,
     ClangOptimizer.run_all self s = (s', Ok b) ->
     exists dl, log s' = log s ++ dl /\ phases_logged dl = optimizer_banners) /\
  (forall self s s' b,
     UngoogledPatcher.run_all self s = (s', Ok b) ->
     exists dl, log s' = log s ++ dl /\ phases_logged dl = ungoogled_banners) /\
  (forall self s s' e,
     UngoogledPatcher.run_all self s = (s', Raise e) ->
     is_py e /\
     exists dl, log s' = log s ++ dl /\ phases_logged dl `prefix_of` ungoogled_banners).
Proof.
  split.
  { intros self s s' b E. destruct (logs_optimizer_run_all self s) as (dl & Hl & P).
    rewrite E in *. simpl in *. exists dl. split; assumption. }
  split.
  { intros self s s' b E. destruct (logs_ungoogled_run_all self s) as (dl & Hl & P).
    rewrite E in *. simpl in *. exists dl. split; assumption. }
  intros self s s' e E. destruct (logs_ungoogled_run_all self s) as (dl & Hl & P).
  rewrite E in *. simpl in *. destruct P as [Xe Hp].
  split; [exact Xe|]. exists dl. split; assumption.
Qed.

Lemma succeeded_count_mono bs1 bs2 :
  Forall2 (fun a b : bool => a = true -> b = true) bs1 bs2 ->
  succeeded_count bs1 <= succeeded_count bs2.
Proof.
  unfold succeeded_count. induction 1 as [|a b bs1 bs2 Hab _ IH]; [reflexivity|].
  destruct a; cbn.
  - rewrite (Hab eq_refl). cbn. lia.
  - destruct b; cbn; lia.
Qed.

(** The verdict is monotone in the outcomes of the phases: when every
    phase that passed in one run passes in another, and the first run
    passed, so does the second. *)
Theorem verdict_is_monotone self s1 s2 bs1 bs2 s1' s2' :
  phases_return (ungoogled_phases self) (ungoogled_start s1) bs1 s1' ->
  phases_return (ungoogled_phases self) (ungoogled_start s2) bs2 s2' ->
  Forall2 (fun a b : bool => a = true -> b = true) bs1 bs2 ->
  (UngoogledPatcher.run_all self s1).2 = Ok true ->
  (UngoogledPatcher.run_all self s2).2 = Ok true.
Proof.
  intros H1 H2 Hle. rewrite (ungoogled_verdict _ _ _ _ H1), (ungoogled_verdict _ _ _ _ H2).
  intros Hv. f_equal.
  assert (Hv' : (5 <=? succeeded_count bs1) = true) by congruence.
  apply Nat.leb_le in Hv'. apply Nat.leb_le.
  pose proof (succeeded_count_mono _ _ Hle). lia.
Qed.

End PhasesOnce.

(** ** Domain substitution *)

Section Substitution.
Context `{External}.

Lemma substitution_first_run s :
  fs (world s) !! "/u/domain_substitution.list" = Some (File "url.txt") ->
  fs (world s) !! "/u/domain_regex.list" = Some (File "example\.com@example.invalid") ->
  fs (world s) !! "/c/url.txt" = Some (File "https://example.com/x") ->
  fs (world s) !! "/c" = Some Dir ->
  "/u/domain_substitution.list" ∉ denied (world s) ->
  "/u/domain_regex.list" ∉ denied (world s) ->
  "/c/url.txt" ∉ denied (world s) ->
  "utils.substitution.SubstitutionDescriptor" ∈ modules (world s) ->
  re_sub "example\.com" "example.invalid" "https://example.com/x" = Substituted "https://example.invalid/x" ->
  exists dl,
  UngoogledPatcher.apply_domain_substitution Scenario.patcher s
  = (mkState (OS.put "/c/url.txt" (File "https://example.invalid/x") (world s)) (log s ++ dl)
       (calls s ++ [OpenWrite "/c/url.txt"]), Ok true).
Proof.
  intros Hsub Hre Hfile Hdir Dsub Dre Dfile Hmod Hsubst.
  unfold UngoogledPatcher.apply_domain_substitution.
  unfold bind at 1. unfold logger at 1. unfold try_except.
  unfold bind at 1. rewrite exists_cases. cbn [world log calls].
  change (PyPath.join (UngoogledPatcher.ungoogled_dir Scenario.patcher) "domain_substitution.list")
    with "/u/domain_substitution.list".
  change (PyPath.join (UngoogledPatcher.ungoogled_dir Scenario.patcher) "domain_regex.list")
    with "/u/domain_regex.list".
  rewrite Hsub. cbn [negb].
  unfold bind at 1. rewrite exists_cases. cbn [world log calls]. rewrite Hre. cbn [negb].
  unfold bind at 1. unfold OS.import at 1. unfold bind at 1. unfold get_world at 1.
  cbn [world log calls]. rewrite bool_decide_eq_true_2 by exact Hmod.
  unfold ret at 1.
  unfold bind at 1. rewrite read_text_cases. cbn [world log calls]. rewrite Hre.
  rewrite bool_decide_eq_false_2 by exact Dre.
  unfold bind at 1. rewrite read_text_cases. cbn [world log calls]. rewrite Hsub.
  rewrite bool_decide_eq_false_2 by exact Dsub.
  change (PyStr.split "010" (PyStr.strip "url.txt")) with ["url.txt"].
  change (PyStr.split "010" (PyStr.strip "example\.com@example.invalid")) with ["example\.com@example.invalid"].
  unfold bind at 1. cbn [for_count].
  unfold bind at 1. unfold UngoogledPatcher.substitute_target at 1.
  change (PyStr.truthy (PyStr.strip "url.txt") && negb (PyStr.startswith "url.txt" "#"))
    with true. cbn iota.
  change (PyPath.join (UngoogledPatcher.chromium_dir Scenario.patcher) (PyStr.strip "url.txt"))
    with "/c/url.txt".
  unfold bind at 1. rewrite exists_cases. cbn [world log calls]. rewrite Hfile.
  unfold bind at 1.
  unfold UngoogledPatcher._substitute_domains_in_file at 1. unfold try_except at 1.
  unfold bind at 1. rewrite read_text_cases. cbn [world log calls]. rewrite Hfile.
  rewrite bool_decide_eq_false_2 by exact Dfile.
  unfold bind at 1. cbn [UngoogledPatcher.substitute_lines].
  unfold bind at 1. unfold UngoogledPatcher.substitute_line at 1.
  change (PyStr.truthy (PyStr.strip "example\.com@example.invalid") && negb (PyStr.startswith "example\.com@example.invalid" "#"))
    with true. cbn iota.
  change (PyStr.split "@" (PyStr.strip "example\.com@example.invalid")) with ["example\.com"; "example.invalid"].
  cbn iota. unfold sub at 1. rewrite Hsubst. unfold ret at 1. unfold ret at 1.
  change (negb ("https://example.invalid/x" =? "https://example.com/x")%string) with true. cbn iota.
  unfold OS.write_text, OS.open_for_writing, bind, record, get_world, raise, set_world, ret,
    logger.
  cbn [world log calls].
  rewrite bool_decide_eq_false_2 by exact Dfile.
  rewrite Hfile. change (PyPath.parent "/c/url.txt") with "/c". rewrite Hdir.
  cbn [world log calls].
  eexists. rewrite <- !app_assoc. reflexivity.
Qed.

Lemma substitution_unchanged_run s text :
  fs (world s) !! "/u/domain_substitution.list" = Some (File "url.txt") ->
  fs (world s) !! "/u/domain_regex.list" = Some (File "example\.com@example.invalid") ->
  fs (world s) !! "/c/url.txt" = Some (File text) ->
  "/u/domain_substitution.list" ∉ denied (world s) ->
  "/u/domain_regex.list" ∉ denied (world s) ->
  "/c/url.txt" ∉ denied (world s) ->
  "utils.substitution.SubstitutionDescriptor" ∈ modules (world s) ->
  re_sub "example\.com" "example.invalid" text = Substituted text ->
  exists dl,
  UngoogledPatcher.apply_domain_substitution Scenario.patcher s
  = (mkState (world s) (log s ++ dl) (calls s), Ok true).
Proof.
  intros Hsub Hre Hfile Dsub Dre Dfile Hmod Hsubst.
  unfold UngoogledPatcher.apply_domain_substitution.
  unfold bind at 1. unfold logger at 1. unfold try_except.
  unfold bind at 1. rewrite exists_cases. cbn [world log calls].
  change (PyPath.join (UngoogledPatcher.ungoogled_dir Scenario.patcher) "domain_substitution.list")
    with "/u/domain_substitution.list".
  change (PyPath.join (UngoogledPatcher.ungoogled_dir Scenario.patcher) "domain_regex.list")
    with "/u/domain_regex.list".
  rewrite Hsub. cbn [negb].
  unfold bind at 1. rewrite exists_cases. cbn [world log calls]. rewrite Hre. cbn [negb].
  unfold bind at 1. unfold OS.import at 1. unfold bind at 1. unfold get_world at 1.
  cbn [world log calls]. rewrite bool_decide_eq_true_2 by exact Hmod.
  unfold ret at 1.
  unfold bind at 1. rewrite read_text_cases. cbn [world log calls]. rewrite Hre.
  rewrite bool_decide_eq_false_2 by exact Dre.
  unfold bind at 1. rewrite read_text_cases. cbn [world log calls]. rewrite Hsub.
  rewrite bool_decide_eq_false_2 by exact Dsub.
  change (PyStr.split "010" (PyStr.strip "url.txt")) with ["url.txt"].
  change (PyStr.split "010" (PyStr.strip "example\.com@example.invalid")) with ["example\.com@example.invalid"].
  unfold bind at 1. cbn [for_count].
  unfold bind at 1. unfold UngoogledPatcher.substitute_target at 1.
  change (PyStr.truthy (PyStr.strip "url.txt") && negb (PyStr.startswith "url.txt" "#"))
    with true. cbn iota.
  change (PyPath.join (UngoogledPatcher.chromium_dir Scenario.patcher) (PyStr.strip "url.txt"))
    with "/c/url.txt".
  unfold bind at 1. rewrite exists_cases. cbn [world log calls]. rewrite Hfile.
  unfold bind at 1.
  unfold UngoogledPatcher._substitute_domains_in_file at 1. unfold try_except at 1.
  unfold bind at 1. rewrite read_text_cases. cbn [world log calls]. rewrite Hfile.
  rewrite bool_decide_eq_false_2 by exact Dfile.
  unfold bind at 1. cbn [UngoogledPatcher.substitute_lines].
  unfold bind at 1. unfold UngoogledPatcher.substitute_line at 1.
  change (PyStr.truthy (PyStr.strip "example\.com@example.invalid") && negb (PyStr.startswith "example\.com@example.invalid" "#"))
    with true. cbn iota.
  change (PyStr.split "@" (PyStr.strip "example\.com@example.invalid")) with ["example\.com"; "example.invalid"].
  cbn iota. unfold sub at 1. rewrite Hsubst. unfold ret at 1. unfold ret at 1.
  rewrite String.eqb_refl. cbn [negb]. unfold ret, logger, bind. cbn [world log calls].
  eexists. rewrite <- ?app_assoc. reflexivity.
Qed.

(** C7. In every tree whose substitution lists hold the single target
    [url.txt] and the single pair [example\.com@example.invalid], and
    whose target file holds [https://example.com/x] (the files can be
    read and written, and [re.sub] replaces the one occurrence of the
    pattern and then finds none), the first run of the substitution
    writes [https://example.invalid/x] to the target, touches no other
    file and returns [True]; the second run writes nothing, leaves the
    tree as it is and returns [True] as well. *)
Theorem domain_substitution_scenario s :
  fs (world s) !! "/u/domain_substitution.list" = Some (File "url.txt") ->
  fs (world s) !! "/u/domain_regex.list" = Some (File "example\.com@example.invalid") ->
  fs (world s) !! "/c/url.txt" = Some (File "https://example.com/x") ->
  fs (world s) !! "/c" = Some Dir ->
  "/u/domain_substitution.list" ∉ denied (world s) ->
  "/u/domain_regex.list" ∉ denied (world s) ->
  "/c/url.txt" ∉ denied (world s) ->
  "utils.substitution.SubstitutionDescriptor" ∈ modules (world s) ->
  re_sub "example\.com" "example.invalid" "https://example.com/x"
  = Substituted "https://example.invalid/x" ->
  re_sub "example\.com" "example.invalid" "https://example.invalid/x"
  = Substituted "https://example.invalid/x" ->
  let first := UngoogledPatcher.apply_domain_substitution Scenario.patcher s in
  let second := UngoogledPatcher.apply_domain_substitution Scenario.patcher first.1 in
  first.2 = Ok true /\
  fs (world first.1) !! "/c/url.txt" = Some (File "https://example.invalid/x") /\
  (forall p, p <> "/c/url.txt" -> fs (world first.1) !! p = fs (world s) !! p) /\
  calls first.1 = calls s ++ [OpenWrite "/c/url.txt"] /\
  second.2 = Ok true /\
  world second.1 = world first.1 /\
  calls second.1 = calls first.1.
Proof.
  intros Hsub Hre Hfile Hdir Dsub Dre Dfile Hmod Hs1 Hs2 first second.
  destruct (substitution_first_run s Hsub Hre Hfile Hdir Dsub Dre Dfile Hmod Hs1)
    as (dl & E1).
  subst second first. rewrite E1. cbn [fst snd world fs OS.put].
  destruct (substitution_unchanged_run
              (mkState (OS.put "/c/url.txt" (File "https://example.invalid/x") (world s))
                       (log s ++ dl) (calls s ++ [OpenWrite "/c/url.txt"]))
              "https://example.invalid/x") as (dl2 & E2);
    cbn [world fs denied modules OS.put]; try assumption.
  - rewrite lookup_insert_ne by discriminate. exact Hsub.
  - rewrite lookup_insert_ne by discriminate. exact Hre.
  - apply lookup_insert_eq.
  - rewrite E2. cbn [fst snd world calls fs OS.put].
    split; [reflexivity|]. split; [apply lookup_insert_eq|].
    split; [intros p Hp; apply lookup_insert_ne; congruence|].
    repeat split; reflexivity.
Qed.

End Substitution.
(** ** Footprints *)

Section Keeps.
Context `{External}.
Context (R : State -> State -> Prop) `{!Footprint R}.

Lemma keeps_ret {A} (a : A) : keeps R (ret a).
Proof. intros s. apply footprint_refl. Qed.

Lemma keeps_raise {A} e : keeps R (@raise A e).
Proof. intros s. apply footprint_refl. Qed.

Lemma keeps_logger l msg : keeps R (logger l msg).
Proof. intros s. apply footprint_log. Qed.

Lemma keeps_get_world : keeps R get_world.
Proof. intros s. apply footprint_refl. Qed.

Lemma keeps_bind {A B} (m : Py A) (k : A -> Py B) :
  keeps R m -> (forall a, keeps R (k a)) -> keeps R (bind m k).
Proof.
  intros Hm Hk s. unfold bind. specialize (Hm s).
  destruct (m s) as [s1 [a|e]]; simpl in *; [|exact Hm].
  eapply footprint_trans; [exact Hm | apply Hk].
Qed.

Lemma keeps_try_except {A} (m : Py A) (h : string -> Py A) :
  keeps R m -> (forall text, keeps R (h text)) -> keeps R (try_except m h).
Proof.
  intros Hm Hh s. unfold try_except. specialize (Hm s).
  destruct (m s) as [s1 [a|[text|code]]]; simpl in *; try exact Hm.
  eapply footprint_trans; [exact Hm | apply Hh].
Qed.

Lemma keeps_try_bare {A} (m : Py A) (h : Py A) :
  keeps R m -> keeps R h -> keeps R (try_bare m h).
Proof.
  intros Hm Hh s. unfold try_bare. specialize (Hm s).
  destruct (m s) as [s1 [a|e]]; simpl in *; [exact Hm|].
  eapply footprint_trans; [exact Hm | apply Hh].
Qed.

Lemma keeps_still {A} (m : Py A) : (forall s, (m s).1 = s) -> keeps R m.
Proof. intros Hm s. rewrite Hm. apply footprint_refl. Qed.

Lemma keeps_exists p : keeps R (OS.exists_ p).
Proof. apply keeps_still. reflexivity. Qed.

Lemma keeps_is_dir p : keeps R (OS.is_dir p).
Proof. apply keeps_still. reflexivity. Qed.

Lemma keeps_glob d pat : keeps R (OS.glob d pat).
Proof. apply keeps_still. reflexivity. Qed.

Lemma keeps_which n : keeps R (OS.which n).
Proof. apply keeps_still. reflexivity. Qed.

Lemma keeps_read_text p : keeps R (OS.read_text p).
Proof. apply keeps_still. intros s. rewrite read_text_cases. reflexivity. Qed.

Lemma keeps_import n : keeps R (OS.import n).
Proof.
  apply keeps_still. intros s. unfold OS.import. py_unfold.
  destruct (bool_decide _); reflexivity.
Qed.

Lemma keeps_sub a b c : keeps R (sub a b c).
Proof.
  apply keeps_still. intros s. unfold sub. destruct (re_sub a b c); reflexivity.
Qed.

Lemma keeps_open_for_writing p : keeps R (OS.open_for_writing p).
Proof.
  apply keeps_still. intros s. unfold OS.open_for_writing. py_unfold.
  destruct (bool_decide _); [reflexivity|].
  destruct (fs (world s) !! p) as [[c|]|];
    destruct (fs (world s) !! PyPath.parent p) as [[c'|]|]; reflexivity.
Qed.

Lemma keeps_for_each {A} (xs : list A) (body : A -> Py unit) :
  (forall x, keeps R (body x)) -> keeps R (for_each xs body).
Proof.
  intros Hb. induction xs as [|x xs IH]; cbn [for_each].
  - apply keeps_ret.
  - apply keeps_bind; [apply Hb | intros _; exact IH].
Qed.

Lemma keeps_for_count {A} (xs : list A) (body : A -> nat -> Py nat) :
  (forall x n, keeps R (body x n)) -> forall n, keeps R (for_count xs body n).
Proof.
  intros Hb. induction xs as [|x xs IH]; intros n; cbn [for_count].
  - apply keeps_ret.
  - apply keeps_bind; [apply Hb | intros n'; apply IH].
Qed.

End Keeps.

Create HintDb footprint discriminated.

Ltac keeps_core :=
  match goal with
  | |- keeps _ (bind _ _) => apply keeps_bind; [apply _| |intros]
  | |- keeps _ (ret _) => apply keeps_ret; apply _
  | |- keeps _ (raise _) => apply keeps_raise; apply _
  | |- keeps _ (logger _ _) => apply keeps_logger; apply _
  | |- keeps _ get_world => apply keeps_get_world; apply _
  | |- keeps _ (OS.exists_ _) => apply keeps_exists; apply _
  | |- keeps _ (OS.is_dir _) => apply keeps_is_dir; apply _
  | |- keeps _ (OS.glob _ _) => apply keeps_glob; apply _
  | |- keeps _ (OS.which _) => apply keeps_which; apply _
  | |- keeps _ (OS.read_text _) => apply keeps_read_text; apply _
  | |- keeps _ (OS.open_for_writing _) => apply keeps_open_for_writing; apply _
  | |- keeps _ (OS.import _) => apply keeps_import; apply _
  | |- keeps _ (sub _ _ _) => apply keeps_sub; apply _
  | |- keeps _ (try_except _ _) => apply keeps_try_except; [apply _| |intros]
  | |- keeps _ (try_bare _ _) => apply keeps_try_bare; [apply _| |]
  | |- keeps _ (for_each _ _) => apply keeps_for_each; [apply _|intros]
  | |- keeps _ (for_count _ _ _) => apply keeps_for_count; [apply _|intros]
  | |- keeps _ (if ?b then _ else _) => destruct b
  | |- keeps _ (match ?x with _ => _ end) => destruct x
  | |- keeps _ (let '(_, _) := ?x in _) => destruct x
  end.

Ltac keeps_tac := repeat first [keeps_core | solve [auto with footprint]].

Section FootprintInstances.
Context `{External}.

Lemma replay_app a b w : replay (a ++ b) w = replay b (replay a w).
Proof. unfold replay. apply foldl_app. Qed.

Lemma same_setup_refl w : same_setup w w.
Proof. repeat split. Qed.

Lemma same_setup_trans w1 w2 w3 :
  same_setup w1 w2 -> same_setup w2 w3 -> same_setup w1 w3.
Proof. unfold same_setup. intros (-> & -> & ->) (-> & -> & ->). repeat split. Qed.

Lemma made_same s s' : calls s' = calls s -> made s s' [].
Proof. unfold made. intros ->. rewrite app_nil_r. reflexivity. Qed.

Lemma made_refl s : made s s [].
Proof. apply made_same. reflexivity. Qed.

Lemma made_trans s1 s2 s3 a b : made s1 s2 a -> made s2 s3 b -> made s1 s3 (a ++ b).
Proof. unfold made. intros E1 E2. rewrite E2, E1, app_assoc. reflexivity. Qed.

Global Instance by_tools_footprint : Footprint by_tools.
Proof.
  split.
  - intros s. exists []. split; [apply made_refl|]. split; reflexivity.
  - intros s1 s2 s3 (d1 & M1 & F1 & W1) (d2 & M2 & F2 & W2). exists (d1 ++ d2).
    split; [eapply made_trans; eassumption|].
    rewrite forallb_app, F1, F2, replay_app, <- W1, <- W2. split; reflexivity.
  - intros s l msg. exists []. split; [apply made_same; reflexivity|]. split; reflexivity.
Qed.

Global Instance only_removes_footprint : Footprint only_removes.
Proof.
  split.
  - intros s. split; [apply same_setup_refl|]. exists [].
    split; [apply made_refl|]. split; [reflexivity|]. intros p. left. reflexivity.
  - intros s1 s2 s3 (S1 & d1 & M1 & F1 & P1) (S2 & d2 & M2 & F2 & P2).
    split; [eapply same_setup_trans; eassumption|]. exists (d1 ++ d2).
    split; [eapply made_trans; eassumption|].
    rewrite forallb_app, F1, F2. split; [reflexivity|]. intros p.
    rewrite existsb_app.
    destruct (P2 p) as [E2|[E2 C2]], (P1 p) as [E1|[E1 C1]].
    + left. congruence.
    + right. rewrite C1. split; [congruence | reflexivity].
    + right. rewrite C2, orb_true_r. split; [assumption | reflexivity].
    + right. rewrite C1. split; [assumption | reflexivity].
  - intros s l msg. split; [apply same_setup_refl|]. exists [].
    split; [apply made_same; reflexivity|]. split; [reflexivity|]. intros p. left. reflexivity.
Qed.

Global Instance only_rewrites_footprint : Footprint only_rewrites.
Proof.
  split.
  - intros s. split; [apply same_setup_refl|]. exists [].
    split; [apply made_refl|]. split; [reflexivity|]. intros p. left. reflexivity.
  - intros s1 s2 s3 (S1 & d1 & M1 & F1 & P1) (S2 & d2 & M2 & F2 & P2).
    split; [eapply same_setup_trans; eassumption|]. exists (d1 ++ d2).
    split; [eapply made_trans; eassumption|].
    rewrite forallb_app, F1, F2. split; [reflexivity|]. intros p.
    destruct (P2 p) as [E2|(I2 & c2 & c2' & A2 & B2)],
             (P1 p) as [E1|(I1 & c1 & c1' & A1 & B1)].
    + left. congruence.
    + right. split; [apply in_or_app; left; assumption|].
      exists c1, c1'. split; congruence.
    + right. split; [apply in_or_app; right; assumption|].
      exists c2, c2'. split; congruence.
    + right. split; [apply in_or_app; left; assumption|].
      exists c1, c2'. split; congruence.
  - intros s l msg. split; [apply same_setup_refl|]. exists [].
    split; [apply made_same; reflexivity|]. split; [reflexivity|]. intros p. left. reflexivity.
Qed.

Global Instance only_writes_footprint args : Footprint (only_writes args).
Proof.
  split.
  - intros s. split; [apply same_setup_refl|]. exists [].
    split; [apply made_refl|]. split; [reflexivity|]. intros p _. left. reflexivity.
  - intros s1 s2 s3 (S1 & d1 & M1 & F1 & P1) (S2 & d2 & M2 & F2 & P2).
    split; [eapply same_setup_trans; eassumption|]. exists (d1 ++ d2).
    split; [eapply made_trans; eassumption|].
    rewrite forallb_app, F1, F2. split; [reflexivity|]. intros p Hp.
    destruct (P2 p Hp) as [E2|[A2 B2]], (P1 p Hp) as [E1|[A1 B1]].
    + left. congruence.
    + right. split; congruence.
    + right. split; congruence.
    + congruence.
  - intros s l msg. split; [apply same_setup_refl|]. exists [].
    split; [apply made_same; reflexivity|]. split; [reflexivity|]. intros p _. left. reflexivity.
Qed.

Global Instance untouched_footprint : Footprint untouched.
Proof.
  split.
  - intros s. split; reflexivity.
  - intros s1 s2 s3 [W1 C1] [W2 C2]. split; congruence.
  - intros s l msg. split; reflexivity.
Qed.

(** *** The primitives *)

Lemma keeps_run cmd cwd : keeps by_tools (OS.run cmd cwd).
Proof.
  intros s. unfold OS.run. py_unfold.
  destruct (subprocess_run cmd cwd (world s)) as [w' [rc out err|text]] eqn:E; simpl;
    (exists [SubprocessRun cmd cwd]; split; [reflexivity|]; split; [reflexivity|];
     simpl; rewrite E; reflexivity).
Qed.

Lemma keeps_unlink p : keeps only_removes (OS.unlink p).
Proof.
  intros s. unfold OS.unlink. py_unfold.
  split.
  - destruct (fs (world s) !! p) as [[c|]|]; simpl;
      [destruct (bool_decide _); simpl|..]; repeat split.
  - exists [Unlink p].
    destruct (fs (world s) !! p) as [[c|]|] eqn:E; simpl;
      [destruct (bool_decide _); simpl|..];
      (split; [reflexivity|]; split; [reflexivity|]); intros q;
      try (left; reflexivity).
    destruct (decide (q = p)) as [->|Hq].
    + right. rewrite lookup_delete_eq. simpl. rewrite String.eqb_refl. split; reflexivity.
    + left. apply lookup_delete_ne. congruence.
Qed.

Lemma keeps_rmtree p : keeps only_removes (OS.rmtree p).
Proof.
  intros s. unfold OS.rmtree. py_unfold.
  split.
  - destruct (fs (world s) !! p); simpl;
      [destruct (List.find _ _); simpl|]; repeat split.
  - exists [Rmtree p].
    destruct (fs (world s) !! p) as [n|] eqn:E; simpl;
      [destruct (List.find _ _); simpl|];
      (split; [reflexivity|]; split; [reflexivity|]); intros q;
      try (left; reflexivity).
    unfold removal_of, OS.in_tree in *.
    destruct (bool_decide (q = p) || PyPath.below p q) eqn:T.
    + right. split; [|reflexivity].
      apply map_lookup_filter_None. right. intros x _. cbn [fst]. congruence.
    + left. destruct (fs (world s) !! q) as [x|] eqn:Eq.
      * apply map_lookup_filter_Some. split; [assumption | exact T].
      * apply map_lookup_filter_None. left. assumption.
Qed.

Lemma keeps_mkdir_go args fuel : forall p, keeps (only_writes args) (OS.mkdir_go fuel p).
Proof.
  assert (Hput : forall s p, fs (world s) !! p = None ->
            only_writes args s (mkState (OS.put p Dir (world s)) (log s) (calls s))).
  { intros s p Hp. split; [(repeat split)|]. exists [].
    split; [apply made_same; reflexivity|]. split; [reflexivity|]. intros q _. simpl.
    destruct (decide (q = p)) as [->|Hq].
    - right. rewrite lookup_insert_eq. split; [assumption | reflexivity].
    - left. apply lookup_insert_ne. congruence. }
  induction fuel as [|fuel IH]; intros p s; cbn [OS.mkdir_go]; py_unfold.
  - destruct (fs (world s) !! p) as [[c|]|] eqn:E; simpl; try apply footprint_refl.
    destruct (bool_decide _); simpl; [apply footprint_refl | apply Hput; assumption].
  - destruct (fs (world s) !! p) as [[c|]|] eqn:E; simpl; try apply footprint_refl.
    destruct (bool_decide _); simpl; [apply footprint_refl|].
    destruct (PyStr.truthy (PyPath.parent p)); simpl; [|apply Hput; assumption].
    specialize (IH (PyPath.parent p) s).
    destruct (OS.mkdir_go fuel (PyPath.parent p) s) as [s1 [u|e]]; simpl in *;
      [|exact IH].
    destruct IH as (S1 & d1 & M1 & F1 & P1).
    split; [exact S1|]. exists d1. split; [exact M1|]. split; [exact F1|].
    intros q Hq. simpl.
    destruct (decide (q = p)) as [->|Hqp].
    + right. rewrite lookup_insert_eq. split; [assumption | reflexivity].
    + rewrite lookup_insert_ne by congruence. apply P1. assumption.
Qed.

Lemma keeps_record_args args c :
  writes_args args c = true -> keeps (only_writes args) (record c).
Proof.
  intros Hc s. split; [(repeat split)|]. exists [c].
  split; [reflexivity|]. simpl. rewrite Hc. split; [reflexivity|].
  intros p _. left. reflexivity.
Qed.

Lemma keeps_mkdir_parents args :
  keeps (only_writes args) (OS.mkdir_parents (PyPath.parent args)).
Proof.
  unfold OS.mkdir_parents. apply keeps_bind; [apply _| |intros ?; apply keeps_mkdir_go].
  apply keeps_record_args. simpl. apply String.eqb_refl.
Qed.

Lemma keeps_put_args args n s :
  only_writes args s (mkState (OS.put args n (world s)) (log s) (calls s)).
Proof.
  split; [(repeat split)|]. exists [].
  split; [apply made_same; reflexivity|]. split; [reflexivity|]. intros q Hq. left.
  simpl. apply lookup_insert_ne. congruence.
Qed.

Lemma keeps_write_args args c : keeps (only_writes args) (OS.write_text args c).
Proof.
  unfold OS.write_text.
  apply keeps_bind; [apply _|apply keeps_record_args; simpl; apply String.eqb_refl|intros ?].
  apply keeps_bind; [apply _|apply keeps_open_for_writing; apply _|intros ?].
  intros s. py_unfold. apply keeps_put_args.
Qed.

Lemma keeps_append_args args c : keeps (only_writes args) (OS.append_text args c).
Proof.
  unfold OS.append_text.
  apply keeps_bind; [apply _|apply keeps_record_args; simpl; apply String.eqb_refl|intros ?].
  apply keeps_bind; [apply _|apply keeps_open_for_writing; apply _|intros ?].
  intros s. py_unfold.
  destruct (fs (world s) !! args) as [[old|]|]; simpl; apply keeps_put_args.
Qed.

End FootprintInstances.

#[global] Hint Resolve keeps_run keeps_unlink keeps_rmtree keeps_mkdir_parents
  keeps_write_args keeps_append_args : footprint.

Section FootprintMethods.
Context `{External}.

(** *** The patch phases *)

Lemma keeps_single_patch self p : keeps by_tools (UngoogledPatcher._apply_single_patch self p).
Proof.
  unfold UngoogledPatcher._apply_single_patch, UngoogledPatcher._apply_patch_fallback.
  cbv zeta. keeps_tac.
Qed.

Lemma keeps_patch_loop self dir l :
  forall n, keeps by_tools (UngoogledPatcher.patch_loop self dir l n).
Proof.
  induction l as [|p l IH]; intros n; cbn [UngoogledPatcher.patch_loop]; cbv zeta;
    keeps_tac; try apply IH; apply keeps_single_patch.
Qed.

Lemma keeps_patch_series self dir name :
  keeps by_tools (UngoogledPatcher._apply_patch_series self dir name).
Proof.
  unfold UngoogledPatcher._apply_patch_series, UngoogledPatcher.read_patch_files.
  cbv zeta. keeps_tac. apply keeps_patch_loop.
Qed.

Lemma keeps_apply_patch self p : keeps by_tools (ClangOptimizer._apply_patch self p).
Proof.
  unfold ClangOptimizer._apply_patch, ClangOptimizer._apply_patch_fallback.
  cbv zeta. keeps_tac.
Qed.

Lemma keeps_apply_counted self what p n :
  keeps by_tools (ClangOptimizer.apply_counted self what p n).
Proof. unfold ClangOptimizer.apply_counted. keeps_tac. apply keeps_apply_patch. Qed.

(** X3. The patch phases of both scripts (the three series of
    [UngoogledPatcher], the three patch groups of [ClangOptimizer] and its
    toolchain setup) write nothing themselves: the only calls they make
    are runs of external programs, and the tree they leave is the tree
    they found with these programs run on it, in the order of the calls;
    this holds however the phase ends. *)
Theorem patch_phases_change_the_tree_only_through_tools
    (patcher : UngoogledPatcher.t) (optimizer : ClangOptimizer.t) :
  Forall (keeps by_tools)
    [UngoogledPatcher.apply_core_patches patcher;
     UngoogledPatcher.apply_extra_patches patcher;
     UngoogledPatcher.apply_inox_patches patcher;
     ClangOptimizer.apply_v8_optimizations optimizer;
     ClangOptimizer.apply_windows_optimizations optimizer;
     ClangOptimizer.apply_linux_optimizations optimizer;
     ClangOptimizer.setup_custom_toolchain optimizer].
Proof.
  repeat apply Forall_cons_2; try apply Forall_nil_2.
  - unfold UngoogledPatcher.apply_core_patches. cbv zeta. keeps_tac.
    apply keeps_patch_series.
  - unfold UngoogledPatcher.apply_extra_patches. cbv zeta. keeps_tac.
    apply keeps_patch_series.
  - unfold UngoogledPatcher.apply_inox_patches. cbv zeta. keeps_tac.
    apply keeps_patch_series.
  - unfold ClangOptimizer.apply_v8_optimizations. cbv zeta. keeps_tac.
    apply keeps_apply_counted.
  - unfold ClangOptimizer.apply_windows_optimizations, ClangOptimizer.windows_patches.
    cbv zeta. keeps_tac. apply keeps_apply_counted.
  - unfold ClangOptimizer.apply_linux_optimizations, ClangOptimizer.linux_patches.
    cbv zeta. keeps_tac. apply keeps_apply_counted.
  - unfold ClangOptimizer.setup_custom_toolchain. cbv zeta. keeps_tac.
Qed.

(** *** Pruning *)

(** X4. [apply_pruning] removes and does nothing else: its calls are
    removals ([unlink], [rmtree]), and every path of the tree is after the
    pass as it was before, or is gone after a removal issued on it or on a
    directory above it; no file is created or rewritten, also when the
    pass is cut short by an exception. *)
Theorem pruning_only_removes (self : UngoogledPatcher.t) :
  keeps only_removes (UngoogledPatcher.apply_pruning self).
Proof.
  unfold UngoogledPatcher.apply_pruning, UngoogledPatcher.prune_target.
  cbv zeta. keeps_tac.
Qed.

(** *** Domain substitution *)

Lemma substitute_lines_still l : forall c s, (UngoogledPatcher.substitute_lines l c s).1 = s.
Proof.
  induction l as [|x l IH]; intros c s; cbn [UngoogledPatcher.substitute_lines].
  - reflexivity.
  - unfold bind, UngoogledPatcher.substitute_line.
    destruct (_ && _); [|apply IH].
    destruct (PyStr.split _ _) as [|a [|b [|? ?]]]; try apply IH.
    unfold sub. destruct (re_sub a b c); [apply IH | reflexivity].
Qed.

Ltac still_case dc :=
  split; [repeat split|];
  exists dc; split; [unfold made; simpl; rewrite ?app_nil_r; reflexivity|];
  split; [reflexivity|]; intros ?; left; reflexivity.

Lemma keeps_substitute_file self f defs :
  keeps only_rewrites (UngoogledPatcher._substitute_domains_in_file self f defs).
Proof.
  intros s. unfold UngoogledPatcher._substitute_domains_in_file, try_except.
  unfold bind at 1. rewrite read_text_cases.
  destruct (fs (world s) !! f) as [[c|]|] eqn:E; simpl; [|still_case (@nil call)..].
  destruct (bool_decide (f ∈ denied (world s))) eqn:D; simpl;
    [still_case (@nil call)|].
  unfold bind at 1. pose proof (substitute_lines_still defs c s) as Hs.
  destruct (UngoogledPatcher.substitute_lines defs c s) as [s1 [c'|[text|code]]];
    simpl in Hs; subst s1; simpl; try still_case (@nil call).
  destruct (negb (c' =? c)%string); simpl; [|still_case (@nil call)].
  unfold OS.write_text, OS.open_for_writing. py_unfold. rewrite D, E. simpl.
  destruct (fs (world s) !! PyPath.parent f) as [[?|]|]; simpl;
    try still_case [OpenWrite f].
  split; [repeat split|]. exists [OpenWrite f].
  split; [reflexivity|]. split; [reflexivity|]. intros p. simpl.
  destruct (decide (p = f)) as [->|Hp].
  - right. split; [left; reflexivity|]. exists c, c'.
    rewrite lookup_insert_eq. split; [assumption | reflexivity].
  - left. apply lookup_insert_ne. congruence.
Qed.

(** X5. [apply_domain_substitution] rewrites files in place and does
    nothing else: the only calls it makes open a file for writing, and
    every path of the tree is after the pass as it was before, or is a file
    that was a file before and was opened for writing; no path is created
    or removed, whatever the lists contain and however the pass ends. *)
Theorem domain_substitution_only_rewrites (self : UngoogledPatcher.t) :
  keeps only_rewrites (UngoogledPatcher.apply_domain_substitution self).
Proof.
  unfold UngoogledPatcher.apply_domain_substitution, UngoogledPatcher.substitute_target.
  cbv zeta. keeps_tac; apply keeps_substitute_file.
Qed.

(** *** The build arguments *)

(** X6. The two writers of [out/Ultimate/args.gn] ([apply_build_flags]
    and [configure_build_args]) touch that file and make directories, and
    nothing else: their calls are the [mkdir] of the parent directory and
    the opening of [args.gn], and every other path is as it was, or is a
    directory that was not there before. *)
Theorem build_arguments_touch_only_args_gn
    (patcher : UngoogledPatcher.t) (optimizer : ClangOptimizer.t) :
  keeps (only_writes (UngoogledPatcher.args_gn (UngoogledPatcher.chromium_dir patcher)))
        (UngoogledPatcher.apply_build_flags patcher) /\
  keeps (only_writes (ClangOptimizer.args_gn (ClangOptimizer.chromium_dir optimizer)))
        (ClangOptimizer.configure_build_args optimizer).
Proof.
  split.
  - unfold UngoogledPatcher.apply_build_flags. cbv zeta. keeps_tac.
  - unfold ClangOptimizer.configure_build_args. cbv zeta. keeps_tac.
Qed.

End FootprintMethods.

(** ** The configuration is checked first *)

Section Configuration.
Context `{External}.

Ltac check_all :=
  repeat match goal with
         | |- context [bool_decide ?P] => destruct (bool_decide P); simpl in *
         end.

(** X7. [UngoogledPatcher]: when both directories, the five entries of
    the ungoogled directory and the three [utils] modules are there, the
    constructor returns the patcher and leaves the state as it is, the log
    included.  When one of them is missing, [main] ends with [sys.exit(1)]
    before any phase: one line is logged, at [ERROR], no call is made and
    the tree is as it was. *)
Theorem ungoogled_configuration_is_checked_first u c v s :
  (ungoogled_ready u c (world s) = true ->
   UngoogledPatcher.__init__ u c v s = (s, Ok (UngoogledPatcher.mk u c v))) /\
  (ungoogled_ready u c (world s) = false ->
   exists msg,
     UngoogledPatcher.main u c v s
     = (mkState (world s) (log s ++ [(ERROR, msg)]) (calls s), Raise (SystemExit 1))).
Proof.
  unfold ungoogled_ready, UngoogledPatcher.main, UngoogledPatcher.__init__,
    UngoogledPatcher._validate_directories, UngoogledPatcher.required_files, OS.import.
  cbn [map forallb for_each]. py_unfold.
  split; intros Hr; check_all; try discriminate; try reflexivity;
    eexists; reflexivity.
Qed.

(** X8. [ClangOptimizer]: when both directories are there the constructor
    returns the optimizer and leaves the state as it is; when one is
    missing, [main] ends with [sys.exit(1)] before any phase, after one
    line logged at [ERROR], with no call made and the tree as it was.
    The target architecture is not looked at. *)
Theorem optimizer_configuration_is_checked_first o c a v s :
  (optimizer_ready o c (world s) = true ->
   ClangOptimizer.__init__ o c a v s = (s, Ok (ClangOptimizer.mk o c a v))) /\
  (optimizer_ready o c (world s) = false ->
   exists msg,
     ClangOptimizer.main o c a v s
     = (mkState (world s) (log s ++ [(ERROR, msg)]) (calls s), Raise (SystemExit 1))).
Proof.
  unfold optimizer_ready, ClangOptimizer.main, ClangOptimizer.__init__,
    ClangOptimizer._validate_directories.
  py_unfold.
  split; intros Hr; check_all; try discriminate; try reflexivity;
    eexists; reflexivity.
Qed.

End Configuration.

(** ** The build arguments *)

Section BuildArguments.
Context `{External}.

Lemma append_cons c a b : (String c a) +:+ b = String c (a +:+ b).
Proof. reflexivity. Qed.

Lemma contains_app_r needle a b :
  PyStr.contains needle b = true -> PyStr.contains needle (a +:+ b) = true.
Proof.
  intros Hb. induction a as [|c a IH]; [exact Hb|].
  rewrite append_cons. cbn [PyStr.contains]. rewrite IH. apply orb_true_r.
Qed.

Lemma lower_app a b : PyStr.lower (a +:+ b) = PyStr.lower a +:+ PyStr.lower b.
Proof.
  unfold PyStr.lower. induction a as [|c a IH]; [reflexivity|].
  rewrite append_cons. cbn [PyStr.map_chars]. rewrite IH. reflexivity.
Qed.

(** The text [configure_build_args] writes after what was there. *)
Lemma optimization_block_has_the_markers self existing :
  let content := fstr [existing; nl; nl; "# Chromium Clang Optimizations"; nl;
                       ClangOptimizer._generate_optimization_flags self] in
  PyStr.contains "thin_lto" (PyStr.lower content)
  && PyStr.contains "polly" (PyStr.lower content) = true.
Proof.
  cbv zeta.
  change (fstr [existing; nl; nl; "# Chromium Clang Optimizations"; nl;
                ClangOptimizer._generate_optimization_flags self])
    with (existing +:+ fstr [nl; nl; "# Chromium Clang Optimizations"; nl;
                             ClangOptimizer._generate_optimization_flags self]).
  rewrite lower_app.
  unfold ClangOptimizer._generate_optimization_flags.
  destruct (String.eqb (ClangOptimizer.target_arch self) "avx512");
    (rewrite !contains_app_r; [reflexivity | vm_compute; reflexivity..]).
Qed.

Lemma configure_success self s s1 :
  ClangOptimizer.configure_build_args self s = (s1, Ok true) ->
  let args := ClangOptimizer.args_gn (ClangOptimizer.chromium_dir self) in
  exists s0 existing,
    (OS.mkdir_parents (PyPath.parent args)
       (mkState (world s)
                (log s ++ [(INFO, "Configuring Clang optimization build arguments...")])
                (calls s))).1 = s0 /\
    existing = match fs (world s0) !! args with
               | Some (File text) => text
               | _ => ""
               end /\
    (args ∉ denied (world s1)) /\
    fs (world s1) !! args
    = Some (File (fstr [existing; nl; nl; "# Chromium Clang Optimizations"; nl;
                        ClangOptimizer._generate_optimization_flags self])).
Proof.
  cbv zeta. unfold ClangOptimizer.configure_build_args. cbv zeta.
  unfold bind at 1. unfold logger at 1. unfold try_except. unfold bind at 1.
  match goal with
  | |- context [OS.mkdir_parents ?p ?st] => destruct (OS.mkdir_parents p st) as [s0 [u|e]]
  end; simpl; [|destruct e; unfold logger, bind, ret; simpl; discriminate].
  unfold bind at 1. rewrite exists_cases. simpl. unfold bind at 1.
  set (args := ClangOptimizer.args_gn (ClangOptimizer.chromium_dir self)).
  assert (Hwrite : forall text,
    (exists w, (OS.write_text args text s0) = (mkState w (log s0) (calls s0 ++ [OpenWrite args]), Ok tt)
               /\ (args ∉ denied w) /\ fs w !! args = Some (File text)) \/
    (exists s' text', OS.write_text args text s0 = (s', Raise (PyException text')))).
  { intros text. unfold OS.write_text, OS.open_for_writing. py_unfold.
    destruct (bool_decide (args ∈ denied (world s0))) eqn:D; simpl;
      [right; eauto|].
    apply bool_decide_eq_false in D.
    destruct (fs (world s0) !! args) as [[c|]|];
      destruct (fs (world s0) !! PyPath.parent args) as [[c'|]|]; simpl;
      try (right; eexists _, _; reflexivity);
      (left; eexists; split; [reflexivity|]; simpl; split; [exact D|];
       apply lookup_insert_eq). }
  destruct (fs (world s0) !! args) as [[text|]|] eqn:E; simpl;
    rewrite ?read_text_cases; simpl; rewrite ?E; simpl.
  - destruct (bool_decide (args ∈ denied (world s0))); simpl;
      [unfold logger, bind, ret; simpl; discriminate|].
    unfold bind at 1.
    match goal with
    | |- context [OS.write_text args ?t s0] =>
        destruct (Hwrite t) as [(w & -> & D & L)|(s' & text' & ->)]
    end; py_unfold; [|discriminate].
    intros [= <-]. simpl. exists s0, text. rewrite E. repeat split; assumption.
  - unfold logger, bind, ret; simpl; discriminate.
  - unfold bind at 1.
    match goal with
    | |- context [OS.write_text args ?t s0] =>
        destruct (Hwrite t) as [(w & -> & D & L)|(s' & text' & ->)]
    end; py_unfold; [|discriminate].
    intros [= <-]. simpl. exists s0, "". rewrite E. repeat split; assumption.
Qed.

Lemma mkdir_go_grows fuel : forall p s q,
  fs (world (OS.mkdir_go fuel p s).1) !! q = fs (world s) !! q
  \/ (fs (world s) !! q = None /\ fs (world (OS.mkdir_go fuel p s).1) !! q = Some Dir).
Proof.
  assert (Hput : forall (w : World) p q, fs w !! p = None ->
            fs (OS.put p Dir w) !! q = fs w !! q
            \/ (fs w !! q = None /\ fs (OS.put p Dir w) !! q = Some Dir)).
  { intros w p q Hp. simpl. destruct (decide (q = p)) as [->|Hq].
    - right. rewrite lookup_insert_eq. split; [assumption | reflexivity].
    - left. apply lookup_insert_ne. congruence. }
  induction fuel as [|fuel IH]; intros p s q; cbn [OS.mkdir_go]; py_unfold.
  - destruct (fs (world s) !! p) as [[c|]|] eqn:E; simpl; try (left; reflexivity).
    destruct (bool_decide _); simpl; [left; reflexivity | apply Hput; assumption].
  - destruct (fs (world s) !! p) as [[c|]|] eqn:E; simpl; try (left; reflexivity).
    destruct (bool_decide _); simpl; [left; reflexivity|].
    destruct (PyStr.truthy (PyPath.parent p)); simpl; [|apply Hput; assumption].
    specialize (IH (PyPath.parent p) s).
    destruct (OS.mkdir_go fuel (PyPath.parent p) s) as [s1 [u|e]]; simpl in *;
      [|apply IH].
    destruct (decide (q = p)) as [->|Hqp].
    + right. rewrite lookup_insert_eq. split; [assumption | reflexivity].
    + rewrite lookup_insert_ne by congruence. apply IH.
Qed.

Lemma mkdir_parents_keeps_text p s q :
  previous_text (world (OS.mkdir_parents p s).1) q = previous_text (world s) q.
Proof.
  unfold OS.mkdir_parents, previous_text. unfold bind at 1. unfold record at 1.
  match goal with
  | |- context [OS.mkdir_go ?fuel p ?st] =>
      destruct (mkdir_go_grows fuel p st q) as [Hq|[Hnone Hdir]];
      destruct (OS.mkdir_go fuel p st) as [s1 [u|e]]; simpl in *
  end; rewrite ?Hq, ?Hnone, ?Hdir; reflexivity.
Qed.

(** X9. The verification of the optimizer is satisfied by the build
    configuration alone: [configure_build_args], when it returns [True],
    has written [args.gn] as the text the file held when the phase
    started (nothing when it was not there) followed by the optimization
    block, and in any later state in which that file is as it was left
    and readable, [verify_optimizations] returns [True], whatever became
    of the patches. *)
Theorem configured_arguments_pass_verification self s s1 s2 :
  let args := ClangOptimizer.args_gn (ClangOptimizer.chromium_dir self) in
  ClangOptimizer.configure_build_args self s = (s1, Ok true) ->
  fs (world s2) !! args = fs (world s1) !! args ->
  args ∉ denied (world s2) ->
  fs (world s1) !! args
  = Some (File (fstr [previous_text (world s) args; nl; nl;
                      "# Chromium Clang Optimizations"; nl;
                      ClangOptimizer._generate_optimization_flags self])) /\
  (ClangOptimizer.verify_optimizations self s2).2 = Ok true.
Proof.
  cbv zeta. intros Hc Hsame Hden.
  destruct (configure_success _ _ _ Hc) as (s0 & existing & Hs0 & Hex & _ & Hfile).
  assert (Hprev : existing
                  = previous_text (world s)
                      (ClangOptimizer.args_gn (ClangOptimizer.chromium_dir self))).
  { rewrite Hex, <- Hs0.
    match goal with
    | |- context [OS.mkdir_parents ?p ?st] =>
        exact (mkdir_parents_keeps_text p st
                 (ClangOptimizer.args_gn (ClangOptimizer.chromium_dir self)))
    end. }
  rewrite <- Hprev. split; [exact Hfile|].
  destruct (verify_optimizations_spec self s2) as (s' & -> & _). simpl. f_equal.
  apply Nat.ltb_lt. unfold optimization_hits, marker_found at 2.
  rewrite Hsame, Hfile. rewrite bool_decide_eq_false_2 by exact Hden. simpl negb.
  cbv beta. rewrite andb_true_l.
  rewrite (optimization_block_has_the_markers self existing). simpl. lia.
Qed.

End BuildArguments.

Section BuildFlags.
Context `{External}.
Import UngoogledPatcher.

Lemma mkdir_parents_of_a_directory p s :
  fs (world s) !! p = Some Dir ->
  OS.mkdir_parents p s = (mkState (world s) (log s) (calls s ++ [Mkdir p]), Ok tt).
Proof.
  intros Hp. unfold OS.mkdir_parents. py_unfold.
  destruct (String.length p); cbn [OS.mkdir_go]; py_unfold; rewrite Hp; reflexivity.
Qed.

Lemma build_flags_run self s flags :
  let args := args_gn (chromium_dir self) in
  let flags_file := PyPath.join (ungoogled_dir self) "flags.gn" in
  fs (world s) !! flags_file = Some (File flags) ->
  flags_file ∉ denied (world s) ->
  fs (world s) !! PyPath.parent args = Some Dir ->
  fs (world s) !! args <> Some Dir ->
  args ∉ denied (world s) ->
  exists s',
    apply_build_flags self s = (s', Ok true) /\
    world s' = OS.put args (File (with_flags flags (fs (world s) !! args))) (world s).
Proof.
  cbv zeta. intros Hflags Hfd Hparent Hargs Had.
  unfold apply_build_flags. cbv zeta.
  unfold bind at 1. unfold logger at 1. unfold try_except. unfold bind at 1.
  rewrite exists_cases. cbn [world log calls]. rewrite Hflags. cbn [negb].
  unfold bind at 1. rewrite read_text_cases. cbn [world log calls].
  rewrite Hflags, (bool_decide_eq_false_2 _ Hfd).
  unfold bind at 1. rewrite mkdir_parents_of_a_directory by exact Hparent.
  unfold bind at 1. rewrite exists_cases. cbn [world log calls].
  unfold OS.append_text, OS.write_text, OS.open_for_writing, with_flags.
  destruct (fs (world s) !! args_gn (chromium_dir self)) as [[old|]|] eqn:E;
    [| destruct (Hargs eq_refl) |];
    py_unfold; rewrite (bool_decide_eq_false_2 _ Had), E, Hparent; simpl;
    rewrite ?E; eexists; (split; [reflexivity|]); reflexivity.
Qed.

(** X13. [apply_build_flags] appends on every run.  With [flags.gn]
    readable and [out/Ultimate] in place, a run returns [True] and leaves
    in [args.gn] the header and the flags when the file was not there, and
    what the file held followed by the ungoogled block when it was; a
    second run appends the block once more, so the phase is not
    idempotent. *)
Theorem build_flags_are_appended_on_every_run self s flags :
  let args := args_gn (chromium_dir self) in
  let flags_file := PyPath.join (ungoogled_dir self) "flags.gn" in
  let first := with_flags flags (fs (world s) !! args) in
  fs (world s) !! flags_file = Some (File flags) ->
  flags_file ∉ denied (world s) ->
  flags_file <> args ->
  fs (world s) !! PyPath.parent args = Some Dir ->
  fs (world s) !! args <> Some Dir ->
  args ∉ denied (world s) ->
  exists s1 s2,
    apply_build_flags self s = (s1, Ok true) /\
    apply_build_flags self s1 = (s2, Ok true) /\
    fs (world s1) !! args = Some (File first) /\
    fs (world s2) !! args
    = Some (File (first +:+ fstr [nl; nl; "# Ungoogled-Chromium specific flags"; nl;
                                  flags])).
Proof.
  cbv zeta. intros Hflags Hfd Hne Hparent Hargs Had.
  destruct (build_flags_run self s flags Hflags Hfd Hparent Hargs Had) as (s1 & E1 & W1).
  assert (Hp : PyPath.parent (args_gn (chromium_dir self)) <> args_gn (chromium_dir self)).
  { intros Heq. rewrite Heq in Hparent. contradiction. }
  assert (L1 : fs (world s1) !! args_gn (chromium_dir self)
               = Some (File (with_flags flags (fs (world s) !! args_gn (chromium_dir self))))).
  { rewrite W1. apply lookup_insert_eq. }
  destruct (build_flags_run self s1 flags) as (s2 & E2 & W2).
  - rewrite W1. simpl. rewrite lookup_insert_ne by congruence. exact Hflags.
  - rewrite W1. exact Hfd.
  - rewrite W1. simpl. rewrite lookup_insert_ne by congruence. exact Hparent.
  - rewrite L1. discriminate.
  - rewrite W1. exact Had.
  - exists s1, s2. split; [exact E1|]. split; [exact E2|]. split; [exact L1|].
    rewrite W2, L1. simpl. apply lookup_insert_eq.
Qed.

End BuildFlags.

(** ** The order of a series *)

Section SeriesOrder.
Context `{External}.
Import UngoogledPatcher.

Lemma sublist_full {A} (l k : list A) : l `sublist_of` k -> length k <= length l -> l = k.
Proof.
  induction 1 as [|x l k _ IH|x l k Hs _]; cbn; intros Hlen.
  - reflexivity.
  - f_equal. apply IH. lia.
  - apply sublist_length in Hs. lia.
Qed.

Lemma made_nothing s dc : made s s dc -> dc = [].
Proof.
  unfold made. intros M. rewrite <- (app_nil_r (calls s)) in M at 1.
  apply app_inv_head in M. congruence.
Qed.

Lemma patch_loop_order self dir l : forall n s,
  exists s' r dc ran,
    patch_loop self dir l n s = (s', Ok r) /\ made s s' dc /\
    attempted dc = map (PyPath.join dir) ran /\ ran `sublist_of` l /\
    match r with
    | inl b => b = false
    | inr m => m = n + length ran
    end.
Proof.
  induction l as [|p l IH]; intros n s.
  - exists s, (inr n), [], []. cbn. split; [reflexivity|]. split; [apply made_refl|].
    split; [reflexivity|]. split; [constructor | lia].
  - cbn [patch_loop]. py_unfold.
    destruct (bool_decide (is_Some (fs (world s) !! PyPath.join dir p))); simpl.
    + destruct (single_patch_summary self (PyPath.join dir p) s)
        as (s1 & b & dl1 & dc1 & E & _ & _ & Hc1 & Ha1). rewrite E.
      destruct b; simpl.
      * destruct (IH (n + 1) s1) as (s2 & r & dc2 & ran & E2 & M2 & A2 & S2 & R2).
        exists s2, r, (dc1 ++ dc2), (p :: ran). rewrite E2.
        split; [reflexivity|]. split; [eapply made_trans; eassumption|].
        rewrite attempted_app, Ha1, A2. split; [reflexivity|].
        split; [constructor; assumption|].
        destruct r; [assumption | cbn; lia].
      * eexists _, (inl false), dc1, [p]. split; [reflexivity|].
        split; [exact Hc1|]. split; [exact Ha1|].
        split; [constructor; apply sublist_nil_l | reflexivity].
    + match goal with
      | |- context [patch_loop self dir l n ?st] =>
          destruct (IH n st) as (s2 & r & dc2 & ran & E2 & M2 & A2 & S2 & R2)
      end.
      exists s2, r, dc2, ran. rewrite E2. split; [reflexivity|].
      split; [exact M2|]. split; [exact A2|]. split; [constructor; assumption|].
      exact R2.
Qed.

(** X10. An all-or-nothing series follows its list of patches: the
    patches it runs [git apply] on are entries of the list, in the order
    of the list and each entry at most once ([ran] is obtained from the
    list by leaving entries out); when the series returns [True] every
    entry was run, and a series whose list is empty returns [True]
    without a call. *)
Theorem series_follows_the_manifest self dir name s l :
  (read_patch_files dir s).2 = Ok l ->
  exists s' b dc ran,
    _apply_patch_series self dir name s = (s', Ok b) /\ made s s' dc /\
    attempted dc = map (PyPath.join dir) ran /\ ran `sublist_of` l /\
    (b = true -> ran = l) /\
    (l = [] -> b = true /\ dc = []).
Proof.
  intros Hread. destruct (read_patch_files dir s) as [s0 r0] eqn:Er.
  simpl in Hread. subst r0.
  pose proof (read_patch_files_state _ _ _ _ Er) as ->.
  unfold _apply_patch_series. unfold bind at 1. rewrite Er.
  unfold bind at 1. unfold logger at 1. unfold bind at 1.
  set (st := mkState (world s)
              (log s ++ [(INFO, fstr ["Found "; PyStr.of_nat (length l); " patches in ";
                                      name; " series"])])
              (calls s)).
  destruct (patch_loop_order self dir l 0 st)
    as (s2 & r & dc & ran & E2 & M2 & A2 & S2 & R2).
  assert (Hnil : l = [] -> (s2, @Ok (bool + nat) r, dc) = (st, Ok (inr 0), [])).
  { intros ->. cbn in E2. injection E2 as <- <-. f_equal.
    apply made_nothing in M2. exact M2. }
  rewrite E2. destruct r as [b|m]; py_unfold.
  - subst b. eexists _, false, dc, ran. split; [reflexivity|].
    split; [exact M2|]. split; [exact A2|]. split; [exact S2|].
    split; [discriminate|]. intros Hl. specialize (Hnil Hl). discriminate.
  - eexists _, _, dc, ran. split; [reflexivity|].
    split; [exact M2|]. split; [exact A2|]. split; [exact S2|]. split.
    + intros Hm. apply Nat.eqb_eq in Hm. apply sublist_full; [exact S2 | lia].
    + intros Hl. specialize (Hnil Hl). injection Hnil as _ -> ->. subst l.
      split; reflexivity.
Qed.

(** X11. Without a manifest the list of a series is the [*.patch] files
    of its directory, each once, in ascending order of their names: so
    this is the order in which the series runs them. *)
Theorem unlisted_patches_run_in_name_order dir s :
  fs (world s) !! PyPath.join dir "series" = None ->
  exists l,
    read_patch_files dir s = (s, Ok l) /\
    StronglySorted String.le l /\
    l ≡ₚ map PyPath.name (omap (fun kv : string * node =>
                                  match PyPath.child_name dir kv.1 with
                                  | Some n => if PyStr.fnmatch "*.patch" n then Some kv.1
                                              else None
                                  | None => None
                                  end) (map_to_list (fs (world s)))).
Proof.
  intros Hnone. unfold read_patch_files. cbv zeta. unfold bind at 1.
  rewrite exists_cases, Hnone. simpl. unfold OS.glob, bind, ret. simpl.
  eexists. split; [reflexivity|]. split.
  - apply StronglySorted_merge_sort; apply _.
  - apply merge_sort_Permutation.
Qed.

End SeriesOrder.

(** ** The toolchain phase in the verdict *)

Section Threshold.
Context `{External}.

(** X12. In every run of the optimization pipeline that returns, the six
    phases were taken to their end and the toolchain phase passed: so the
    verdict [len(success_steps) >= 4] that the run returns is passed
    exactly when three of the other five phases passed. *)
Theorem toolchain_always_counts self s s' b :
  ClangOptimizer.run_all self s = (s', Ok b) ->
  exists s6 b1 b2 b3 b4 b6,
    phases_return (optimizer_phases self) (optimizer_start s)
      [b1; b2; b3; b4; true; b6] s6 /\
    b = (3 <=? succeeded_count [b1; b2; b3; b4; b6]).
Proof.
  intros Hrun.
  destruct (logs_never_returns _ _ (logs_v8 self) (optimizer_start s)) as (s1 & b1 & E1).
  destruct (logs_never_returns _ _ (logs_windows self) s1) as (s2 & b2 & E2).
  destruct (logs_never_returns _ _ (logs_linux self) s2) as (s3 & b3 & E3).
  destruct (logs_never_returns _ _ (logs_configure self) s3) as (s4 & b4 & E4).
  destruct (toolchain_always_passes self s4) as (s5 & E5).
  destruct (logs_never_returns _ _ (logs_verify_optimizations self) s5) as (s6 & b6 & E6).
  assert (Hp : phases_return (optimizer_phases self) (optimizer_start s)
                 [b1; b2; b3; b4; true; b6] s6).
  { unfold optimizer_phases. cbn [phases_return].
    repeat (eexists; split; [eassumption|]). reflexivity. }
  exists s6, b1, b2, b3, b4, b6. split; [exact Hp|].
  pose proof (optimizer_verdict _ _ _ _ Hp) as Hv. rewrite Hrun in Hv. simpl in Hv.
  injection Hv as ->. destruct b1, b2, b3, b4, b6; reflexivity.
Qed.

End Threshold.

(** ** The patches a group selects *)

Section Selection.
Context `{External}.

Lemma append_nil_r s : s +:+ "" = s.
Proof. induction s as [|c s IH]; [reflexivity|]. rewrite append_cons, IH. reflexivity. Qed.

Lemma append_assoc a b c : (a +:+ b) +:+ c = a +:+ (b +:+ c).
Proof.
  induction a as [|x a IH]; [reflexivity|]. rewrite !append_cons, IH. reflexivity.
Qed.

Lemma strip_prefix_app p : forall s n, PyPath.strip_prefix p s = Some n -> s = p +:+ n.
Proof.
  induction p as [|a p IH]; intros s n; cbn [PyPath.strip_prefix].
  - intros [= ->]. reflexivity.
  - destruct s as [|b s]; [discriminate|].
    destruct (Ascii.eqb a b) eqn:E; [|discriminate].
    apply Ascii.eqb_eq in E. subst b. intros Hs. rewrite append_cons.
    f_equal. apply IH. exact Hs.
Qed.

Lemma rev_app_rev_app n : forall cur acc,
  String.rev_app (String.rev_app n cur) acc = String.rev_app cur (n +:+ acc).
Proof.
  induction n as [|c n IH]; intros cur acc; [reflexivity|].
  cbn [String.rev_app]. rewrite IH. reflexivity.
Qed.

Lemma no_slash_head c n :
  PyStr.contains "/" (String c n) = false ->
  Ascii.eqb c "/" = false /\ PyStr.contains "/" n = false.
Proof.
  cbn [PyStr.contains String.prefix]. intros Hc. apply orb_false_elim in Hc as [Hp Hn].
  split; [|exact Hn]. apply Ascii.eqb_neq. intros ->.
  destruct n; cbn in Hp; discriminate.
Qed.

Lemma split_go_plain n : forall cur,
  PyStr.contains "/" n = false ->
  PyStr.split_go "/" cur n = [String.rev (String.rev_app n cur)].
Proof.
  induction n as [|c n IH]; intros cur Hn; [reflexivity|].
  apply no_slash_head in Hn as [Hc Hn]. cbn [PyStr.split_go]. rewrite Hc.
  apply IH. exact Hn.
Qed.

Lemma split_go_nonempty sep s : forall cur, PyStr.split_go sep cur s <> [].
Proof.
  induction s as [|c s IH]; intros cur; cbn [PyStr.split_go]; [discriminate|].
  destruct (Ascii.eqb c sep); [discriminate | apply IH].
Qed.

Lemma last_split n a : forall cur,
  PyStr.contains "/" n = false ->
  List.last (PyStr.split_go "/" cur (a +:+ String "/" n)) "" = n.
Proof.
  intros cur Hn. revert cur. induction a as [|c a IH]; intros cur.
  - change ("" +:+ String "/" n) with (String "/" n). cbn [PyStr.split_go].
    change (Ascii.eqb "/" "/") with true. cbv iota.
    rewrite (split_go_plain n "" Hn). unfold String.rev.
    rewrite rev_app_rev_app. cbn [String.rev_app List.last]. apply append_nil_r.
  - rewrite append_cons. cbn [PyStr.split_go].
    destruct (Ascii.eqb c "/"); [|apply IH].
    specialize (IH ""). pose proof (split_go_nonempty "/" (a +:+ String "/" n) "") as Hne.
    destruct (PyStr.split_go "/" "" (a +:+ String "/" n)) as [|y l]; [contradiction|].
    exact IH.
Qed.

Lemma name_of_child d k n : PyPath.child_name d k = Some n -> PyPath.name k = n.
Proof.
  unfold PyPath.child_name.
  destruct (PyPath.strip_prefix (d +:+ "/") k) as [m|] eqn:E; [|discriminate].
  destruct (PyStr.truthy m && negb (PyStr.contains "/" m)) eqn:T; [|discriminate].
  intros [= ->]. apply andb_true_iff in T as [_ T]. apply negb_true_iff in T.
  apply strip_prefix_app in E. subst k. rewrite append_assoc.
  unfold PyPath.name, PyStr.split. apply last_split. exact T.
Qed.

(** Names matched by a pattern that starts with a star. *)
Lemma fnmatch_star pat n :
  PyStr.fnmatch (String "*" pat) n = true ->
  exists a b, n = a +:+ b /\ PyStr.fnmatch pat b = true.
Proof.
  induction n as [|c n IH].
  - cbn. rewrite orb_false_r. intros Hm. exists "", "". split; [reflexivity | exact Hm].
  - intros Hm.
    assert (Hcases : PyStr.fnmatch pat (String c n) = true
                     \/ PyStr.fnmatch (String "*" pat) n = true).
    { destruct (PyStr.fnmatch pat (String c n)) eqn:E1; [left; reflexivity|].
      right. cbn in Hm. rewrite E1 in Hm. cbn. exact Hm. }
    destruct Hcases as [Hhere|Hlater].
    + exists "", (String c n). split; [reflexivity | exact Hhere].
    + destruct (IH Hlater) as (a & b & -> & Hb). exists (String c a), b.
      split; [reflexivity | exact Hb].
Qed.

Lemma arch_patch_has_avx pat n :
  pat = "*avx512*.patch" \/ pat = "*avx2*.patch" ->
  PyStr.fnmatch pat n = true ->
  PyStr.contains "avx" (PyStr.lower n) = true.
Proof.
  intros Hpat Hm.
  assert (Hsplit : exists a b, n = a +:+ ("avx" +:+ b)).
  { destruct Hpat as [-> | ->]; apply fnmatch_star in Hm as (a & b & -> & Hb);
      exists a;
      repeat match type of Hb with
             | PyStr.fnmatch (String ?x ?rest) ?m = true =>
                 lazymatch x with "*"%char => fail | _ => idtac end;
                 let r := fresh "r" in
                 let Hr := fresh "Hr" in
                 let y := fresh "y" in
                 let Hy := fresh "Hy" in
                 remember rest as r eqn:Hr;
                 destruct m as [|y m]; [discriminate|];
                 cbn [PyStr.fnmatch] in Hb; apply andb_true_iff in Hb as [Hy Hb];
                 apply Ascii.eqb_eq in Hy; subst y r
             end;
      eexists; reflexivity. }
  destruct Hsplit as (a & b & ->). rewrite lower_app. apply contains_app_r.
  rewrite lower_app. change (PyStr.lower "avx") with "avx".
  destruct (PyStr.lower b); reflexivity.
Qed.

Lemma glob_cases d pat s : OS.glob d pat s = (s, Ok (globbed d pat (world s))).
Proof. reflexivity. Qed.

Lemma omap_keys_sublist {A} (f : string * A -> option string) l :
  (forall kv x, f kv = Some x -> x = kv.1) -> omap f l `sublist_of` l.*1.
Proof.
  intros Hf. induction l as [|kv l IH]; cbn; [constructor|].
  destruct (f kv) as [x|] eqn:E.
  - rewrite (Hf _ _ E). constructor. exact IH.
  - constructor. exact IH.
Qed.

Lemma globbed_NoDup d pat w : NoDup (globbed d pat w).
Proof.
  eapply sublist_NoDup; [apply (NoDup_fst_map_to_list (fs w))|].
  apply omap_keys_sublist. intros kv x.
  destruct (PyPath.child_name d kv.1); [|discriminate].
  destruct (PyStr.fnmatch pat s); [|discriminate]. congruence.
Qed.

Lemma globbed_matches d pat w p :
  p ∈ globbed d pat w ->
  exists n, PyPath.child_name d p = Some n /\ PyStr.fnmatch pat n = true.
Proof.
  unfold globbed. rewrite list_elem_of_omap. intros (kv & _ & Hkv).
  destruct (PyPath.child_name d kv.1) as [n|] eqn:E; [|discriminate].
  destruct (PyStr.fnmatch pat n) eqn:M; [|discriminate].
  injection Hkv as <-. eauto.
Qed.

Lemma group_attempts self what ps s :
  exists s' n dc,
    for_count ps (ClangOptimizer.apply_counted self what) 0 s = (s', Ok n) /\
    made s s' dc /\ attempted_opt dc = ps.
Proof.
  destruct (for_count_best_effort self what ps 0 s) as (oks & s' & dc & E & _ & _ & M & A).
  exists s', (0 + succeeded_count oks), dc. repeat split; assumption.
Qed.

Ltac group_runs what :=
  match goal with
  | |- context [for_count ?ps (ClangOptimizer.apply_counted ?self what) 0 ?st] =>
      let s1 := fresh "s1" in
      let n := fresh "n" in
      let dc := fresh "dc" in
      let E := fresh "E" in
      let M := fresh "M" in
      let A := fresh "A" in
      destruct (group_attempts self what ps st) as (s1 & n & dc & E & M & A);
      rewrite E; unfold bind, logger, ret; cbn [fst snd world log calls];
      eexists _, _, dc; split; [reflexivity|]; split; [exact M|]; rewrite A
  end.

Ltac group_absent :=
  unfold bind, logger, ret; cbn [fst snd world log calls];
  eexists _, false, []; split; [reflexivity|]; split; [apply made_same; reflexivity|];
  change (attempted_opt []) with (@nil string).

Lemma filter_NoDup {A} (f : A -> bool) l : NoDup l -> NoDup (List.filter f l).
Proof.
  intros Hl. eapply sublist_NoDup; [exact Hl|].
  induction l as [|x l IH]; cbn; [constructor|].
  apply NoDup_cons in Hl as [_ Hl].
  destruct (f x); constructor; apply IH; exact Hl.
Qed.

Lemma windows_patches_NoDup d arch w :
  arch = "*avx512*.patch" \/ arch = "*avx2*.patch" ->
  NoDup (globbed d arch w
         ++ List.filter (fun p => negb (PyStr.contains "avx" (PyStr.lower (PyPath.name p))))
                        (globbed d "*.patch" w)).
Proof.
  intros Harch. apply NoDup_app. split; [apply globbed_NoDup|]. split.
  - intros p Hp Hg. apply list_elem_of_In, filter_In in Hg as [_ Hg].
    apply globbed_matches in Hp as (n & Hn & Hm).
    rewrite (name_of_child _ _ _ Hn), (arch_patch_has_avx _ _ Harch Hm) in Hg.
    discriminate.
  - apply filter_NoDup, globbed_NoDup.
Qed.

(** X14. No patch is run twice within a group of the optimizer.  The V8
    group runs the [*.patch] files of its directory; the cross-platform
    group runs those of the [Linux] directory whose name, in lower case,
    contains none of [alsa], [gtk], [x11], [wayland]; the Windows group
    runs the patches of the target architecture and then the general
    ones, and a patch with [avx] in its name is run only for the targets
    [avx512] and [avx2], and only if its name matches the pattern of the
    target: for the target [avx] no such patch is run. *)
Theorem each_patch_of_a_group_runs_once self s :
  (exists s' b dc,
     ClangOptimizer.apply_v8_optimizations self s = (s', Ok b) /\ made s s' dc /\
     NoDup (attempted_opt dc) /\
     attempted_opt dc
     `sublist_of` globbed (PyPath.join (ClangOptimizer.clang_dir self) "V8") "*.patch"
                          (world s)) /\
  (exists s' b dc,
     ClangOptimizer.apply_windows_optimizations self s = (s', Ok b) /\ made s s' dc /\
     NoDup (attempted_opt dc) /\
     Forall (fun p =>
               PyStr.contains "avx" (PyStr.lower (PyPath.name p)) = true ->
               (ClangOptimizer.target_arch self = "avx512"
                \/ ClangOptimizer.target_arch self = "avx2") /\
               p ∈ globbed (PyPath.join (ClangOptimizer.clang_dir self) "Windows")
                           ("*" +:+ ClangOptimizer.target_arch self +:+ "*.patch")
                           (world s))
            (attempted_opt dc)) /\
  (exists s' b dc,
     ClangOptimizer.apply_linux_optimizations self s = (s', Ok b) /\ made s s' dc /\
     NoDup (attempted_opt dc) /\
     Forall (fun p =>
               existsb (fun skip => PyStr.contains skip (PyStr.lower (PyPath.name p)))
                       ["alsa"; "gtk"; "x11"; "wayland"] = false)
            (attempted_opt dc)).
Proof.
  split; [|split].
  - unfold ClangOptimizer.apply_v8_optimizations. cbv zeta.
    unfold bind at 1. unfold logger at 1. unfold bind at 1. rewrite exists_cases.
    cbn [world log calls].
    destruct (fs (world s) !! PyPath.join (ClangOptimizer.clang_dir self) "V8");
      cbn [negb].
    + unfold bind at 1. rewrite glob_cases. cbn [world log calls]. unfold bind at 1.
      group_runs "V8". split; [apply globbed_NoDup | reflexivity].
    + group_absent. split; [apply NoDup_nil_2 | apply sublist_nil_l].
  - unfold ClangOptimizer.apply_windows_optimizations, ClangOptimizer.windows_patches.
    cbv zeta. unfold bind at 1. unfold logger at 1. unfold bind at 1.
    rewrite exists_cases. cbn [world log calls].
    destruct (fs (world s) !! PyPath.join (ClangOptimizer.clang_dir self) "Windows");
      cbn [negb]; [|group_absent; split; [apply NoDup_nil_2 | apply Forall_nil_2]].
    unfold bind at 1. unfold bind at 1.
    destruct (String.eqb (ClangOptimizer.target_arch self) "avx512") eqn:E512;
      [|destruct (String.eqb (ClangOptimizer.target_arch self) "avx2") eqn:E2];
      rewrite ?glob_cases; unfold ret at 1; cbn [world log calls];
      unfold bind at 1; rewrite glob_cases; unfold ret at 1; cbn [world log calls];
      unfold bind at 1; group_runs "Windows".
    + apply String.eqb_eq in E512. split; [apply windows_patches_NoDup; auto|].
      apply Forall_app. split; apply Forall_forall; intros p Hp Havx.
      * split; [auto|]. rewrite E512. exact Hp.
      * apply list_elem_of_In, filter_In in Hp as [_ Hp]. rewrite Havx in Hp. discriminate.
    + apply String.eqb_eq in E2. split; [apply windows_patches_NoDup; auto|].
      apply Forall_app. split; apply Forall_forall; intros p Hp Havx.
      * split; [auto|]. rewrite E2. exact Hp.
      * apply list_elem_of_In, filter_In in Hp as [_ Hp]. rewrite Havx in Hp. discriminate.
    + cbn [app]. split; [apply filter_NoDup, globbed_NoDup|].
      apply Forall_forall. intros p Hp Havx.
      apply list_elem_of_In, filter_In in Hp as [_ Hp]. rewrite Havx in Hp. discriminate.
  - unfold ClangOptimizer.apply_linux_optimizations, ClangOptimizer.linux_patches.
    cbv zeta. unfold bind at 1. unfold logger at 1. unfold bind at 1.
    rewrite exists_cases. cbn [world log calls].
    destruct (fs (world s) !! PyPath.join (ClangOptimizer.clang_dir self) "Linux");
      cbn [negb]; [|group_absent; split; [apply NoDup_nil_2 | apply Forall_nil_2]].
    unfold bind at 1. unfold bind at 1. rewrite glob_cases. unfold ret at 1.
    cbn [world log calls]. unfold bind at 1. group_runs "Cross-platform".
    split; [apply filter_NoDup, globbed_NoDup|].
    apply Forall_forall. intros p Hp. apply list_elem_of_In, filter_In in Hp as [_ Hp].
    apply negb_true_iff in Hp. exact Hp.
Qed.

End Selection.

(** ** What the substitution pass needs to pass *)

Section SubstitutionVerdict.
Context `{External}.
Import UngoogledPatcher.

Lemma domain_substitution_result self s :
  (apply_domain_substitution self s).2
  = Ok (readable (world s) (PyPath.join (ungoogled_dir self) "domain_substitution.list")
        && readable (world s) (PyPath.join (ungoogled_dir self) "domain_regex.list")
        && bool_decide ("utils.substitution.SubstitutionDescriptor" ∈ modules (world s))).
Proof.
  unfold apply_domain_substitution, readable, marker_found, OS.import. cbv zeta.
  unfold bind at 1. unfold logger at 1. unfold try_except. unfold bind at 1.
  rewrite exists_cases. cbn [world log calls].
  destruct (fs (world s) !! PyPath.join (ungoogled_dir self) "domain_substitution.list")
    as [n1|] eqn:E1; cbn [negb]; [|reflexivity].
  unfold bind at 1. rewrite exists_cases. cbn [world log calls].
  destruct (fs (world s) !! PyPath.join (ungoogled_dir self) "domain_regex.list")
    as [n2|] eqn:E2; cbn [negb];
    [|unfold bind, logger, ret; cbn; rewrite andb_false_r; reflexivity].
  unfold bind at 1. unfold bind at 1. unfold get_world at 1. cbn [world log calls].
  destruct (bool_decide (_ ∈ modules (world s))); cbn [ret raise];
    [|unfold bind, logger, ret; cbn; rewrite andb_false_r; reflexivity].
  unfold bind at 1. rewrite read_text_cases. cbn [world log calls]. rewrite E2.
  destruct n2 as [c2|];
    [|unfold bind, logger, ret; cbn; rewrite andb_false_r; reflexivity].
  destruct (bool_decide (_ ∈ denied (world s))); cbn [negb];
    [unfold bind, logger, ret; cbn; rewrite andb_false_r; reflexivity|].
  unfold bind at 1. rewrite read_text_cases. cbn [world log calls]. rewrite E1.
  destruct n1 as [c1|]; [|reflexivity].
  destruct (bool_decide (_ ∈ denied (world s))); cbn [negb]; [reflexivity|].
  unfold bind at 1.
  match goal with
  | |- context [for_count ?l ?body 0 ?st] =>
      destruct (safe_never_returns (for_count l body 0)
                  (safe_for_count never l body
                     (fun f n => safe_substitute_target self _ f n) 0) st)
        as (s1 & n & ->)
  end.
  reflexivity.
Qed.

(** X15. [apply_domain_substitution] never raises, and it passes only
    with its lists: when it returns [True], [domain_substitution.list]
    and [domain_regex.list] were both files that could be read, and the
    import of [SubstitutionDescriptor] from [utils.substitution]
    succeeded; when one of the lists is missing or unreadable, or the
    import fails, it returns [False]. *)
Theorem domain_substitution_passes_only_with_its_lists self s :
  exists s' b,
    apply_domain_substitution self s = (s', Ok b) /\
    (b = true ->
     readable (world s) (PyPath.join (ungoogled_dir self) "domain_substitution.list") = true
     /\ readable (world s) (PyPath.join (ungoogled_dir self) "domain_regex.list") = true
     /\ "utils.substitution.SubstitutionDescriptor" ∈ modules (world s)).
Proof.
  pose proof (domain_substitution_result self s) as Hr.
  destruct (apply_domain_substitution self s) as [s' r]. simpl in Hr. subst r.
  eexists _, _. split; [reflexivity|]. intros Hb.
  apply andb_true_iff in Hb as [Hb Himport]. apply andb_true_iff in Hb as [Hsub Hregex].
  apply bool_decide_eq_true in Himport. repeat split; assumption.
Qed.

End SubstitutionVerdict.

(** ** Pipelines without patch directories *)

Section MissingDirectories.
Context `{External}.

Ltac missing_dir Hd :=
  cbv zeta; unfold bind at 1; unfold logger at 1; unfold bind at 1;
  rewrite exists_cases; cbn [world log calls]; rewrite Hd; cbn [negb];
  unfold bind, logger, ret; cbn [fst snd world log calls];
  eexists; split; [reflexivity|]; split; reflexivity.

Lemma series_without_directory (self : UngoogledPatcher.t) s :
  let patches := PyPath.join (UngoogledPatcher.ungoogled_dir self) "patches" in
  (fs (world s) !! PyPath.join patches "core" = None ->
   exists s1, UngoogledPatcher.apply_core_patches self s = (s1, Ok false)
              /\ world s1 = world s /\ calls s1 = calls s) /\
  (fs (world s) !! PyPath.join patches "extra" = None ->
   exists s1, UngoogledPatcher.apply_extra_patches self s = (s1, Ok false)
              /\ world s1 = world s /\ calls s1 = calls s) /\
  (fs (world s) !! PyPath.join patches "inox-patchset" = None ->
   exists s1, UngoogledPatcher.apply_inox_patches self s = (s1, Ok false)
              /\ world s1 = world s /\ calls s1 = calls s).
Proof.
  cbv zeta. split; [|split]; intros Hd.
  - unfold UngoogledPatcher.apply_core_patches. missing_dir Hd.
  - unfold UngoogledPatcher.apply_extra_patches. missing_dir Hd.
  - unfold UngoogledPatcher.apply_inox_patches. missing_dir Hd.
Qed.

Lemma group_without_directory (self : ClangOptimizer.t) s :
  (fs (world s) !! PyPath.join (ClangOptimizer.clang_dir self) "V8" = None ->
   exists s1, ClangOptimizer.apply_v8_optimizations self s = (s1, Ok false)
              /\ world s1 = world s /\ calls s1 = calls s) /\
  (fs (world s) !! PyPath.join (ClangOptimizer.clang_dir self) "Windows" = None ->
   exists s1, ClangOptimizer.apply_windows_optimizations self s = (s1, Ok false)
              /\ world s1 = world s /\ calls s1 = calls s) /\
  (fs (world s) !! PyPath.join (ClangOptimizer.clang_dir self) "Linux" = None ->
   exists s1, ClangOptimizer.apply_linux_optimizations self s = (s1, Ok false)
              /\ world s1 = world s /\ calls s1 = calls s).
Proof.
  split; [|split]; intros Hd.
  - unfold ClangOptimizer.apply_v8_optimizations. missing_dir Hd.
  - unfold ClangOptimizer.apply_windows_optimizations. missing_dir Hd.
  - unfold ClangOptimizer.apply_linux_optimizations. missing_dir Hd.
Qed.

(** X16. A pipeline cannot pass without patches to apply.  A patch phase
    whose directory is missing returns [False] without a call; so when
    none of [patches/core], [patches/extra] and [patches/inox-patchset]
    exists, at most four of the seven phases of the ungoogled pipeline
    pass and [run_all] returns [False], and when none of [V8], [Windows]
    and [Linux] exists in the clang directory, at most three of the six
    phases of the optimization pipeline pass and [run_all] returns
    [False]: whatever the other phases do. *)
Theorem a_pipeline_without_patch_directories_fails :
  (forall (self : UngoogledPatcher.t) s,
     let patches := PyPath.join (UngoogledPatcher.ungoogled_dir self) "patches" in
     fs (world s) !! PyPath.join patches "core" = None ->
     fs (world s) !! PyPath.join patches "extra" = None ->
     fs (world s) !! PyPath.join patches "inox-patchset" = None ->
     exists s', UngoogledPatcher.run_all self s = (s', Ok false)) /\
  (forall (self : ClangOptimizer.t) s,
     fs (world s) !! PyPath.join (ClangOptimizer.clang_dir self) "V8" = None ->
     fs (world s) !! PyPath.join (ClangOptimizer.clang_dir self) "Windows" = None ->
     fs (world s) !! PyPath.join (ClangOptimizer.clang_dir self) "Linux" = None ->
     exists s', ClangOptimizer.run_all self s = (s', Ok false)).
Proof.
  split.
  - intros self s patches Hcore Hextra Hinox. subst patches.
    destruct (series_without_directory self (ungoogled_start s)) as (H1 & _).
    destruct (H1 Hcore) as (s1 & E1 & W1 & _).
    destruct (series_without_directory self s1) as (_ & H2 & _).
    destruct H2 as (s2 & E2 & W2 & _); [rewrite W1; exact Hextra|].
    destruct (series_without_directory self s2) as (_ & _ & H3).
    destruct H3 as (s3 & E3 & W3 & _); [rewrite W2, W1; exact Hinox|].
    destruct (logs_never_returns _ _ (logs_domain_substitution self) s3) as (s4 & b4 & E4).
    destruct (logs_never_returns _ _ (logs_pruning self) s4) as (s5 & b5 & E5).
    destruct (logs_never_returns _ _ (logs_build_flags self) s5) as (s6 & b6 & E6).
    destruct (logs_never_returns _ _ (logs_verify_patches self) s6) as (s7 & b7 & E7).
    assert (Hp : phases_return (ungoogled_phases self) (ungoogled_start s)
                   [false; false; false; b4; b5; b6; b7] s7).
    { unfold ungoogled_phases. cbn [phases_return].
      repeat (eexists; split; [eassumption|]). reflexivity. }
    pose proof (ungoogled_verdict _ _ _ _ Hp) as Hv.
    destruct (UngoogledPatcher.run_all self s) as [s' r]. simpl in Hv. subst r.
    exists s'. destruct b4, b5, b6, b7; reflexivity.
  - intros self s Hv8 Hwin Hlinux.
    destruct (group_without_directory self (optimizer_start s)) as (H1 & _).
    destruct (H1 Hv8) as (s1 & E1 & W1 & _).
    destruct (group_without_directory self s1) as (_ & H2 & _).
    destruct H2 as (s2 & E2 & W2 & _); [rewrite W1; exact Hwin|].
    destruct (group_without_directory self s2) as (_ & _ & H3).
    destruct H3 as (s3 & E3 & W3 & _); [rewrite W2, W1; exact Hlinux|].
    destruct (logs_never_returns _ _ (logs_configure self) s3) as (s4 & b4 & E4).
    destruct (logs_never_returns _ _ (logs_toolchain self) s4) as (s5 & b5 & E5).
    destruct (logs_never_returns _ _ (logs_verify_optimizations self) s5)
      as (s6 & b6 & E6).
    assert (Hp : phases_return (optimizer_phases self) (optimizer_start s)
                   [false; false; false; b4; b5; b6] s6).
    { unfold optimizer_phases. cbn [phases_return].
      repeat (eexists; split; [eassumption|]). reflexivity. }
    pose proof (optimizer_verdict _ _ _ _ Hp) as Hv.
    destruct (ClangOptimizer.run_all self s) as [s' r]. simpl in Hv. subst r.
    exists s'. destruct b4, b5, b6; reflexivity.
Qed.

End MissingDirectories.

(** ** The scenarios *)

Section Scenarios.
Import Scenario.

(** C1 at the scenario of the specification: [b.patch] fails both ways,
    so [a.patch] and [b.patch] are attempted and [c.patch] never is. *)
Lemma all_or_nothing_stops_at_first_failure_witness :
  let E := ext (rejects ["/u/patches/core/b.patch"]) in
  exists s' dl dc,
    @UngoogledPatcher._apply_patch_series E patcher "/u/patches/core" "core" series_tree
    = (s', Ok false) /\
    log s' = log series_tree ++ dl /\ calls s' = calls series_tree ++ dc /\
    attempted dc = ["/u/patches/core/a.patch"; "/u/patches/core/b.patch"] /\
    length (attempted dc) + length (at_level WARNING dl) = 1 + 1.
Proof.
  intros E.
  pose (s1 := (@UngoogledPatcher.patch_loop E patcher "/u/patches/core" ["a.patch"] 0
                 (loop_entry "core" ["a.patch"; "b.patch"; "c.patch"] series_tree)).1).
  pose (s2 := (@UngoogledPatcher._apply_single_patch E patcher
                 "/u/patches/core/b.patch" s1).1).
  destruct (@all_or_nothing_stops_at_first_failure E patcher "/u/patches/core" "core"
              ["a.patch"] "b.patch" ["c.patch"] series_tree series_tree s1 1 s2)
    as (s' & dl & dc & Hrun & _ & _ & Hl & Hc & _ & Hn).
  - vm_compute. reflexivity.
  - vm_compute. reflexivity.
  - vm_compute. discriminate.
  - vm_compute. reflexivity.
  - exists s', dl, dc. repeat split; try assumption.
    assert (Hs' : s' = (@UngoogledPatcher._apply_patch_series E patcher
                          "/u/patches/core" "core" series_tree).1)
      by (rewrite Hrun; reflexivity).
    assert (Hdc : dc = drop (length (calls series_tree)) (calls s')).
    { rewrite Hc. rewrite drop_app_length. reflexivity. }
    rewrite Hdc, Hs'. vm_compute. reflexivity.
Defined.

(** C1 as stated fails: when the first failing patch comes after a patch
    that is missing, fewer steps are attempted than its index plus one.
    Here the manifest is [a.patch; b.patch], [a.patch] is not on disk and
    [b.patch], at index 1, fails: one step is attempted, not two. *)
Lemma attempted_is_not_index_plus_one :
  ~ (forall (E : External) self dir name pre p post s s0 s1 n1 s2 s',
       UngoogledPatcher.read_patch_files dir s = (s0, Ok (pre ++ p :: post)) ->
       UngoogledPatcher.patch_loop self dir pre 0 (loop_entry name (pre ++ p :: post) s0)
       = (s1, Ok (inr n1)) ->
       fs (world s1) !! PyPath.join dir p <> None ->
       UngoogledPatcher._apply_single_patch self (PyPath.join dir p) s1 = (s2, Ok false) ->
       UngoogledPatcher._apply_patch_series self dir name s = (s', Ok false) ->
       length (attempted (drop (length (calls s)) (calls s'))) = length pre + 1).
Proof.
  intros Hclaim.
  pose (E := ext (rejects ["/u/patches/core/b.patch"])).
  pose (s1 := (@UngoogledPatcher.patch_loop E patcher "/u/patches/core" ["a.patch"] 0
                 (loop_entry "core" ["a.patch"; "b.patch"] missing_a_tree)).1).
  pose (s2 := (@UngoogledPatcher._apply_single_patch E patcher
                 "/u/patches/core/b.patch" s1).1).
  pose (s' := (@UngoogledPatcher._apply_patch_series E patcher "/u/patches/core" "core"
                 missing_a_tree).1).
  specialize (Hclaim E patcher "/u/patches/core" "core" ["a.patch"] "b.patch" []
                missing_a_tree missing_a_tree s1 0 s2 s').
  assert (Hfalse : 1 = 2); [|discriminate].
  apply Hclaim.
  - vm_compute. reflexivity.
  - vm_compute. reflexivity.
  - vm_compute. discriminate.
  - vm_compute. reflexivity.
  - vm_compute. reflexivity.
Qed.

(** C10 on a manifest [a.patch; b.patch; c.patch] whose [b.patch] is not
    on disk, every patch that exists applying cleanly: [a.patch] and
    [c.patch] are both applied and the series still returns [False]. *)
Lemma missing_patch_is_skipped_and_sinks_series_witness :
  let E := ext always_applies in
  let run := @UngoogledPatcher._apply_patch_series E patcher "/u/patches/core" "core"
               missing_b_tree in
  run.2 = Ok false /\
  attempted (calls run.1) = ["/u/patches/core/a.patch"; "/u/patches/core/c.patch"] /\
  at_level WARNING (log run.1) = [(WARNING, "Patch file not found: b.patch")].
Proof.
  intros E run.
  pose (s1 := (@UngoogledPatcher.patch_loop E patcher "/u/patches/core" ["a.patch"] 0
                 (loop_entry "core" ["a.patch"; "b.patch"; "c.patch"] missing_b_tree)).1).
  destruct (@missing_patch_is_skipped_and_sinks_series E patcher "/u/patches/core" "core"
              ["a.patch"] "b.patch" ["c.patch"] missing_b_tree missing_b_tree s1 1)
    as (_ & s' & Hrun).
  - vm_compute. reflexivity.
  - vm_compute. reflexivity.
  - vm_compute. reflexivity.
  - subst run. rewrite Hrun. split; [reflexivity|].
    assert (Hs' : s' = (@UngoogledPatcher._apply_patch_series E patcher
                          "/u/patches/core" "core" missing_b_tree).1)
      by (rewrite Hrun; reflexivity).
    simpl. rewrite Hs'. split; vm_compute; reflexivity.
Defined.

(** C2 as stated fails for the toolchain setup: the only step it has, the
    run of the update script, exits with status 1, no step succeeded, and
    the setup still passes. *)
Lemma toolchain_passes_without_a_success :
  let E := ext always_rejects in
  let run := @ClangOptimizer.setup_custom_toolchain E optimizer toolchain_tree in
  let cmd := ["python3"; "/c/tools/clang/scripts/update.py"; "--bootstrap";
              "--without-android"; "--without-fuchsia"; "--disable-asserts";
              "--thinlto"; "--pgo"] in
  calls run.1 = [SubprocessRun cmd "/c"] /\
  exit_ok (@subprocess_run E cmd "/c" (world toolchain_tree)).2 = false /\
  at_level WARNING (log run.1)
  = [(WARNING, "Custom toolchain setup had issues, continuing...")] /\
  run.2 = Ok true /\
  ~ (run.2 = Ok true <-> 0 < succeeded_count [false]).
Proof.
  intros E run cmd. repeat split; try (vm_compute; reflexivity).
  intros [Hpass _]. specialize (Hpass eq_refl). vm_compute in Hpass. lia.
Qed.

(** C3 on a run of the ungoogled pipeline in which the three patch
    series, pruning and the build flags pass while the substitution (its
    list of targets cannot be read) and the verification (no marker is
    found) fail: five phases of seven passed, the exit status is 0. *)
Lemma pipeline_verdict_and_exit_status_witness :
  let E := ext always_applies in
  phases_logged (log (@UngoogledPatcher.main E "/u" "/c" false verdict_tree).1)
  = ungoogled_banners /\
  exit_status (@UngoogledPatcher.main E "/u" "/c" false verdict_tree).2 = 0%Z.
Proof.
  intros E. split; [vm_compute; reflexivity|].
  destruct (@pipeline_verdict_and_exit_status E) as (_ & _ & _ & _ & Hscenario).
  pose (s0 := ungoogled_start verdict_tree).
  pose (s1 := (@UngoogledPatcher.apply_core_patches E patcher s0).1).
  pose (s2 := (@UngoogledPatcher.apply_extra_patches E patcher s1).1).
  pose (s3 := (@UngoogledPatcher.apply_inox_patches E patcher s2).1).
  pose (s4 := (@UngoogledPatcher.apply_domain_substitution E patcher s3).1).
  pose (s5 := (UngoogledPatcher.apply_pruning patcher s4).1).
  pose (s6 := (UngoogledPatcher.apply_build_flags patcher s5).1).
  pose (s7 := (UngoogledPatcher.verify_patches patcher s6).1).
  apply (Hscenario "/u" "/c" false verdict_tree verdict_tree patcher s7).
  - vm_compute. reflexivity.
  - exists s1. split; [vm_compute; reflexivity|].
    exists s2. split; [vm_compute; reflexivity|].
    exists s3. split; [vm_compute; reflexivity|].
    exists s4. split; [vm_compute; reflexivity|].
    exists s5. split; [vm_compute; reflexivity|].
    exists s6. split; [vm_compute; reflexivity|].
    exists s7. split; [vm_compute; reflexivity|].
    reflexivity.
Defined.

(** C4 on a patch that applies cleanly (one call, the primary one) and
    on a patch that both methods reject (two calls, the primary one and
    then the fallback, and the step fails). *)
Lemma patch_step_fallback_discipline_witness :
  let p := "/u/patches/core/a.patch" in
  let clean := @UngoogledPatcher._apply_single_patch (ext always_applies) patcher p
                 series_tree in
  let bad := @UngoogledPatcher._apply_single_patch (ext always_rejects) patcher p
               series_tree in
  (clean.2 = Ok true /\
   calls clean.1 = [SubprocessRun (UngoogledPatcher.primary_cmd p) "/c"]) /\
  calls bad.1 = [SubprocessRun (UngoogledPatcher.primary_cmd p) "/c";
                 SubprocessRun (UngoogledPatcher.fallback_cmd p) "/c"] /\
  bad.2 = Ok false.
Proof.
  intros p clean bad.
  destruct (@patch_step_fallback_discipline (ext always_applies) patcher optimizer
              p series_tree) as (Hzero & _).
  destruct (@patch_step_fallback_discipline (ext always_rejects) patcher optimizer
              p series_tree) as (_ & Hnonzero & _).
  split; [apply Hzero; vm_compute; reflexivity|].
  split; [apply Hnonzero; vm_compute; reflexivity|].
  vm_compute. reflexivity.
Defined.

(** C4 as stated fails: when [git] cannot be launched the step fails
    although the fallback did not fail: it was never run. *)
Lemma step_fails_without_trying_the_fallback :
  ~ (forall (E : External) self p s,
       (UngoogledPatcher._apply_single_patch self p s).2 = Ok false ->
       SubprocessRun (UngoogledPatcher.fallback_cmd p) (UngoogledPatcher.chromium_dir self)
       ∈ calls (UngoogledPatcher._apply_single_patch self p s).1).
Proof.
  intros Hclaim.
  specialize (Hclaim (ext nothing_installed) patcher "/u/patches/core/a.patch" series_tree).
  assert (Hin : SubprocessRun (UngoogledPatcher.fallback_cmd "/u/patches/core/a.patch") "/c"
                ∈ [SubprocessRun (UngoogledPatcher.primary_cmd "/u/patches/core/a.patch")
                     "/c"]).
  { apply Hclaim. vm_compute. reflexivity. }
  apply list_elem_of_singleton in Hin. discriminate.
Qed.

(** C5 on a patch that [git apply] rejects and [patch] applies in part:
    in the optimization pipeline the step succeeds, with a warning; in
    the ungoogled pipeline it fails, with the error of the fallback. *)
Lemma partial_application_is_a_soft_success_witness :
  let E := ext partial_patch in
  let run := @ClangOptimizer.apply_counted E optimizer "V8" "/o/V8/a.patch" 0
               toolchain_tree in
  let step := @UngoogledPatcher._apply_single_patch E patcher "/o/V8/a.patch"
                toolchain_tree in
  (run.2 = Ok 1 /\
   at_level WARNING (log run.1) = [(WARNING, "Partial patch success: a.patch")]) /\
  (step.2 = Ok false /\
   last (log step.1) = Some (ERROR, "Fallback patch failed: a.patch") /\
   at_level WARNING (log step.1) = []).
Proof.
  intros E run step.
  destruct (@partial_application_is_a_soft_success E optimizer patcher "V8"
              "/o/V8/a.patch" 0 toolchain_tree) as [Hsoft Hhard].
  split.
  - destruct Hsoft as (s' & dl & _ & Hcount & _ & Hl & Hw & _).
    + vm_compute. reflexivity.
    + vm_compute. reflexivity.
    + vm_compute. reflexivity.
    + subst run. rewrite Hcount. simpl. split; [reflexivity|].
      rewrite Hl. simpl. rewrite Hw. vm_compute. reflexivity.
  - destruct Hhard as (s' & dl & Hstep & _ & _ & Hl & Hw & Hlast).
    + vm_compute. reflexivity.
    + vm_compute. reflexivity.
    + vm_compute. reflexivity.
    + vm_compute. reflexivity.
    + subst step. rewrite Hstep. simpl. split; [reflexivity|].
      rewrite Hl. simpl. split.
      * rewrite Hlast. vm_compute. reflexivity.
      * rewrite Hw. reflexivity.
Defined.

(** C5 as stated fails for the ungoogled pipeline: the same partial
    application there is a failure, logged as an error. *)
Lemma partial_application_fails_in_ungoogled :
  let E := ext partial_patch in
  let p := "/u/patches/core/a.patch" in
  let run := @UngoogledPatcher._apply_single_patch E patcher p series_tree in
  let r1 := @subprocess_run E (UngoogledPatcher.primary_cmd p) "/c" (world series_tree) in
  let r2 := @subprocess_run E (UngoogledPatcher.fallback_cmd p) "/c" r1.1 in
  launched r1.2 = true /\ exit_ok r1.2 = false /\ partial_ok r2.2 = true /\
  run.2 = Ok false /\
  last (log run.1) = Some (ERROR, "Fallback patch failed: a.patch") /\
  at_level WARNING (log run.1) = [].
Proof. intros E p run r1 r2. repeat split; vm_compute; reflexivity. Qed.

(** C6 on a list of two files: the first pass removes both, the second
    pass returns [True] again and removes nothing; and when the removal
    of a file is refused, the step raises the error of that removal. *)
Lemma prune_is_idempotent_witness :
  let first := UngoogledPatcher.apply_pruning patcher prune_tree in
  let second := UngoogledPatcher.apply_pruning patcher first.1 in
  let refused := UngoogledPatcher.prune_target patcher "a.bin" 0 refused_prune_tree in
  (first.2 = Ok true /\ calls first.1 = [Unlink "/c/a.bin"; Unlink "/c/b.bin"]) /\
  (second.2 = Ok true /\ world second.1 = world first.1 /\ calls second.1 = calls first.1) /\
  (refused.2 = Raise (OS.permission_denied "/c/a.bin") /\
   exists k, k ∈ denied (world refused_prune_tree) /\
             OS.permission_denied "/c/a.bin" = OS.permission_denied k).
Proof.
  intros first second refused.
  split; [split; vm_compute; reflexivity|].
  destruct (prune_is_idempotent patcher "a.bin" 0 prune_tree) as (_ & _ & _ & Hpass).
  destruct (prune_is_idempotent patcher "a.bin" 0 refused_prune_tree)
    as (_ & _ & Hraise & _).
  split.
  - destruct (Hpass first.1) as (s2 & Hrun & Hw & Hc).
    + vm_compute. reflexivity.
    + vm_compute. reflexivity.
    + subst second. rewrite Hrun. simpl. repeat split; assumption.
  - split; [vm_compute; reflexivity|].
    apply (Hraise refused.1 (OS.permission_denied "/c/a.bin")).
    vm_compute. reflexivity.
Defined.

(** C7 on the tree of the scenario, with the regular expression engine
    for literal patterns: the target holds [https://example.invalid/x]
    after the first run, and the second run writes nothing (for the file
    itself [_substitute_domains_in_file] then returns [False], its value
    for a file it did not change, and logs nothing). *)
Lemma domain_substitution_scenario_witness :
  let E := ext nothing_installed in
  let first := @UngoogledPatcher.apply_domain_substitution E patcher substitution_tree in
  let second := @UngoogledPatcher.apply_domain_substitution E patcher first.1 in
  (first.2 = Ok true /\
   fs (world first.1) !! "/c/url.txt" = Some (File "https://example.invalid/x") /\
   calls first.1 = [OpenWrite "/c/url.txt"]) /\
  (second.2 = Ok true /\ world second.1 = world first.1 /\ calls second.1 = calls first.1) /\
  @UngoogledPatcher._substitute_domains_in_file E patcher "/c/url.txt"
    ["example\.com@example.invalid"] first.1 = (first.1, Ok false).
Proof.
  intros E first second.
  destruct (@domain_substitution_scenario E substitution_tree)
    as (H1 & H2 & _ & H4 & H5 & H6 & H7).
  - vm_compute. reflexivity.
  - vm_compute. reflexivity.
  - vm_compute. reflexivity.
  - vm_compute. reflexivity.
  - intros Hin. vm_compute in Hin. discriminate.
  - intros Hin. vm_compute in Hin. discriminate.
  - intros Hin. vm_compute in Hin. discriminate.
  - vm_compute. reflexivity.
  - vm_compute. reflexivity.
  - vm_compute. reflexivity.
  - split; [repeat split; assumption|]. split; [repeat split; assumption|].
    vm_compute. reflexivity.
Defined.



(** C9 fails on a tree whose core manifest cannot be read: the exception
    of [open] is caught nowhere, [run_all] ends with it after the first
    phase, the six other phases are never attempted and the process exits
    with status 1. *)
Lemma unreadable_manifest_ends_the_run :
  let E := ext always_applies in
  let run := @UngoogledPatcher.run_all E patcher broken_manifest_tree in
  run.2 = Raise (PyException "[Errno 21] Is a directory: '/u/patches/core/series'") /\
  phases_logged (log run.1) = ["Applying core privacy patches..."] /\
  exit_status (@UngoogledPatcher.main E "/u" "/c" false broken_manifest_tree).2 = 1%Z.
Proof. intros E run. repeat split; vm_compute; reflexivity. Qed.

(** The run of the ungoogled pipeline in which five phases of seven pass
    returns, and has opened the seven phases in order. *)
Lemma phases_attempted_once_in_order_witness :
  let E := ext always_applies in
  let run := @UngoogledPatcher.run_all E patcher verdict_tree in
  run.2 = Ok true /\
  exists dl, log run.1 = log verdict_tree ++ dl /\ phases_logged dl = ungoogled_banners.
Proof.
  intros E run. split; [vm_compute; reflexivity|].
  destruct (@phases_attempted_once_in_order E) as (_ & Hreturns & _).
  apply (Hreturns patcher verdict_tree run.1 true).
  vm_compute. reflexivity.
Defined.

(** The run in which five phases pass, compared with itself. *)
Lemma verdict_is_monotone_witness :
  let E := ext always_applies in
  (@UngoogledPatcher.run_all E patcher verdict_tree).2 = Ok true.
Proof.
  intros E.
  pose (s0 := ungoogled_start verdict_tree).
  pose (s1 := (@UngoogledPatcher.apply_core_patches E patcher s0).1).
  pose (s2 := (@UngoogledPatcher.apply_extra_patches E patcher s1).1).
  pose (s3 := (@UngoogledPatcher.apply_inox_patches E patcher s2).1).
  pose (s4 := (@UngoogledPatcher.apply_domain_substitution E patcher s3).1).
  pose (s5 := (UngoogledPatcher.apply_pruning patcher s4).1).
  pose (s6 := (UngoogledPatcher.apply_build_flags patcher s5).1).
  pose (s7 := (UngoogledPatcher.verify_patches patcher s6).1).
  assert (Hrun : phases_return (@ungoogled_phases E patcher) s0
                   [true; true; true; false; true; true; false] s7).
  { exists s1. split; [vm_compute; reflexivity|].
    exists s2. split; [vm_compute; reflexivity|].
    exists s3. split; [vm_compute; reflexivity|].
    exists s4. split; [vm_compute; reflexivity|].
    exists s5. split; [vm_compute; reflexivity|].
    exists s6. split; [vm_compute; reflexivity|].
    exists s7. split; [vm_compute; reflexivity|].
    reflexivity. }
  apply (@verdict_is_monotone E patcher verdict_tree verdict_tree _ _ s7 s7 Hrun Hrun).
  - repeat constructor; intros; assumption.
  - vm_compute. reflexivity.
Defined.

End Scenarios.

(** ** More scenarios *)

Section MoreScenarios.
Import Scenario.

(** X7 on a complete tree, and on a tree without the ungoogled
    directory. *)
Lemma ungoogled_configuration_is_checked_first_witness :
  let E := ext nothing_installed in
  UngoogledPatcher.__init__ "/u" "/c" false substitution_tree
  = (substitution_tree, Ok patcher) /\
  exists msg,
    @UngoogledPatcher.main E "/u" "/c" false toolchain_tree
    = (mkState (world toolchain_tree) (log toolchain_tree ++ [(ERROR, msg)])
               (calls toolchain_tree),
       Raise (SystemExit 1)).
Proof.
  intros E. split.
  - destruct (@ungoogled_configuration_is_checked_first E "/u" "/c" false substitution_tree)
      as [Hready _].
    apply Hready. vm_compute. reflexivity.
  - destruct (@ungoogled_configuration_is_checked_first E "/u" "/c" false toolchain_tree)
      as [_ Hmissing].
    apply Hmissing. vm_compute. reflexivity.
Defined.

(** X8 on a tree with both directories, and on a tree without the
    clang directory. *)
Lemma optimizer_configuration_is_checked_first_witness :
  let E := ext nothing_installed in
  ClangOptimizer.__init__ "/o" "/c" "avx512" false toolchain_tree
  = (toolchain_tree, Ok optimizer) /\
  exists msg,
    @ClangOptimizer.main E "/o" "/c" "avx512" false substitution_tree
    = (mkState (world substitution_tree) (log substitution_tree ++ [(ERROR, msg)])
               (calls substitution_tree),
       Raise (SystemExit 1)).
Proof.
  intros E. split.
  - destruct (@optimizer_configuration_is_checked_first E "/o" "/c" "avx512" false
                toolchain_tree) as [Hready _].
    apply Hready. vm_compute. reflexivity.
  - destruct (@optimizer_configuration_is_checked_first E "/o" "/c" "avx512" false
                substitution_tree) as [_ Hmissing].
    apply Hmissing. vm_compute. reflexivity.
Defined.

(** X9 on a tree without a single patch and without a build directory:
    the configuration creates [args.gn], which starts with nothing of an
    earlier step, and the verification that follows passes. *)
Lemma configured_arguments_pass_verification_witness :
  let s1 := (ClangOptimizer.configure_build_args optimizer toolchain_tree).1 in
  fs (world s1) !! ClangOptimizer.args_gn "/c"
  = Some (File (fstr [""; nl; nl; "# Chromium Clang Optimizations"; nl;
                      ClangOptimizer._generate_optimization_flags optimizer])) /\
  (ClangOptimizer.verify_optimizations optimizer s1).2 = Ok true.
Proof.
  intros s1.
  apply (configured_arguments_pass_verification optimizer toolchain_tree s1 s1).
  - vm_compute. reflexivity.
  - reflexivity.
  - intros Hin. vm_compute in Hin. discriminate.
Defined.

(** X10 on the manifest of three patches, all of which apply. *)
Lemma series_follows_the_manifest_witness :
  let E := ext always_applies in
  exists s' b dc ran,
    @UngoogledPatcher._apply_patch_series E patcher "/u/patches/core" "core" series_tree
    = (s', Ok b) /\
    made series_tree s' dc /\
    attempted dc = map (PyPath.join "/u/patches/core") ran /\
    ran `sublist_of` ["a.patch"; "b.patch"; "c.patch"] /\
    (b = true -> ran = ["a.patch"; "b.patch"; "c.patch"]) /\
    (["a.patch"; "b.patch"; "c.patch"] = [] -> b = true /\ dc = []).
Proof.
  intros E.
  apply (@series_follows_the_manifest E patcher "/u/patches/core" "core" series_tree).
  vm_compute. reflexivity.
Defined.

(** X11 on a directory that holds [b.patch] and [a.patch] and no
    manifest: the list is [a.patch], [b.patch]. *)
Lemma unlisted_patches_run_in_name_order_witness :
  UngoogledPatcher.read_patch_files "/u/patches/core" unlisted_tree
  = (unlisted_tree, Ok ["a.patch"; "b.patch"]) /\
  StronglySorted String.le ["a.patch"; "b.patch"].
Proof.
  destruct (unlisted_patches_run_in_name_order "/u/patches/core" unlisted_tree)
    as (l & Hread & Hsorted & _).
  - vm_compute. reflexivity.
  - assert (Hl : l = ["a.patch"; "b.patch"]).
    { assert (Hv : (UngoogledPatcher.read_patch_files "/u/patches/core" unlisted_tree).2
                   = Ok ["a.patch"; "b.patch"]) by (vm_compute; reflexivity).
      rewrite Hread in Hv. simpl in Hv. congruence. }
    subst l. split; assumption.
Defined.

(** X13 on a tree whose [args.gn] holds one line of an earlier step. *)
Lemma build_flags_are_appended_on_every_run_witness :
  let block := fstr [nl; nl; "# Ungoogled-Chromium specific flags"; nl;
                     "enable_reporting = false"] in
  exists s1 s2,
    UngoogledPatcher.apply_build_flags patcher configured_tree = (s1, Ok true) /\
    UngoogledPatcher.apply_build_flags patcher s1 = (s2, Ok true) /\
    fs (world s1) !! "/c/out/Ultimate/args.gn" = Some (File ("is_debug = false" +:+ block)) /\
    fs (world s2) !! "/c/out/Ultimate/args.gn"
    = Some (File (("is_debug = false" +:+ block) +:+ block)).
Proof.
  intros block.
  destruct (build_flags_are_appended_on_every_run patcher configured_tree
              "enable_reporting = false") as (s1 & s2 & E1 & E2 & L1 & L2).
  - vm_compute. reflexivity.
  - intros Hin. vm_compute in Hin. discriminate.
  - vm_compute. discriminate.
  - vm_compute. reflexivity.
  - vm_compute. discriminate.
  - intros Hin. vm_compute in Hin. discriminate.
  - exists s1, s2. split; [exact E1|]. split; [exact E2|].
    split; [exact L1 | exact L2].
Defined.

(** X16 on an ungoogled tree without a patch series and on a clang
    directory without a patch group, with tools that would apply every
    patch. *)
Lemma a_pipeline_without_patch_directories_fails_witness :
  let E := ext always_applies in
  (exists s', @UngoogledPatcher.run_all E patcher substitution_tree = (s', Ok false)) /\
  (exists s', @ClangOptimizer.run_all E optimizer toolchain_tree = (s', Ok false)).
Proof.
  intros E. destruct (@a_pipeline_without_patch_directories_fails E) as [Hu Ho]. split.
  - apply (Hu patcher substitution_tree); vm_compute; reflexivity.
  - apply (Ho optimizer toolchain_tree); vm_compute; reflexivity.
Defined.

(** X12 on a clang directory without a patch group, with tools that
    reject everything: the configuration, the toolchain and the
    verification pass, three phases of the other five, and the run
    returns [False]. *)
Lemma toolchain_always_counts_witness :
  let E := ext always_rejects in
  exists s6 b1 b2 b3 b4 b6,
    phases_return (@optimizer_phases E optimizer) (optimizer_start toolchain_tree)
      [b1; b2; b3; b4; true; b6] s6 /\
    false = (3 <=? succeeded_count [b1; b2; b3; b4; b6]).
Proof.
  intros E.
  apply (@toolchain_always_counts E optimizer toolchain_tree
           (@ClangOptimizer.run_all E optimizer toolchain_tree).1 false).
  vm_compute. reflexivity.
Defined.

(** X15 on the tree of the substitution scenario: the pass returns
    [True], and both lists and the module are there. *)
Lemma domain_substitution_passes_only_with_its_lists_witness :
  let E := ext nothing_installed in
  (@UngoogledPatcher.apply_domain_substitution E patcher substitution_tree).2 = Ok true /\
  readable (world substitution_tree) "/u/domain_substitution.list" = true /\
  readable (world substitution_tree) "/u/domain_regex.list" = true /\
  "utils.substitution.SubstitutionDescriptor" ∈ modules (world substitution_tree).
Proof.
  intros E.
  destruct (@domain_substitution_passes_only_with_its_lists E patcher substitution_tree)
    as (s' & b & Hrun & Hneeds).
  assert (Hv : (@UngoogledPatcher.apply_domain_substitution E patcher substitution_tree).2
               = Ok true) by (vm_compute; reflexivity).
  split; [exact Hv|]. rewrite Hrun in Hv. simpl in Hv. injection Hv as ->.
  exact (Hneeds eq_refl).
Defined.

End MoreScenarios.
